(** * Photoslop: editor store, history log and canvas transforms

    A shallow embedding of the editor core of the photoslop image editor:
    the zustand store (`stores/editorStore`), the canvas utilities (the
    module that exports `rotateCanvas`), `App.handleRotate`, and the tool
    handler (`components/canvas/CanvasToolHandler.tsx`, of which the
    sources hold two copies).

    Conventions.
    - A JavaScript number that only ever holds an array index or a length is
      a [Z]; every other number (coordinates, sizes, zoom, angles) is an
      exact rational [Q].  Rounding error of IEEE doubles is not part of the
      model: arithmetic facts are stated up to [Qeq].
    - `undefined`/`null` is [None]; `a ?? d` is [JS.nullish].
    - The store is a record; `set(partial)` replaces the listed fields and
      keeps every other one.
    - Values produced by the environment (`uuid()`, `Date.now()`,
      `Math.cos`, the rendered bitmap, Fabric's hit test) are arguments. *)

From Stdlib Require Import ZArith QArith Qround Lqa Lia String Ascii List.
From Stdlib Require Import HexadecimalString Permutation.
From Stdlib Require DecimalString HexadecimalN.
From stdpp Require Import base option list strings.

Local Open Scope Z_scope.

(* ================================================================== *)
(** ** JavaScript primitives used by the sources                       *)
(* ================================================================== *)

Module JS.

(** `x ?? d` *)
Definition nullish {A : Type} (x : option A) (d : A) : A :=
  match x with Some v => v | None => d end.

(** `Math.max` / `Math.min` on rationals: one of the two arguments. *)
Definition Math_max (a b : Q) : Q := if Qle_bool a b then b else a.
Definition Math_min (a b : Q) : Q := if Qle_bool a b then a else b.

(** `Math.round`: the nearest integer, halves rounded up. *)
Definition round_int (x : Q) : Z := Qfloor (x + (1 # 2)).
Definition Math_round (x : Q) : Q := inject_Z (round_int x).

(** `a < b` on numbers. *)
Definition lt (a b : Q) : bool := negb (Qle_bool b a).

(** `a % b` on numbers: the remainder has the sign of the dividend. *)
Definition trunc (x : Q) : Z := Z.quot (Qnum x) (Z.pos (Qden x)).
Definition rem (a b : Q) : Q := (a - b * inject_Z (trunc (a / b)))%Q.

(** `a === b` on numbers. *)
Definition num_eq (a b : Q) : bool := Qeq_bool a b.

(** ToInt32 and `a << b`. *)
Definition int32 (x : Z) : Z := (x + 2 ^ 31) mod 2 ^ 32 - 2 ^ 31.
Definition shl (a b : Z) : Z := int32 (Z.shiftl (int32 a) (b mod 32)).

(** A relative index of `slice`/`splice`: negative counts from the end,
    and the result is clamped to [0, len]. *)
Definition rel_index (len k : Z) : Z :=
  if k <? 0 then Z.max (len + k) 0 else Z.min k len.

(** `arr.slice(start, end)` *)
Definition Array_slice {A : Type} (arr : list A) (start end_ : Z) : list A :=
  let len := Z.of_nat (length arr) in
  let k := rel_index len start in
  let fin := rel_index len end_ in
  take (Z.to_nat (fin - k)) (drop (Z.to_nat k) arr).

(** `arr.splice(start, deleteCount, ...items)`: the removed elements and
    the array afterwards. *)
Definition Array_splice {A : Type} (arr : list A) (start deleteCount : Z)
    (items : list A) : list A * list A :=
  let len := Z.of_nat (length arr) in
  let k := rel_index len start in
  let dc := Z.min (Z.max deleteCount 0) (len - k) in
  (take (Z.to_nat dc) (drop (Z.to_nat k) arr),
   take (Z.to_nat k) arr ++ items ++ drop (Z.to_nat (k + dc)) arr).

(** `arr.shift()` keeps everything but the first element. *)
Definition Array_shift {A : Type} (arr : list A) : list A := tail arr.

(** `n.toString(16)` for an integer. *)
Definition toString16 (n : Z) : string :=
  match n with
  | Z.neg p => String "-" (NilZero.string_of_uint (N.to_hex_uint (N.pos p)))
  | _ => NilZero.string_of_uint (N.to_hex_uint (Z.to_N n))
  end.

(** `s.slice(1)` on a string. *)
Definition String_slice1 (s : string) : string :=
  match s with EmptyString => EmptyString | String _ r => r end.

End JS.

(* ================================================================== *)
(** ** Data model (`types`)                                            *)
(* ================================================================== *)

Inductive BlendMode :=
| source_over | multiply | screen | overlay | darken | lighten
| color_dodge | color_burn | hard_light | soft_light | difference
| exclusion | blend_hue | blend_saturation | blend_color | luminosity.

Inductive LayerType := raster | text_layer | shape | adjustment | group.

Inductive AdjustmentType :=
| brightness_contrast | hue_saturation | levels | curves | color_balance
| adj_exposure | adj_vibrance.

Record Layer := mkLayer {
  layer_id : string;
  layer_name : string;
  layer_visible : bool;
  layer_locked : bool;
  layer_opacity : Q;
  layer_blendMode : BlendMode;
  layer_type : LayerType;
  layer_thumbnail : option string;
  layer_children : option (list string);
  layer_parentId : option string;
  layer_clipMask : option bool;
  layer_adjustmentType : option AdjustmentType;
  layer_adjustmentValues : option (list (string * Q))
}.

Inductive Tool :=
| T_move | T_marquee_rect | T_marquee_ellipse | T_lasso | T_lasso_poly
| T_magic_wand | T_crop | T_eyedropper | T_healing | T_clone_stamp
| T_spot_removal | T_brush | T_eraser | T_gradient | T_paint_bucket
| T_blur_tool | T_sharpen_tool | T_dodge | T_burn | T_pen | T_text
| T_shape_rect | T_shape_ellipse | T_shape_polygon | T_shape_line
| T_hand | T_zoom | T_liquify.

Record BrushSettings := mkBrush {
  brush_size : Q; brush_hardness : Q; brush_opacity : Q; brush_flow : Q
}.

Record HistoryEntry := mkEntry {
  entry_id : string;
  entry_label : string;
  entry_timestamp : Z;
  entry_snapshot : string
}.

Record ColorAdjustments := mkAdjustments {
  adj_brightness : Q; adj_contrast : Q; adj_exposure_v : Q;
  adj_highlights : Q; adj_shadows : Q; adj_temperature : Q; adj_tint : Q;
  adj_hue : Q; adj_saturation : Q; adj_luminance : Q; adj_vibrance_v : Q;
  adj_clarity : Q
}.

Inductive SelectionType := sel_rect | sel_ellipse | sel_lasso | sel_magic_wand | sel_none.

Record Selection := mkSelection {
  sel_type : SelectionType;
  sel_path : option (list (list Q));
  sel_feather : Q;
  sel_active : bool
}.

Record DocumentInfo := mkDoc {
  doc_width : Q; doc_height : Q; doc_name : string; doc_zoom : Q
}.

(** `Partial<DocumentInfo>`: [None] is an absent key. *)
Record DocumentPartial := mkDocPartial {
  p_width : option Q; p_height : option Q;
  p_name : option string; p_zoom : option Q
}.

(* ================================================================== *)
(** ** The Fabric scene the core drives                                *)
(* ================================================================== *)

Record Point := mkPoint { pt_x : Q; pt_y : Q }.

(** The properties of a `fabric.FabricObject` the core reads or writes.
    The numeric ones are read through `??`, so they are optional here. *)
Record FabricObject := mkObj {
  obj_left : option Q;
  obj_top : option Q;
  obj_width : option Q;
  obj_height : option Q;
  obj_scaleX : option Q;
  obj_scaleY : option Q;
  obj_angle : option Q;
  obj_fill : string;
  obj_isDocBackground : bool;
  obj_isCropOverlay : bool
}.

(** `canvas.viewportTransform`, a six-entry matrix. *)
Record TMat2D := mkMat { vpt0 : Q; vpt1 : Q; vpt2 : Q; vpt3 : Q; vpt4 : Q; vpt5 : Q }.

(** A `fabric.Canvas`: the objects in stacking order (bottom first), the
    active object as its position in that list (objects are shared by
    reference, so writing through the active object writes the scene),
    the viewport transform and the element's size. *)
Record Canvas := mkCanvas {
  objects : list FabricObject;
  activeObject : option nat;
  viewportTransform : option TMat2D;
  canvas_width : Q;
  canvas_height : Q
}.

(** One pixel of `getImageData(..).data`. *)
Record Pixel := mkPixel { px_r : Z; px_g : Z; px_b : Z; px_a : Z }.

(** The rendering surface: the lower canvas' bitmap and element. *)
Record Surface := mkSurface {
  getImageData : Z -> Z -> Pixel;
  el_width : Z;
  el_height : Z;
  retinaScaling : option Q
}.

(** `Math.cos`, `Math.sin` and `Math.PI`. *)
Record MathLib := mkMath { Math_cos : Q -> Q; Math_sin : Q -> Q; Math_PI : Q }.

(* ================================================================== *)
(** ** The store (`stores/editorStore`)                                *)
(* ================================================================== *)

Record EditorState := mkState {
  document : DocumentInfo;
  layers : list Layer;
  activeLayerId : option string;
  activeTool : Tool;
  previousTool : Tool;
  brushSettings : BrushSettings;
  foregroundColor : string;
  backgroundColor : string;
  history : list HistoryEntry;
  historyIndex : Z;
  maxHistory : Z;
  selection : Selection;
  adjustments : ColorAdjustments;
  showGrid : bool;
  showRulers : bool;
  showGuides : bool;
  snapToGrid : bool;
  fabricCanvas : option Canvas
}.

(** `set({ document })` *)
Definition set_document (d : DocumentInfo) (s : EditorState) : EditorState :=
  mkState d (layers s) (activeLayerId s) (activeTool s) (previousTool s)
    (brushSettings s) (foregroundColor s) (backgroundColor s) (history s)
    (historyIndex s) (maxHistory s) (selection s) (adjustments s)
    (showGrid s) (showRulers s) (showGuides s) (snapToGrid s) (fabricCanvas s).

(** `set({ layers, activeLayerId })` *)
Definition set_layers (ls : list Layer) (act : option string) (s : EditorState)
  : EditorState :=
  mkState (document s) ls act (activeTool s) (previousTool s)
    (brushSettings s) (foregroundColor s) (backgroundColor s) (history s)
    (historyIndex s) (maxHistory s) (selection s) (adjustments s)
    (showGrid s) (showRulers s) (showGuides s) (snapToGrid s) (fabricCanvas s).

(** `set({ foregroundColor })` *)
Definition set_foregroundColor (c : string) (s : EditorState) : EditorState :=
  mkState (document s) (layers s) (activeLayerId s) (activeTool s)
    (previousTool s) (brushSettings s) c (backgroundColor s) (history s)
    (historyIndex s) (maxHistory s) (selection s) (adjustments s)
    (showGrid s) (showRulers s) (showGuides s) (snapToGrid s) (fabricCanvas s).

(** The store after the canvas it refers to was mutated. *)
Definition set_fabricCanvas (c : option Canvas) (s : EditorState) : EditorState :=
  mkState (document s) (layers s) (activeLayerId s) (activeTool s)
    (previousTool s) (brushSettings s) (foregroundColor s) (backgroundColor s)
    (history s) (historyIndex s) (maxHistory s) (selection s) (adjustments s)
    (showGrid s) (showRulers s) (showGuides s) (snapToGrid s) c.

(** `set({ history, historyIndex })` *)
Definition set_history (h : list HistoryEntry) (i : Z) (s : EditorState)
  : EditorState :=
  mkState (document s) (layers s) (activeLayerId s) (activeTool s)
    (previousTool s) (brushSettings s) (foregroundColor s) (backgroundColor s)
    h i (maxHistory s) (selection s) (adjustments s)
    (showGrid s) (showRulers s) (showGuides s) (snapToGrid s) (fabricCanvas s).

(** `set({ historyIndex })` *)
Definition set_historyIndex (i : Z) (s : EditorState) : EditorState :=
  set_history (history s) i s.

Definition defaultAdjustments : ColorAdjustments :=
  mkAdjustments 0 0 0 0 0 0 0 0 0 0 0 0.

(** The state `create` starts from. *)
Definition initialState : EditorState := {|
  document := mkDoc 1920 1080 "Untitled" 1;
  layers := [];
  activeLayerId := None;
  activeTool := T_move;
  previousTool := T_move;
  brushSettings := mkBrush 20 100 1 1;
  foregroundColor := "#000000";
  backgroundColor := "#ffffff";
  history := [];
  historyIndex := -1;
  maxHistory := 50;
  selection := mkSelection sel_none None 0 false;
  adjustments := defaultAdjustments;
  showGrid := false;
  showRulers := true;
  showGuides := true;
  snapToGrid := false;
  fabricCanvas := None
|}.

(** `{ ...d, ...p }` *)
Definition merge_document (d : DocumentInfo) (p : DocumentPartial) : DocumentInfo := {|
  doc_width := JS.nullish (p_width p) (doc_width d);
  doc_height := JS.nullish (p_height p) (doc_height d);
  doc_name := JS.nullish (p_name p) (doc_name d);
  doc_zoom := JS.nullish (p_zoom p) (doc_zoom d)
|}.

Definition setDocument (doc : DocumentPartial) (s : EditorState) : EditorState :=
  set_document (merge_document (document s) doc) s.

Definition setForegroundColor (color : string) (s : EditorState) : EditorState :=
  set_foregroundColor color s.

(** `removeLayer`: the new active id is read from `s.layers`, the array
    before filtering. *)
Definition removeLayer (id : string) (s : EditorState) : EditorState :=
  set_layers
    (filter (fun l => layer_id l <> id) (layers s))
    (if decide (activeLayerId s = Some id)
     then layer_id <$> head (layers s)
     else activeLayerId s)
    s.

(** `reorderLayers` reads and writes the `layers` field only; it is given
    on that array.  A slot of the resulting array is [Some l] for a layer
    and [None] for `undefined`, which `const [moved] = splice(..)` yields
    when nothing was removed. *)
Definition reorderLayers (from to : Z) (ls : list Layer) : list (option Layer) :=
  let arr := Some <$> ls in
  let '(removed, arr1) := JS.Array_splice arr from 1 [] in
  let moved := match removed with m :: _ => m | [] => None end in
  snd (JS.Array_splice arr1 to 0 [moved]).

(** `pushHistory`; [uid] is `uuid()` and [now] is `Date.now()`. *)
Definition pushHistory (uid : string) (now : Z) (label snapshot : string)
    (s : EditorState) : EditorState :=
  let newHistory :=
    JS.Array_slice (history s) 0 (historyIndex s + 1)
      ++ [mkEntry uid label now snapshot] in
  let newHistory :=
    if maxHistory s <? Z.of_nat (length newHistory)
    then JS.Array_shift newHistory else newHistory in
  set_history newHistory (Z.of_nat (length newHistory) - 1) s.

Definition undo (s : EditorState) : EditorState :=
  set_historyIndex (Z.max 0 (historyIndex s - 1)) s.

Definition redo (s : EditorState) : EditorState :=
  set_historyIndex
    (Z.min (Z.of_nat (length (history s)) - 1) (historyIndex s + 1)) s.

Definition canUndo (s : EditorState) : bool := 0 <? historyIndex s.

Definition canRedo (s : EditorState) : bool :=
  historyIndex s <? Z.of_nat (length (history s)) - 1.

(** A call on the history manager, and a run of such calls. *)
Inductive HistoryCall :=
| CallPush (uid : string) (now : Z) (label snapshot : string)
| CallUndo
| CallRedo.

Definition callHistory (c : HistoryCall) (s : EditorState) : EditorState :=
  match c with
  | CallPush uid now label snapshot => pushHistory uid now label snapshot s
  | CallUndo => undo s
  | CallRedo => redo s
  end.

Definition runHistory (cs : list HistoryCall) (s : EditorState) : EditorState :=
  fold_left (fun st c => callHistory c st) cs s.

Definition isPush (c : HistoryCall) : bool :=
  match c with CallPush _ _ _ _ => true | _ => false end.

(* ================================================================== *)
(** ** Scene helpers                                                    *)
(* ================================================================== *)

Local Open Scope Q_scope.

(** `obj.set({ left, top })` *)
Definition set_position (l t : Q) (o : FabricObject) : FabricObject :=
  mkObj (Some l) (Some t) (obj_width o) (obj_height o) (obj_scaleX o)
    (obj_scaleY o) (obj_angle o) (obj_fill o) (obj_isDocBackground o)
    (obj_isCropOverlay o).

(** `obj.set({ left, top, angle })` *)
Definition set_position_angle (l t a : Q) (o : FabricObject) : FabricObject :=
  mkObj (Some l) (Some t) (obj_width o) (obj_height o) (obj_scaleX o)
    (obj_scaleY o) (Some a) (obj_fill o) (obj_isDocBackground o)
    (obj_isCropOverlay o).

(** `obj.set({ left, top, width, height })` *)
Definition set_box (l t w h : Q) (o : FabricObject) : FabricObject :=
  mkObj (Some l) (Some t) (Some w) (Some h) (obj_scaleX o)
    (obj_scaleY o) (obj_angle o) (obj_fill o) (obj_isDocBackground o)
    (obj_isCropOverlay o).

(** `obj.set('fill', color)` *)
Definition set_fill (c : string) (o : FabricObject) : FabricObject :=
  mkObj (obj_left o) (obj_top o) (obj_width o) (obj_height o) (obj_scaleX o)
    (obj_scaleY o) (obj_angle o) c (obj_isDocBackground o)
    (obj_isCropOverlay o).

Definition set_objects (os : list FabricObject) (c : Canvas) : Canvas :=
  mkCanvas os (activeObject c) (viewportTransform c) (canvas_width c)
    (canvas_height c).

(** `o._isDocBackground === true` as a decidable predicate. *)
Definition isDocBackground (o : FabricObject) : Prop :=
  obj_isDocBackground o = true.

#[global] Instance isDocBackground_dec (o : FabricObject) :
  Decision (isDocBackground o) := bool_eq_dec (obj_isDocBackground o) true.

(** `canvas.getObjects().find(o => o._isDocBackground === true)`: the
    first background object with its position. *)
Definition findBackground (os : list FabricObject) : option (nat * FabricObject) :=
  list_find isDocBackground os.

(** `if (bgRect) bgRect.set(..)`: writing through the reference `find`
    returned changes the object at the position found. *)
Definition writeFound (found : option (nat * FabricObject))
    (f : FabricObject -> FabricObject) (os : list FabricObject)
  : list FabricObject :=
  match found with
  | Some (i, _) => alter f i os
  | None => os
  end.

(** Find the background in [os] and write it. *)
Definition updateBackground (f : FabricObject -> FabricObject)
    (os : list FabricObject) : list FabricObject :=
  writeFound (findBackground os) f os.

(** The centre the transforms compute: `left + (width * scaleX) / 2`. *)
Definition centerX (o : FabricObject) : Q :=
  JS.nullish (obj_left o) 0
  + (JS.nullish (obj_width o) 0 * JS.nullish (obj_scaleX o) 1) / 2.

Definition centerY (o : FabricObject) : Q :=
  JS.nullish (obj_top o) 0
  + (JS.nullish (obj_height o) 0 * JS.nullish (obj_scaleY o) 1) / 2.

(* ================================================================== *)
(** ** Canvas utilities (the module of `rotateCanvas`)                  *)
(* ================================================================== *)

(** The document size `rotateCanvas` reads (`docW`, `docH`): the
    background rectangle's when there is one, the canvas' otherwise. *)
Definition docSize (c : Canvas) : Q * Q :=
  match findBackground (objects c) with
  | Some (_, bg) => (JS.nullish (obj_width bg) 0, JS.nullish (obj_height bg) 0)
  | None => (canvas_width c, canvas_height c)
  end.

(** `((degrees % 360) + 360) % 360` *)
Definition normalizeDegrees (degrees : Q) : Q :=
  JS.rem (JS.rem degrees 360 + 360) 360.

(** The body of `rotateCanvas`' loop for one object. *)
Definition rotateObject (m : MathLib) (docW docH degrees : Q)
    (obj : FabricObject) : FabricObject :=
  if obj_isDocBackground obj then obj
  else
    let normalized := normalizeDegrees degrees in
    let cx := centerX obj in
    let cy := centerY obj in
    let '(newCx, newCy) :=
      if JS.num_eq normalized 90 then (docH - cy, cx)
      else if JS.num_eq normalized 180 then (docW - cx, docH - cy)
      else if JS.num_eq normalized 270 then (cy, docW - cx)
      else
        let rad := (degrees * Math_PI m) / 180 in
        let cos := Math_cos m rad in
        let sin := Math_sin m rad in
        let dcx := docW / 2 in
        let dcy := docH / 2 in
        (cos * (cx - dcx) - sin * (cy - dcy) + dcx,
         sin * (cx - dcx) + cos * (cy - dcy) + dcy) in
    set_position_angle
      (newCx - (JS.nullish (obj_width obj) 0 * JS.nullish (obj_scaleX obj) 1) / 2)
      (newCy - (JS.nullish (obj_height obj) 0 * JS.nullish (obj_scaleY obj) 1) / 2)
      (JS.nullish (obj_angle obj) 0 + degrees)
      obj.

(** `rotateCanvas`: the background is looked up once, before the loop,
    and written through that reference after it. *)
Definition rotateCanvas (m : MathLib) (degrees : Q) (c : Canvas) : Canvas :=
  let bgRect := findBackground (objects c) in
  let docW :=
    match bgRect with
    | Some (_, bg) => JS.nullish (obj_width bg) 0
    | None => canvas_width c
    end in
  let docH :=
    match bgRect with
    | Some (_, bg) => JS.nullish (obj_height bg) 0
    | None => canvas_height c
    end in
  let normalized := normalizeDegrees degrees in
  let rotated := rotateObject m docW docH degrees <$> objects c in
  set_objects
    (if JS.num_eq normalized 90 || JS.num_eq normalized 270
     then writeFound bgRect (set_box 0 0 docH docW) rotated
     else rotated)
    c.

(** `rgbToHex`; `sampleColor` spells the same expression out inline. *)
Definition rgbToHex (r g b : Z) : string :=
  String "#"
    (JS.String_slice1
       (JS.toString16 (JS.shl 1 24 + JS.shl r 16 + JS.shl g 8 + b))).

(* ================================================================== *)
(** ** `App`                                                            *)
(* ================================================================== *)

(** `x || 0` on an optional number. *)
Definition or_zero (x : option Q) : Q :=
  match x with
  | Some a => if JS.num_eq a 0 then 0 else a
  | None => 0
  end.

(** `handleRotate`, the listener of the menu's rotate commands: every
    object, the background included, is turned in place by Fabric's
    `obj.rotate(angle)`, which is [fabricRotate]; the store's document is
    not written. *)
Definition handleRotate (fabricRotate : Q -> FabricObject -> FabricObject)
    (degrees : Q) (s : EditorState) : EditorState :=
  match fabricCanvas s with
  | None => s
  | Some canvas =>
      set_fabricCanvas
        (Some (set_objects
                 ((fun obj => fabricRotate (or_zero (obj_angle obj) + degrees) obj)
                    <$> objects canvas)
                 canvas))
        s
  end.

(* ================================================================== *)
(** ** `components/canvas/CanvasToolHandler.tsx`                       *)
(* ================================================================== *)

Module CanvasToolHandler.

(** `handleMouseDown`, case 'zoom'. *)
Definition handleMouseDown_zoom (altKey : bool) (s : EditorState) : EditorState :=
  let dir := if altKey then 1 / (5 # 4) else (5 # 4) in
  let newZoom :=
    JS.Math_min 32 (JS.Math_max (1 # 20) (doc_zoom (document s) * dir)) in
  setDocument (mkDocPartial None None None (Some newZoom)) s.

Definition applyCrop (canvas : Canvas) (cropRect : FabricObject)
    (doc : DocumentInfo) (s : EditorState) : Canvas * EditorState :=
  let cl := JS.nullish (obj_left cropRect) 0 in
  let ct := JS.nullish (obj_top cropRect) 0 in
  let cw := JS.nullish (obj_width cropRect) (doc_width doc) in
  let ch := JS.nullish (obj_height cropRect) (doc_height doc) in
  if JS.lt cw 1 || JS.lt ch 1 then (canvas, s)
  else
    let shifted :=
      (fun obj =>
         set_position (JS.nullish (obj_left obj) 0 - cl)
                      (JS.nullish (obj_top obj) 0 - ct) obj)
        <$> objects canvas in
    (set_objects (updateBackground (set_box 0 0 cw ch) shifted) canvas,
     setDocument
       (mkDocPartial (Some (JS.Math_round cw)) (Some (JS.Math_round ch))
          None None) s).

(** `sampleColor`: the pixel under the pointer always becomes the
    foreground colour. *)
Definition sampleColor (surface : Surface) (canvas : Canvas) (pointer : Point)
    (s : EditorState) : EditorState :=
  match viewportTransform canvas with
  | None => s
  | Some vpt =>
      let screenX := pt_x pointer * vpt0 vpt + vpt4 vpt in
      let screenY := pt_y pointer * vpt3 vpt + vpt5 vpt in
      let pixel :=
        getImageData surface (JS.round_int screenX) (JS.round_int screenY) in
      setForegroundColor (rgbToHex (px_r pixel) (px_g pixel) (px_b pixel)) s
  end.

(** `handlePaintBucket(canvas, color)`: the active object, else the
    background. *)
Definition handlePaintBucket (canvas : Canvas) (color : string) : Canvas :=
  match activeObject canvas with
  | Some i => set_objects (alter (set_fill color) i (objects canvas)) canvas
  | None => set_objects (updateBackground (set_fill color) (objects canvas)) canvas
  end.

End CanvasToolHandler.

(** The second copy of the tool handler in the sources, which differs in
    `sampleColor` and `handlePaintBucket`. *)
Module CanvasToolHandlerRevised.

(** `sampleColor` with the HiDPI ratio, the bounds check and the test for
    a fully transparent pixel. *)
Definition sampleColor (surface : Surface) (canvas : Canvas) (pointer : Point)
    (s : EditorState) : EditorState :=
  match viewportTransform canvas with
  | None => s
  | Some vpt =>
      let screenX := pt_x pointer * vpt0 vpt + vpt4 vpt in
      let screenY := pt_y pointer * vpt3 vpt + vpt5 vpt in
      let ratio :=
        match retinaScaling surface with
        | Some r => if JS.num_eq r 0 then 1 else r
        | None => 1
        end in
      let px := JS.round_int (screenX * ratio) in
      let py := JS.round_int (screenY * ratio) in
      if (px <? 0) || (py <? 0) || (el_width surface <=? px)
         || (el_height surface <=? py)
      then s
      else
        let pixel := getImageData surface px py in
        if px_a pixel =? 0 then s
        else setForegroundColor
               (rgbToHex (px_r pixel) (px_g pixel) (px_b pixel)) s
  end.

(** Is the object at position [i] the document background?  An index
    outside the scene stands for an active object that is not itself on
    the canvas; it carries no background flag. *)
Definition isBackgroundAt (os : list FabricObject) (i : nat) : bool :=
  match os !! i with Some o => obj_isDocBackground o | None => false end.

(** The loop from the top of the stack downwards: the position of the
    first object, background skipped, that contains the point. *)
Fixpoint topmostHit (containsPoint : FabricObject -> Point -> bool)
    (p : Point) (os : list FabricObject) : option nat :=
  match os with
  | [] => None
  | o :: rest =>
      match topmostHit containsPoint p rest with
      | Some i => Some (S i)
      | None =>
          if negb (obj_isDocBackground o) && containsPoint o p
          then Some 0%nat else None
      end
  end.

(** `handlePaintBucket(canvas, color, pointer?)`; [containsPoint] is
    Fabric's `obj.containsPoint`. *)
Definition handlePaintBucket (containsPoint : FabricObject -> Point -> bool)
    (canvas : Canvas) (color : string) (pointer : option Point) : Canvas :=
  let fillBackground :=
    set_objects (updateBackground (set_fill color) (objects canvas)) canvas in
  let underPointer :=
    match pointer with
    | Some p =>
        match topmostHit containsPoint p (objects canvas) with
        | Some i =>
            set_objects (alter (set_fill color) i (objects canvas)) canvas
        | None => fillBackground
        end
    | None => fillBackground
    end in
  match activeObject canvas with
  | Some i =>
      if isBackgroundAt (objects canvas) i then underPointer
      else set_objects (alter (set_fill color) i (objects canvas)) canvas
  | None => underPointer
  end.

End CanvasToolHandlerRevised.

(* ================================================================== *)
(** ** Vocabulary of the properties, and sample data                   *)
(* ================================================================== *)

Local Close Scope Q_scope.

(** The documented bound on the zoom factor, `[0.05, 32]`. *)
Definition zoomInBounds (z : Q) : Prop := (1 # 20 <= z /\ z <= 32)%Q.

(** The current index addresses an entry of the log. *)
Definition indexInRange (s : EditorState) : Prop :=
  0 <= historyIndex s <= Z.of_nat (length (history s)) - 1.

(** [s'] agrees with [s] on every field of the store but `historyIndex`. *)
Definition sameButHistoryIndex (s s' : EditorState) : Prop :=
  document s' = document s /\ layers s' = layers s
  /\ activeLayerId s' = activeLayerId s /\ activeTool s' = activeTool s
  /\ previousTool s' = previousTool s /\ brushSettings s' = brushSettings s
  /\ foregroundColor s' = foregroundColor s
  /\ backgroundColor s' = backgroundColor s
  /\ history s' = history s /\ maxHistory s' = maxHistory s
  /\ selection s' = selection s /\ adjustments s' = adjustments s
  /\ showGrid s' = showGrid s /\ showRulers s' = showRulers s
  /\ showGuides s' = showGuides s /\ snapToGrid s' = snapToGrid s
  /\ fabricCanvas s' = fabricCanvas s.

(** `activeLayerId` is null or the id of a layer of the sequence. *)
Definition activeLayerValid (s : EditorState) : Prop :=
  match activeLayerId s with
  | None => True
  | Some id => In id (layer_id <$> layers s)
  end.

(** A layer as `addLayer({ name })` builds it, with the given id. *)
Definition layerNamed (id name : string) : Layer :=
  mkLayer id name true false 1 source_over raster None None None None None None.

(** A store holding the layers "A" (bottom) and "B", "A" being active. *)
Definition twoLayerState : EditorState :=
  set_layers [layerNamed "A" "Background"; layerNamed "B" "Layer 2"]
    (Some "A"%string) initialState.

(** What every store reached through the history calls satisfies: the
    bound is the constant 50, the log is within it, and the index is at
    least -1 (its initial value, "no entry"). *)
Definition historyBounded (s : EditorState) : Prop :=
  maxHistory s = 50 /\ -1 <= historyIndex s
  /\ Z.of_nat (length (history s)) <= 50.

(** Three entries pushed, then one undo: the log holds "a", "b", "c" and
    the index is 1. *)
Definition undoneState : EditorState :=
  runHistory
    [CallPush "a" 1 "Draw shape" "{}"; CallPush "b" 2 "Crop" "{}";
     CallPush "c" 3 "Erase" "{}"; CallUndo]
    initialState.

(** The layers "A" (bottom), "B" and "C". *)
Definition threeLayers : list Layer :=
  [layerNamed "A" "Background"; layerNamed "B" "Layer 2";
   layerNamed "C" "Layer 3"].

(** The white background rectangle `EditorCanvas` creates for a document
    of the given size. *)
Definition backgroundRect (w h : Q) : FabricObject :=
  mkObj (Some 0%Q) (Some 0%Q) (Some w) (Some h) (Some 1%Q) (Some 1%Q)
    (Some 0%Q) "#ffffff" true false.

(** A plain rectangle. *)
Definition rectAt (l t w h : Q) (fill : string) : FabricObject :=
  mkObj (Some l) (Some t) (Some w) (Some h) (Some 1%Q) (Some 1%Q)
    (Some 0%Q) fill false false.

(** The overlay `createCropOverlay` builds, dragged out to a rectangle. *)
Definition cropOverlay (l t w h : Q) : FabricObject :=
  mkObj (Some l) (Some t) (Some w) (Some h) (Some 1%Q) (Some 1%Q)
    (Some 0%Q) "transparent" false true.

Definition identityViewport : TMat2D := mkMat 1 0 0 1 0 0.

(** A 200 x 200 document: its background, a green 30 x 30 rectangle at
    (15, 15), and nothing selected. *)
Definition sceneCanvas : Canvas :=
  mkCanvas [backgroundRect 200 200; rectAt 15 15 30 30 "#00ff00"]
    None (Some identityViewport) 800 600.

Definition sceneState : EditorState :=
  setDocument (mkDocPartial (Some 200%Q) (Some 200%Q) None None) initialState.

(** The same scene while a crop overlay is on the canvas. *)
Definition sceneWithOverlay (overlay : FabricObject) : Canvas :=
  set_objects (objects sceneCanvas ++ [overlay]) sceneCanvas.

(** Four quarter turns in a row. *)
Definition rotateFourTimes (m : MathLib) (c : Canvas) : Canvas :=
  rotateCanvas m 90 (rotateCanvas m 90 (rotateCanvas m 90 (rotateCanvas m 90 c))).

(** A stand-in for `Math`; the quarter-turn branches never consult it. *)
Definition coarseMath : MathLib := mkMath (fun _ => 1%Q) (fun _ => 0%Q) (355 # 113).

(** A 200 x 100 document with a green 30 x 30 rectangle at (15, 15). *)
Definition wideScene : Canvas :=
  mkCanvas [backgroundRect 200 100; rectAt 15 15 30 30 "#00ff00"]
    None (Some identityViewport) 800 600.

(** A rendered surface every pixel of which is fully transparent. *)
Definition transparentSurface : Surface :=
  mkSurface (fun _ _ => mkPixel 0 0 0 0) 800 600 (Some 1%Q).

(** The initial store with red as the foreground colour. *)
Definition redState : EditorState := setForegroundColor "#ff0000" initialState.

(** A hit test on the unrotated bounding box, standing in for Fabric's
    `containsPoint` in the samples. *)
Definition insideBox (o : FabricObject) (p : Point) : bool :=
  let l := JS.nullish (obj_left o) 0%Q in
  let t := JS.nullish (obj_top o) 0%Q in
  let w := (JS.nullish (obj_width o) 0 * JS.nullish (obj_scaleX o) 1)%Q in
  let h := (JS.nullish (obj_height o) 0 * JS.nullish (obj_scaleY o) 1)%Q in
  Qle_bool l (pt_x p) && Qle_bool (pt_x p) (l + w)%Q
  && Qle_bool t (pt_y p) && Qle_bool (pt_y p) (t + h)%Q.

(** The pixel the second copy of `sampleColor` reads: the pointer taken
    through the viewport transform and the HiDPI ratio. *)
Definition sampledAt (surface : Surface) (vpt : TMat2D) (pointer : Point) : Z * Z :=
  let ratio :=
    match retinaScaling surface with
    | Some r => if JS.num_eq r 0 then 1%Q else r
    | None => 1%Q
    end in
  (JS.round_int ((pt_x pointer * vpt0 vpt + vpt4 vpt) * ratio),
   JS.round_int ((pt_y pointer * vpt3 vpt + vpt5 vpt) * ratio)).

(** The pixel lies on the canvas element. *)
Definition onSurface (surface : Surface) (xy : Z * Z) : Prop :=
  0 <= fst xy < el_width surface /\ 0 <= snd xy < el_height surface.

(** A surface that is opaque orange everywhere. *)
Definition orangeSurface : Surface :=
  mkSurface (fun _ _ => mkPixel 255 128 1 255) 800 600 (Some 2%Q).

(* ================================================================== *)
(** ** The store, continued: layers, tools, colours, brush, selection  *)
(* ================================================================== *)

(** `Partial<Layer>`: [None] is an absent key. *)
Record LayerPartial := mkLayerPartial {
  lp_id : option string;
  lp_name : option string;
  lp_visible : option bool;
  lp_locked : option bool;
  lp_opacity : option Q;
  lp_blendMode : option BlendMode;
  lp_type : option LayerType;
  lp_thumbnail : option string;
  lp_children : option (list string);
  lp_parentId : option string;
  lp_clipMask : option bool;
  lp_adjustmentType : option AdjustmentType;
  lp_adjustmentValues : option (list (string * Q))
}.

(** A spread over an optional property: a present key wins. *)
Definition spread_optional {A : Type} (new old : option A) : option A :=
  match new with Some v => Some v | None => old end.

(** `{ ...l, ...p }` *)
Definition merge_layer (l : Layer) (p : LayerPartial) : Layer := {|
  layer_id := JS.nullish (lp_id p) (layer_id l);
  layer_name := JS.nullish (lp_name p) (layer_name l);
  layer_visible := JS.nullish (lp_visible p) (layer_visible l);
  layer_locked := JS.nullish (lp_locked p) (layer_locked l);
  layer_opacity := JS.nullish (lp_opacity p) (layer_opacity l);
  layer_blendMode := JS.nullish (lp_blendMode p) (layer_blendMode l);
  layer_type := JS.nullish (lp_type p) (layer_type l);
  layer_thumbnail := spread_optional (lp_thumbnail p) (layer_thumbnail l);
  layer_children := spread_optional (lp_children p) (layer_children l);
  layer_parentId := spread_optional (lp_parentId p) (layer_parentId l);
  layer_clipMask := spread_optional (lp_clipMask p) (layer_clipMask l);
  layer_adjustmentType :=
    spread_optional (lp_adjustmentType p) (layer_adjustmentType l);
  layer_adjustmentValues :=
    spread_optional (lp_adjustmentValues p) (layer_adjustmentValues l)
|}.

(** `x || d` on an optional string: the empty string is falsy too. *)
Definition or_string (x : option string) (d : string) : string :=
  match x with
  | Some EmptyString => d
  | Some v => v
  | None => d
  end.

(** The template `Layer ${n}`. *)
Definition defaultLayerName (n : nat) : string :=
  String.append "Layer "
    (DecimalString.NilZero.string_of_uint (Nat.to_uint n)).

(** `addLayer(partial?)`; [uid] is `uuid()`.  The spread of `partial`
    comes last, so its keys, `id` included, override the literal's. *)
Definition addLayer (uid : string) (partial : option LayerPartial)
    (s : EditorState) : string * EditorState :=
  let layer :=
    mkLayer uid
      (or_string (partial ≫= lp_name)
         (defaultLayerName (length (layers s) + 1)))
      true false 1%Q source_over
      (JS.nullish (partial ≫= lp_type) raster)
      None None None None None None in
  let layer :=
    match partial with Some p => merge_layer layer p | None => layer end in
  (uid, set_layers (layers s ++ [layer]) (Some uid) s).

Definition updateLayer (id : string) (updates : LayerPartial)
    (s : EditorState) : EditorState :=
  set_layers
    ((fun l => if decide (layer_id l = id) then merge_layer l updates else l)
       <$> layers s)
    (activeLayerId s) s.

Definition setActiveLayer (id : option string) (s : EditorState) : EditorState :=
  set_layers (layers s) id s.

(** `{ ...layer, id, name }` *)
Definition with_id_name (id name : string) (l : Layer) : Layer :=
  mkLayer id name (layer_visible l) (layer_locked l) (layer_opacity l)
    (layer_blendMode l) (layer_type l) (layer_thumbnail l) (layer_children l)
    (layer_parentId l) (layer_clipMask l) (layer_adjustmentType l)
    (layer_adjustmentValues l).

(** `duplicateLayer(id)`; [newId] is `uuid()`. *)
Definition duplicateLayer (newId id : string) (s : EditorState) : EditorState :=
  match list_find (fun l => layer_id l = id) (layers s) with
  | None => s
  | Some (_, layer) =>
      set_layers
        (layers s
           ++ [with_id_name newId (String.append (layer_name layer) " copy") layer])
        (Some newId) s
  end.

Definition flattenLayers (s : EditorState) : EditorState :=
  if (length (layers s) <=? 1)%nat then s
  else
    match layers s !! 0%nat with
    | Some first =>
        set_layers [with_id_name (layer_id first) "Background" first]
          (Some (layer_id first)) s
    | None => s
    end.

(** `set({ activeTool, previousTool })` *)
Definition set_tools (active previous : Tool) (s : EditorState) : EditorState :=
  mkState (document s) (layers s) (activeLayerId s) active previous
    (brushSettings s) (foregroundColor s) (backgroundColor s) (history s)
    (historyIndex s) (maxHistory s) (selection s) (adjustments s)
    (showGrid s) (showRulers s) (showGuides s) (snapToGrid s) (fabricCanvas s).

Definition setActiveTool (tool : Tool) (s : EditorState) : EditorState :=
  set_tools tool (activeTool s) s.

(** `set({ foregroundColor, backgroundColor })` *)
Definition set_colors (fg bg : string) (s : EditorState) : EditorState :=
  mkState (document s) (layers s) (activeLayerId s) (activeTool s)
    (previousTool s) (brushSettings s) fg bg (history s)
    (historyIndex s) (maxHistory s) (selection s) (adjustments s)
    (showGrid s) (showRulers s) (showGuides s) (snapToGrid s) (fabricCanvas s).

Definition setBackgroundColor (color : string) (s : EditorState) : EditorState :=
  set_colors (foregroundColor s) color s.

Definition swapColors (s : EditorState) : EditorState :=
  set_colors (backgroundColor s) (foregroundColor s) s.

Definition resetColors (s : EditorState) : EditorState :=
  set_colors "#000000" "#ffffff" s.

(** `Partial<BrushSettings>` *)
Record BrushPartial := mkBrushPartial {
  bp_size : option Q; bp_hardness : option Q;
  bp_opacity : option Q; bp_flow : option Q
}.

(** `set({ brushSettings })` *)
Definition set_brushSettings (b : BrushSettings) (s : EditorState) : EditorState :=
  mkState (document s) (layers s) (activeLayerId s) (activeTool s)
    (previousTool s) b (foregroundColor s) (backgroundColor s) (history s)
    (historyIndex s) (maxHistory s) (selection s) (adjustments s)
    (showGrid s) (showRulers s) (showGuides s) (snapToGrid s) (fabricCanvas s).

Definition setBrushSettings (settings : BrushPartial) (s : EditorState)
  : EditorState :=
  set_brushSettings
    (mkBrush (JS.nullish (bp_size settings) (brush_size (brushSettings s)))
       (JS.nullish (bp_hardness settings) (brush_hardness (brushSettings s)))
       (JS.nullish (bp_opacity settings) (brush_opacity (brushSettings s)))
       (JS.nullish (bp_flow settings) (brush_flow (brushSettings s))))
    s.

(** `Partial<Selection>` *)
Record SelectionPartial := mkSelectionPartial {
  sp_type : option SelectionType;
  sp_path : option (list (list Q));
  sp_feather : option Q;
  sp_active : option bool
}.

(** `set({ selection })` *)
Definition set_selection (sel : Selection) (s : EditorState) : EditorState :=
  mkState (document s) (layers s) (activeLayerId s) (activeTool s)
    (previousTool s) (brushSettings s) (foregroundColor s) (backgroundColor s)
    (history s) (historyIndex s) (maxHistory s) sel (adjustments s)
    (showGrid s) (showRulers s) (showGuides s) (snapToGrid s) (fabricCanvas s).

Definition setSelection (sel : SelectionPartial) (s : EditorState) : EditorState :=
  set_selection
    (mkSelection (JS.nullish (sp_type sel) (sel_type (selection s)))
       (spread_optional (sp_path sel) (sel_path (selection s)))
       (JS.nullish (sp_feather sel) (sel_feather (selection s)))
       (JS.nullish (sp_active sel) (sel_active (selection s))))
    s.

Definition clearSelection (s : EditorState) : EditorState :=
  set_selection (mkSelection sel_none None 0%Q false) s.

(** A call on the layer commands, and a run of such calls. *)
Inductive LayerCall :=
| CallAdd (uid : string) (partial : option LayerPartial)
| CallUpdate (id : string) (updates : LayerPartial)
| CallDuplicate (newId id : string)
| CallFlatten.

Definition callLayer (c : LayerCall) (s : EditorState) : EditorState :=
  match c with
  | CallAdd uid partial => snd (addLayer uid partial s)
  | CallUpdate id updates => updateLayer id updates s
  | CallDuplicate newId id => duplicateLayer newId id s
  | CallFlatten => flattenLayers s
  end.

Definition runLayers (cs : list LayerCall) (s : EditorState) : EditorState :=
  fold_left (fun st c => callLayer c st) cs s.

(** The call passes no `id` key in its partial, as every caller in the
    sources does. *)
Definition passesNoId (c : LayerCall) : bool :=
  match c with
  | CallAdd _ (Some p) => match lp_id p with None => true | Some _ => false end
  | CallUpdate _ u => match lp_id u with None => true | Some _ => false end
  | _ => true
  end.

(* ================================================================== *)
(** ** Panels, status bar, menu and shortcuts                          *)
(* ================================================================== *)

Module HistoryPanel.

(** `handleJumpToState(targetIndex)`: one `undo()` per step down to the
    target, or one `redo()` per step up to it. *)
Definition handleJumpToState (targetIndex : Z) (s : EditorState) : EditorState :=
  let current := historyIndex s in
  if targetIndex <? current
  then Nat.iter (Z.to_nat (current - targetIndex)) undo s
  else if current <? targetIndex
  then Nat.iter (Z.to_nat (targetIndex - current)) redo s
  else s.

End HistoryPanel.

Module LayerPanel.

(** `handleMoveUp(index)` and `handleMoveDown(index)`, on the `layers`
    array (see [reorderLayers]). *)
Definition handleMoveUp (index : Z) (ls : list Layer) : list (option Layer) :=
  if index <? Z.of_nat (length ls) - 1
  then reorderLayers index (index + 1) ls
  else Some <$> ls.

Definition handleMoveDown (index : Z) (ls : list Layer) : list (option Layer) :=
  if 0 <? index
  then reorderLayers index (index - 1) ls
  else Some <$> ls.

End LayerPanel.

Module StatusBar.

Definition zoomIn (s : EditorState) : EditorState :=
  setDocument
    (mkDocPartial None None None
       (Some (JS.Math_min 32 (doc_zoom (document s) * (5 # 4)))%Q)) s.

Definition zoomOut (s : EditorState) : EditorState :=
  setDocument
    (mkDocPartial None None None
       (Some (JS.Math_max (1 # 20) (doc_zoom (document s) / (5 # 4)))%Q)) s.

Definition zoomFit (s : EditorState) : EditorState :=
  setDocument (mkDocPartial None None None (Some 1%Q)) s.

End StatusBar.

Module MenuBar.

(** View > Zoom In / Zoom Out. *)
Definition zoomIn (s : EditorState) : EditorState :=
  setDocument
    (mkDocPartial None None None
       (Some (JS.Math_min (doc_zoom (document s) * (5 # 4)) 32)%Q)) s.

Definition zoomOut (s : EditorState) : EditorState :=
  setDocument
    (mkDocPartial None None None
       (Some (JS.Math_max (doc_zoom (document s) / (5 # 4)) (1 # 100))%Q)) s.

End MenuBar.

Module KeyboardShortcuts.

(** The keys `[` and `]`. *)
Definition brushSmaller (s : EditorState) : EditorState :=
  setBrushSettings
    (mkBrushPartial
       (Some (JS.Math_max 1 (brush_size (brushSettings s) - 5))%Q)
       None None None) s.

Definition brushLarger (s : EditorState) : EditorState :=
  setBrushSettings
    (mkBrushPartial
       (Some (JS.Math_min 500 (brush_size (brushSettings s) + 5))%Q)
       None None None) s.

End KeyboardShortcuts.

Module EditorCanvas.

(** `handleWheel`: zoom with Ctrl or Cmd held; [deltaY] is the event's. *)
Definition handleWheel (ctrlKey metaKey : bool) (deltaY : Q)
    (s : EditorState) : EditorState :=
  if negb ctrlKey && negb metaKey then s
  else
    let delta := (- deltaY)%Q in
    let factor := (if JS.lt 0 delta then 11 # 10 else 1 / (11 # 10))%Q in
    let newZoom :=
      JS.Math_min 32 (JS.Math_max (1 # 20) (doc_zoom (document s) * factor))%Q in
    setDocument (mkDocPartial None None None (Some newZoom)) s.

End EditorCanvas.

(* ================================================================== *)
(** ** Canvas utilities, continued                                      *)
(* ================================================================== *)

Local Open Scope Q_scope.

(** `canvas.setDimensions({ width, height })` *)
Definition setDimensions (w h : Q) (c : Canvas) : Canvas :=
  mkCanvas (objects c) (activeObject c) (viewportTransform c) w h.

(** The body of the loop of `resizeCanvas`. *)
Definition scaleObject (sx sy : Q) (obj : FabricObject) : FabricObject :=
  mkObj (Some (JS.nullish (obj_left obj) 0 * sx))
    (Some (JS.nullish (obj_top obj) 0 * sy))
    (obj_width obj) (obj_height obj)
    (Some (JS.nullish (obj_scaleX obj) 1 * sx))
    (Some (JS.nullish (obj_scaleY obj) 1 * sy))
    (obj_angle obj) (obj_fill obj) (obj_isDocBackground obj)
    (obj_isCropOverlay obj).

Definition resizeCanvas (width height : Q) (scaleContent : bool)
    (canvas : Canvas) : Canvas :=
  let oldW := canvas_width canvas in
  let oldH := canvas_height canvas in
  let resized := setDimensions width height canvas in
  if scaleContent && JS.lt 0 oldW && JS.lt 0 oldH
  then
    let sx := width / oldW in
    let sy := height / oldH in
    set_objects (scaleObject sx sy <$> objects resized) resized
  else resized.

(** `getCanvasPixelColor(canvas, x, y)`; [surface] is the bitmap behind
    `canvas.getContext()`. *)
Definition getCanvasPixelColor (surface : Surface) (canvas : Canvas)
    (x y : Q) : string :=
  let sxy :=
    match viewportTransform canvas with
    | Some vpt => (x * vpt0 vpt + vpt4 vpt, y * vpt3 vpt + vpt5 vpt)
    | None => (x, y)
    end in
  let pixel :=
    getImageData surface (JS.round_int (fst sxy)) (JS.round_int (snd sxy)) in
  rgbToHex (px_r pixel) (px_g pixel) (px_b pixel).

(** `'horizontal' | 'vertical'` *)
Inductive Direction := horizontal | vertical.

(** A Fabric object together with its `flipX` and `flipY` flags, which
    only the flip commands touch. *)
Record Flippable := mkFlippable {
  fl_obj : FabricObject;
  flipX : bool;
  flipY : bool
}.

(** `obj.set({ left })` and `obj.set({ top })` *)
Definition set_left (l : Q) (o : FabricObject) : FabricObject :=
  mkObj (Some l) (obj_top o) (obj_width o) (obj_height o) (obj_scaleX o)
    (obj_scaleY o) (obj_angle o) (obj_fill o) (obj_isDocBackground o)
    (obj_isCropOverlay o).

Definition set_top (t : Q) (o : FabricObject) : FabricObject :=
  mkObj (obj_left o) (Some t) (obj_width o) (obj_height o) (obj_scaleX o)
    (obj_scaleY o) (obj_angle o) (obj_fill o) (obj_isDocBackground o)
    (obj_isCropOverlay o).

(** The centre `flipCanvas` mirrors about: half the background
    rectangle's size when there is one, half the canvas' otherwise. *)
Definition flipCenter (width height : Q) (os : list Flippable) : Q * Q :=
  match list_find (fun f => isDocBackground (fl_obj f)) os with
  | Some (_, bgRect) =>
      (JS.nullish (obj_width (fl_obj bgRect)) 0 / 2,
       JS.nullish (obj_height (fl_obj bgRect)) 0 / 2)
  | None => (width / 2, height / 2)
  end.

(** The body of the loop of `flipCanvas`. *)
Definition flipObject (direction : Direction) (center : Q * Q)
    (f : Flippable) : Flippable :=
  let obj := fl_obj f in
  if obj_isDocBackground obj then f
  else
    match direction with
    | horizontal =>
        mkFlippable
          (set_left (2 * fst center - JS.nullish (obj_left obj) 0
                     - JS.nullish (obj_width obj) 0
                       * JS.nullish (obj_scaleX obj) 1) obj)
          (negb (flipX f)) (flipY f)
    | vertical =>
        mkFlippable
          (set_top (2 * snd center - JS.nullish (obj_top obj) 0
                    - JS.nullish (obj_height obj) 0
                      * JS.nullish (obj_scaleY obj) 1) obj)
          (flipX f) (negb (flipY f))
    end.

(** `flipCanvas(canvas, direction)` on the canvas' size and objects. *)
Definition flipCanvas (direction : Direction) (width height : Q)
    (os : list Flippable) : list Flippable :=
  flipObject direction (flipCenter width height os) <$> os.

(** `App`'s `handleFlip(direction)`, the listener of the menu's flip
    commands: the flags of every object, the background included, and
    no position. *)
Definition handleFlip (direction : Direction) (os : list Flippable)
  : list Flippable :=
  (fun f =>
     match direction with
     | horizontal => mkFlippable (fl_obj f) (negb (flipX f)) (flipY f)
     | vertical => mkFlippable (fl_obj f) (flipX f) (negb (flipY f))
     end) <$> os.

Local Close Scope Q_scope.

(** `{ name, type: 'raster' }` *)
Definition namedRaster (name : string) : LayerPartial :=
  mkLayerPartial None (Some name) None None None None (Some raster)
    None None None None None None.

(** The layer reset that ends `App`'s `handleOpen`: every layer of the
    store as it is read is removed by id, then the two layers of the
    opened file are added; [uid1] and [uid2] are the two `uuid()`s. *)
Definition handleOpen_resetLayers (uid1 uid2 fileName : string)
    (s : EditorState) : EditorState :=
  let store := s in
  let cleared :=
    fold_left (fun st l => removeLayer (layer_id l) st) (layers store) s in
  let withBackground :=
    snd (addLayer uid1 (Some (namedRaster "Background")) cleared) in
  snd (addLayer uid2 (Some (namedRaster fileName)) withBackground).

(* ================================================================== *)
(** ** `CanvasToolHandler`: the marquee and crop gestures               *)
(* ================================================================== *)

Module ToolGestures.

Local Open Scope Q_scope.

(** `Math.abs` *)
Definition Math_abs (x : Q) : Q := if Qle_bool 0 x then x else - x.

(** The component's refs.  The two overlay refs hold Fabric objects that
    are on the canvas; such a reference is the object's position among
    the canvas' objects, so that a write through the ref is a write to
    the canvas. *)
Record Refs := mkRefs {
  isDrawingRef : bool;
  originRef : Point;
  selectionRectRef : option nat;
  cropRectRef : option nat
}.

(** The component: the store it subscribes to (with `fabricCanvas`) and
    its refs. *)
Record Component := mkComponent { store : EditorState; refs : Refs }.

Definition createSelectionOverlay (pointer : Point) : FabricObject :=
  mkObj (Some (pt_x pointer)) (Some (pt_y pointer)) (Some 0) (Some 0)
    (Some 1) (Some 1) (Some 0) "rgba(74, 158, 255, 0.15)" false false.

Definition createCropOverlay (pointer : Point) : FabricObject :=
  mkObj (Some (pt_x pointer)) (Some (pt_y pointer)) (Some 0) (Some 0)
    (Some 1) (Some 1) (Some 0) "transparent" false true.

(** `canvas.add(obj)`: on top of the stack. *)
Definition add (obj : FabricObject) (c : Canvas) : Canvas :=
  set_objects (objects c ++ [obj]) c.

(** A position after the object at [i] left the list; the removed
    object itself is no longer referred to. *)
Definition reindex (i : nat) (r : option nat) : option nat :=
  match r with
  | Some j =>
      if (j <? i)%nat then Some j
      else if (j =? i)%nat then None
      else Some (Nat.pred j)
  | None => None
  end.

(** `canvas.remove(obj)` for the object at position [i]; Fabric drops
    the active object when it is the one removed. *)
Definition remove (i : nat) (c : Canvas) : Canvas :=
  mkCanvas (delete i (objects c)) (reindex i (activeObject c))
    (viewportTransform c) (canvas_width c) (canvas_height c).

(** `ref.current.set({ left, top, width, height })` as the mouse-move
    handler computes them from the origin and the pointer. *)
Definition dragBox (origin pointer : Point) (o : FabricObject) : FabricObject :=
  let left := JS.Math_min (pt_x origin) (pt_x pointer) in
  let top := JS.Math_min (pt_y origin) (pt_y pointer) in
  let width := Math_abs (pt_x pointer - pt_x origin) in
  let height := Math_abs (pt_y pointer - pt_y origin) in
  set_box left top width height o.

(** `handleMouseDown`, cases 'marquee-rect' and 'marquee-ellipse'. *)
Definition handleMouseDown_marquee (pointer : Point) (k : Component)
  : Component :=
  match fabricCanvas (store k) with
  | None => k
  | Some canvas =>
      mkComponent
        (set_fabricCanvas
           (Some (add (createSelectionOverlay pointer) canvas)) (store k))
        (mkRefs true pointer (Some (length (objects canvas)))
           (cropRectRef (refs k)))
  end.

(** `handleMouseDown`, case 'crop'. *)
Definition handleMouseDown_crop (pointer : Point) (k : Component)
  : Component :=
  match fabricCanvas (store k) with
  | None => k
  | Some canvas =>
      mkComponent
        (set_fabricCanvas
           (Some (add (createCropOverlay pointer) canvas)) (store k))
        (mkRefs true pointer (selectionRectRef (refs k))
           (Some (length (objects canvas))))
  end.

(** `handleMouseMove` for the overlay ref [overlayRef] of the active
    tool: `selectionRectRef` in the marquee cases, `cropRectRef` in the
    case 'crop'. *)
Definition moveOverlay (overlayRef : Refs -> option nat) (pointer : Point)
    (k : Component) : Component :=
  match fabricCanvas (store k) with
  | None => k
  | Some canvas =>
      if negb (isDrawingRef (refs k)) then k
      else
        match overlayRef (refs k) with
        | Some i =>
            mkComponent
              (set_fabricCanvas
                 (Some (set_objects
                          (alter (dragBox (originRef (refs k)) pointer) i
                             (objects canvas))
                          canvas))
                 (store k))
              (refs k)
        | None => k
        end
  end.

Definition handleMouseMove_marquee : Point -> Component -> Component :=
  moveOverlay selectionRectRef.

Definition handleMouseMove_crop : Point -> Component -> Component :=
  moveOverlay cropRectRef.

(** `handleMouseUp`, cases 'marquee-rect' and 'marquee-ellipse'; the
    active tool is the store's. *)
Definition handleMouseUp_marquee (pointer : Point) (k : Component)
  : Component :=
  match fabricCanvas (store k) with
  | None => k
  | Some canvas =>
      if negb (isDrawingRef (refs k)) then k
      else
        let released :=
          mkRefs false (originRef (refs k)) (selectionRectRef (refs k))
            (cropRectRef (refs k)) in
        match selectionRectRef (refs k) ≫= (fun i => (i,.) <$> objects canvas !! i) with
        | Some (i, rect) =>
            let selType :=
              match activeTool (store k) with
              | T_marquee_rect => sel_rect
              | _ => sel_ellipse
              end in
            let l := JS.nullish (obj_left rect) 0 in
            let t := JS.nullish (obj_top rect) 0 in
            let selected :=
              setSelection
                (mkSelectionPartial (Some selType)
                   (Some [[l; t];
                          [l + JS.nullish (obj_width rect) 0;
                           t + JS.nullish (obj_height rect) 0]])
                   None (Some true))
                (store k) in
            mkComponent
              (set_fabricCanvas (Some (remove i canvas)) selected)
              (mkRefs false (originRef (refs k)) None
                 (reindex i (cropRectRef (refs k))))
        | None => mkComponent (store k) released
        end
  end.

(** `handleMouseUp`, case 'crop'; [uid], [now] and [toJSON] are what
    `saveSnapshot` gets from `uuid()`, `Date.now()` and
    `JSON.stringify(fabricCanvas.toJSON())`. *)
Definition handleMouseUp_crop (uid : string) (now : Z)
    (toJSON : Canvas -> string) (pointer : Point) (k : Component)
  : Component :=
  match fabricCanvas (store k) with
  | None => k
  | Some canvas =>
      if negb (isDrawingRef (refs k)) then k
      else
        let released :=
          mkRefs false (originRef (refs k)) (selectionRectRef (refs k))
            (cropRectRef (refs k)) in
        match cropRectRef (refs k) ≫= (fun i => (i,.) <$> objects canvas !! i) with
        | Some (i, cropRect) =>
            let '(cropped, s1) :=
              CanvasToolHandler.applyCrop canvas cropRect
                (document (store k)) (store k) in
            let cleared := remove i cropped in
            mkComponent
              (pushHistory uid now "Crop" (toJSON cleared)
                 (set_fabricCanvas (Some cleared) s1))
              (mkRefs false (originRef (refs k))
                 (reindex i (selectionRectRef (refs k))) None)
        | None => mkComponent (store k) released
        end
  end.

(** A drag: mouse down at [origin], a mouse move to each point of
    [moves] in turn, mouse up at [pointer]. *)
Definition marqueeDrag (origin : Point) (moves : list Point) (pointer : Point)
    (k : Component) : Component :=
  handleMouseUp_marquee pointer
    (fold_left (fun st p => handleMouseMove_marquee p st) moves
       (handleMouseDown_marquee origin k)).

Definition cropDrag (uid : string) (now : Z) (toJSON : Canvas -> string)
    (origin : Point) (moves : list Point) (pointer : Point)
    (k : Component) : Component :=
  handleMouseUp_crop uid now toJSON pointer
    (fold_left (fun st p => handleMouseMove_crop p st) moves
       (handleMouseDown_crop origin k)).

(** No mouse button is down and no overlay is held. *)
Definition idleRefs : Refs := mkRefs false (mkPoint 0 0) None None.

Local Close Scope Q_scope.

End ToolGestures.

(* ================================================================== *)
(** ** `CanvasToolHandler`: `hexToRgba`                                 *)
(* ================================================================== *)

(** `s.slice(start, end)` on a string. *)
Definition String_slice (s : string) (start end_ : Z) : string :=
  string_of_list_ascii (JS.Array_slice (list_ascii_of_string s) start end_).

(** The value of a hexadecimal digit, of either case. *)
Definition hexDigitValue (c : ascii) : option Z :=
  let n := Z.of_N (N_of_ascii c) in
  if (48 <=? n) && (n <=? 57) then Some (n - 48)
  else if (97 <=? n) && (n <=? 102) then Some (n - 87)
  else if (65 <=? n) && (n <=? 70) then Some (n - 55)
  else None.

(** The number `parseInt` reads off the longest prefix of hexadecimal
    digits; [acc] is [None] as long as no digit was read. *)
Fixpoint parseHexDigits (s : string) (acc : option Z) : option Z :=
  match s with
  | String c rest =>
      match hexDigitValue c with
      | Some d => parseHexDigits rest (Some (16 * JS.nullish acc 0 + d))
      | None => acc
      end
  | EmptyString => acc
  end.

(** The white space `parseInt` skips, as far as it is ASCII. *)
Definition isWhiteSpace (c : ascii) : bool :=
  let n := Z.of_N (N_of_ascii c) in
  ((9 <=? n) && (n <=? 13)) || (n =? 32).

Fixpoint trimStart (s : string) : string :=
  match s with
  | String c rest => if isWhiteSpace c then trimStart rest else s
  | EmptyString => s
  end.

(** `parseInt(s, 16)`: leading white space, a sign and a `0x` prefix
    are skipped, then come the digits; [None] is `NaN`. *)
Definition parseInt16 (s : string) : option Z :=
  let trimmed := trimStart s in
  let signed :=
    match trimmed with
    | String "-" rest => (-1, rest)
    | String "+" rest => (1, rest)
    | _ => (1, trimmed)
    end in
  let digits :=
    match snd signed with
    | String "0" (String "x" rest) => rest
    | String "0" (String "X" rest) => rest
    | other => other
    end in
  (fun n => fst signed * n) <$> parseHexDigits digits None.

(** `${n}` for the result of `parseInt`. *)
Definition intToString (n : option Z) : string :=
  match n with
  | Some v => DecimalString.NilZero.string_of_int (Z.to_int v)
  | None => "NaN"
  end.

(** `hexToRgba(hex, opacity)`; [numberToString] is the conversion the
    template applies to `opacity`. *)
Definition hexToRgba (numberToString : Q -> string) (hex : string)
    (opacity : Q) : string :=
  let r := parseInt16 (String_slice hex 1 3) in
  let g := parseInt16 (String_slice hex 3 5) in
  let b := parseInt16 (String_slice hex 5 7) in
  String.append "rgba("
    (String.append (intToString r)
       (String.append ","
          (String.append (intToString g)
             (String.append ","
                (String.append (intToString b)
                   (String.append ","
                      (String.append (numberToString opacity) ")"))))))).

(* ================================================================== *)
(** ** Vocabulary of the further properties                             *)
(* ================================================================== *)

(** [o'] has the geometry of [o], an absent `left`, `top`, `scaleX` or
    `scaleY` counting as its default, and is [o] in everything else. *)
Definition sameGeometry (o o' : FabricObject) : Prop :=
  (JS.nullish (obj_left o') 0 == JS.nullish (obj_left o) 0)%Q
  /\ (JS.nullish (obj_top o') 0 == JS.nullish (obj_top o) 0)%Q
  /\ (JS.nullish (obj_scaleX o') 1 == JS.nullish (obj_scaleX o) 1)%Q
  /\ (JS.nullish (obj_scaleY o') 1 == JS.nullish (obj_scaleY o) 1)%Q
  /\ obj_width o' = obj_width o /\ obj_height o' = obj_height o
  /\ obj_angle o' = obj_angle o /\ obj_fill o' = obj_fill o
  /\ obj_isDocBackground o' = obj_isDocBackground o
  /\ obj_isCropOverlay o' = obj_isCropOverlay o.

(** The same for an object with its flip flags. *)
Definition sameFlippable (f f' : Flippable) : Prop :=
  sameGeometry (fl_obj f) (fl_obj f')
  /\ flipX f' = flipX f /\ flipY f' = flipY f.

(** The right edge `left + width * scaleX` of an object's box. *)
Definition rightEdge (o : FabricObject) : Q :=
  (JS.nullish (obj_left o) 0
   + JS.nullish (obj_width o) 0 * JS.nullish (obj_scaleX o) 1)%Q.

(** The two hexadecimal digits of a byte, as `toString(16)` writes
    them. *)
Definition hexDigit (d : Z) : ascii :=
  match d with
  | 0 => "0" | 1 => "1" | 2 => "2" | 3 => "3" | 4 => "4" | 5 => "5"
  | 6 => "6" | 7 => "7" | 8 => "8" | 9 => "9" | 10 => "a" | 11 => "b"
  | 12 => "c" | 13 => "d" | 14 => "e" | _ => "f"
  end%char.

Definition isByte (v : Z) : Prop := 0 <= v <= 255.

(** The same digit in front of a hexadecimal numeral. *)
Definition hexCons (d : Z) (u : Hexadecimal.uint) : Hexadecimal.uint :=
  match d with
  | 0 => Hexadecimal.D0 u | 1 => Hexadecimal.D1 u | 2 => Hexadecimal.D2 u
  | 3 => Hexadecimal.D3 u | 4 => Hexadecimal.D4 u | 5 => Hexadecimal.D5 u
  | 6 => Hexadecimal.D6 u | 7 => Hexadecimal.D7 u | 8 => Hexadecimal.D8 u
  | 9 => Hexadecimal.D9 u | 10 => Hexadecimal.Da u | 11 => Hexadecimal.Db u
  | 12 => Hexadecimal.Dc u | 13 => Hexadecimal.Dd u | 14 => Hexadecimal.De u
  | _ => Hexadecimal.Df u
  end.

(** `rr`, the two digits of a byte. *)
Definition hexByte (v : Z) (rest : string) : string :=
  String (hexDigit (v / 16)) (String (hexDigit (v mod 16)) rest).

(** The overlay at the end of a drag: as created when the mouse never
    moved, else dragged out to the last point the mouse moved to. *)
Definition draggedOverlay (created : FabricObject) (origin : Point)
    (moves : list Point) : FabricObject :=
  match last moves with
  | Some q => ToolGestures.dragBox origin q created
  | None => created
  end.

(** A component over the 200 x 200 sample scene with the given tool. *)
Definition sceneComponent (tool : Tool) : ToolGestures.Component :=
  ToolGestures.mkComponent
    (set_fabricCanvas (Some sceneCanvas) (setActiveTool tool sceneState))
    ToolGestures.idleRefs.

(** The sample scene with flip flags, nothing flipped. *)
Definition flippableScene : list Flippable :=
  (fun o => mkFlippable o false false) <$> objects sceneCanvas.

(* ================================================================== *)
(** ** Store: frame of undo and redo                                    *)
(* ================================================================== *)

Lemma set_historyIndex_same (s : EditorState) :
  set_historyIndex (historyIndex s) s = s.
Proof. destruct s; reflexivity. Qed.

(** C10. `undo()` and `redo()` write `historyIndex` and nothing else: the
    log with all its entries and every other field of the store are the
    same before and after. *)
Theorem undo_redo_only_move_index (s : EditorState) :
  sameButHistoryIndex s (undo s) /\ sameButHistoryIndex s (redo s).
Proof. split; repeat split. Qed.

(* ================================================================== *)
(** ** Store: removeLayer                                               *)
(* ================================================================== *)

Lemma removeLayer_layers (id : string) (s : EditorState) :
  layers (removeLayer id s) = filter (fun l => layer_id l <> id) (layers s).
Proof. reflexivity. Qed.

(** No layer with the removed id is left. *)
Lemma removeLayer_absent (id : string) (s : EditorState) :
  ~ In id (layer_id <$> layers (removeLayer id s)).
Proof.
  rewrite removeLayer_layers. intros H.
  apply list_elem_of_In, list_elem_of_fmap in H as (l & -> & Hl).
  apply list_elem_of_filter in Hl as [Hne _]. now apply Hne.
Qed.

(** Removing a layer other than the active one keeps the active id. *)
Lemma removeLayer_other_active (id : string) (s : EditorState) :
  activeLayerId s <> Some id ->
  activeLayerId (removeLayer id s) = activeLayerId s.
Proof.
  intros Hne. unfold removeLayer, set_layers; simpl.
  destruct (decide (activeLayerId s = Some id)); [contradiction | reflexivity].
Qed.

(** Removing the active layer when it is not the bottom one activates
    the bottom layer, which is the first one that remains. *)
Theorem removeLayer_active_upper (id : string) (s : EditorState)
    (l : Layer) (rest : list Layer) :
  layers s = l :: rest -> layer_id l <> id -> activeLayerId s = Some id ->
  activeLayerId (removeLayer id s) = Some (layer_id l)
  /\ head (layers (removeLayer id s)) = Some l.
Proof.
  intros Hl Hne Hact. unfold removeLayer, set_layers; simpl.
  rewrite Hl, Hact. destruct (decide (Some id = Some id)); [| congruence].
  split; [reflexivity |].
  rewrite filter_cons. destruct (decide (layer_id l <> id)); [reflexivity | contradiction].
Qed.

(** Removing the active layer when it is the bottom one leaves its own id
    as `activeLayerId`: the id is read from the array before filtering. *)
Lemma removeLayer_active_first (id : string) (s : EditorState)
    (l : Layer) (rest : list Layer) :
  layers s = l :: rest -> layer_id l = id -> activeLayerId s = Some id ->
  activeLayerId (removeLayer id s) = Some id.
Proof.
  intros Hl Hid Hact. unfold removeLayer, set_layers; simpl.
  rewrite Hl, Hact. destruct (decide (Some id = Some id)); [| congruence].
  simpl. now rewrite Hid.
Qed.

(** `removeLayer(id)` drops exactly the layers with that id: none with
    the id is left, and every other layer stays. *)
Theorem removeLayer_drops_exactly (id : string) (s : EditorState) :
  layers (removeLayer id s) = filter (fun l => layer_id l <> id) (layers s)
  /\ ~ In id (layer_id <$> layers (removeLayer id s))
  /\ forall l, In l (layers s) -> layer_id l <> id ->
               In l (layers (removeLayer id s)).
Proof.
  split; [reflexivity |]. split; [apply removeLayer_absent |].
  intros l Hl Hne. rewrite removeLayer_layers.
  apply list_elem_of_In, list_elem_of_filter. split; [exact Hne |].
  now apply list_elem_of_In.
Qed.

(** Removing the active layer "B" of "A", "B", "C" activates "A", the
    first layer that remains. *)
Lemma removeLayer_active_upper_witness :
  activeLayerId
    (removeLayer "B" (set_layers threeLayers (Some "B"%string) initialState))
  = Some "A"%string.
Proof.
  destruct (removeLayer_active_upper "B"
              (set_layers threeLayers (Some "B"%string) initialState)
              (layerNamed "A" "Background")
              [layerNamed "B" "Layer 2"; layerNamed "C" "Layer 3"])
    as [H _].
  - reflexivity.
  - discriminate.
  - reflexivity.
  - exact H.
Defined.

(** C1, at the store with layers "A", "B" and "A" active:
    `removeLayer("A")` leaves the single layer "B", yet `activeLayerId`
    is still "A", an id that is no longer in the sequence; the first
    remaining layer is "B". *)
Theorem removeLayer_first_active_dangles :
  layer_id <$> layers (removeLayer "A" twoLayerState) = ["B"%string]
  /\ activeLayerId (removeLayer "A" twoLayerState) = Some "A"%string
  /\ ~ activeLayerValid (removeLayer "A" twoLayerState)
  /\ activeLayerValid twoLayerState.
Proof.
  repeat split.
  - cbn. intros [H | []]. discriminate H.
  - cbn. now left.
Qed.

(* ================================================================== *)
(** ** Store: setDocument and the zoom bound                            *)
(* ================================================================== *)

Lemma Math_max_lower (a b : Q) : (a <= JS.Math_max a b)%Q.
Proof.
  unfold JS.Math_max. destruct (Qle_bool a b) eqn:E.
  - now apply Qle_bool_iff.
  - apply Qle_refl.
Qed.

Lemma Math_max_upper (a b c : Q) :
  (a <= c -> b <= c -> JS.Math_max a b <= c)%Q.
Proof. unfold JS.Math_max. now destruct (Qle_bool a b). Qed.

Lemma Math_min_upper (a b : Q) : (JS.Math_min a b <= a)%Q.
Proof.
  unfold JS.Math_min. destruct (Qle_bool a b) eqn:E.
  - apply Qle_refl.
  - destruct (Qlt_le_dec a b) as [Hlt | Hle]; [| exact Hle].
    apply Qlt_le_weak, Qle_bool_iff in Hlt. congruence.
Qed.

Lemma Math_min_lower (a b c : Q) :
  (c <= a -> c <= b -> c <= JS.Math_min a b)%Q.
Proof. unfold JS.Math_min. now destruct (Qle_bool a b). Qed.

(** The value the zoom tool hands to `setDocument` is within the bound. *)
Lemma zoom_click_value_in_bounds (z dir : Q) :
  zoomInBounds (JS.Math_min 32 (JS.Math_max (1 # 20) (z * dir))).
Proof.
  split.
  - apply Math_min_lower; [lra | apply Math_max_lower].
  - apply Math_min_upper.
Qed.

(** C2, as the code has it. From every store and for every partial,
    `setDocument` copies a supplied zoom as it is and keeps the old one
    when none is supplied; it does not clamp: the result is within
    `[0.05, 32]` exactly when the supplied zoom, or the old one when
    none is supplied, is.  So it preserves the bound whenever the
    supplied zoom, if any, is within it, and a supplied zoom outside
    the bound stays outside.  The clamping is done by the caller: from
    every store, within the bound or not, a click of the zoom tool
    leaves the zoom within the bound. *)
Theorem setDocument_keeps_supplied_zoom (s : EditorState) (p : DocumentPartial) :
  doc_zoom (document (setDocument p s))
    = JS.nullish (p_zoom p) (doc_zoom (document s))
  /\ (zoomInBounds (doc_zoom (document (setDocument p s)))
      <-> zoomInBounds (JS.nullish (p_zoom p) (doc_zoom (document s))))
  /\ (zoomInBounds (doc_zoom (document s)) ->
      (forall z, p_zoom p = Some z -> zoomInBounds z) ->
      zoomInBounds (doc_zoom (document (setDocument p s))))
  /\ (forall z, p_zoom p = Some z -> ~ zoomInBounds z ->
      ~ zoomInBounds (doc_zoom (document (setDocument p s))))
  /\ forall altKey,
       zoomInBounds
         (doc_zoom (document (CanvasToolHandler.handleMouseDown_zoom altKey s))).
Proof.
  assert (Hmerge : doc_zoom (document (setDocument p s))
                   = JS.nullish (p_zoom p) (doc_zoom (document s)))
    by reflexivity.
  split; [exact Hmerge |]. split; [now rewrite Hmerge |].
  split; [| split].
  - intros Hs Hp. rewrite Hmerge.
    destruct (p_zoom p) as [z |]; cbn; [now apply Hp | exact Hs].
  - intros z Hz Hout. rewrite Hmerge, Hz. exact Hout.
  - intros altKey. cbn. apply zoom_click_value_in_bounds.
Qed.

(** The theorem at the initial store and `setDocument({ zoom: 2 })`. *)
Lemma setDocument_keeps_supplied_zoom_witness :
  doc_zoom (document
    (setDocument (mkDocPartial None None None (Some 2%Q)) initialState)) = 2%Q
  /\ zoomInBounds (doc_zoom (document
       (setDocument (mkDocPartial None None None (Some 2%Q)) initialState))).
Proof.
  destruct (setDocument_keeps_supplied_zoom initialState
              (mkDocPartial None None None (Some 2%Q))) as (H1 & _ & H3 & _).
  split; [exact H1 |]. apply H3.
  - split; cbn; lra.
  - intros z Hz. injection Hz as <-. split; lra.
Defined.

(** C2 as stated fails: from the initial store (zoom 1),
    `setDocument({ zoom: 100 })` leaves the zoom at 100. *)
Lemma setDocument_does_not_clamp :
  zoomInBounds (doc_zoom (document initialState))
  /\ doc_zoom (document
       (setDocument (mkDocPartial None None None (Some 100%Q)) initialState))
     = 100%Q
  /\ ~ zoomInBounds (doc_zoom (document
       (setDocument (mkDocPartial None None None (Some 100%Q)) initialState))).
Proof.
  split; [split; cbn; lra |]. split; [reflexivity |].
  cbn. intros [_ H]. lra.
Qed.

(* ================================================================== *)
(** ** Store: the history log                                           *)
(* ================================================================== *)

(** `slice(0, i + 1)` keeps the entries at positions 0..i. *)
Lemma Array_slice_prefix {A : Type} (l : list A) (i : Z) :
  -1 <= i -> JS.Array_slice l 0 (i + 1) = take (Z.to_nat (i + 1)) l.
Proof.
  intros Hi. unfold JS.Array_slice, JS.rel_index.
  replace (0 <? 0) with false by reflexivity.
  destruct (i + 1 <? 0) eqn:E; [lia |].
  rewrite (Z.min_l 0) by lia. rewrite Z.sub_0_r.
  change (Z.to_nat 0) with 0%nat. rewrite drop_0.
  destruct (Z.le_ge_cases (i + 1) (Z.of_nat (length l))).
  - now rewrite Z.min_l by lia.
  - rewrite Z.min_r by lia. rewrite take_ge by lia.
    symmetry. apply take_ge. lia.
Qed.

Lemma pushHistory_unfold (uid label snapshot : string) (now : Z)
    (s : EditorState) :
  -1 <= historyIndex s ->
  let grown :=
    take (Z.to_nat (historyIndex s + 1)) (history s)
      ++ [mkEntry uid label now snapshot] in
  let kept :=
    if maxHistory s <? Z.of_nat (length grown) then tail grown else grown in
  pushHistory uid now label snapshot s
  = set_history kept (Z.of_nat (length kept) - 1) s.
Proof.
  intros Hi. unfold pushHistory, JS.Array_shift.
  now rewrite Array_slice_prefix.
Qed.

Lemma length_grown {A : Type} (l : list A) (i : Z) (e : A) :
  -1 <= i ->
  Z.of_nat (length (take (Z.to_nat (i + 1)) l ++ [e]))
  = Z.min (i + 1) (Z.of_nat (length l)) + 1.
Proof. intros Hi. rewrite length_app, length_take. cbn. lia. Qed.

Lemma last_tail_snoc {A : Type} (l : list A) (e : A) :
  l <> [] -> last (tail (l ++ [e])) = Some e.
Proof. destruct l as [| x l]; [easy |]. intros _. cbn. apply last_snoc. Qed.

(** The log `pushHistory` writes: it ends with the new entry and holds
    between 1 and 50 entries. *)
Lemma pushHistory_kept (l : list HistoryEntry) (i : Z) (e : HistoryEntry) :
  -1 <= i -> Z.of_nat (length l) <= 50 ->
  let grown := take (Z.to_nat (i + 1)) l ++ [e] in
  let kept := if 50 <? Z.of_nat (length grown) then tail grown else grown in
  last kept = Some e /\ 1 <= Z.of_nat (length kept) <= 50.
Proof.
  intros Hidx Hlen grown kept.
  assert (Hg : Z.of_nat (length grown)
               = Z.min (i + 1) (Z.of_nat (length l)) + 1)
    by (apply length_grown; exact Hidx).
  assert (Hlast : last kept = Some e).
  { subst kept. destruct (50 <? Z.of_nat (length grown)) eqn:E.
    - apply last_tail_snoc. intros Hnil.
      apply Z.ltb_lt in E. unfold grown in E. rewrite Hnil in E.
      cbn in E. lia.
    - apply last_snoc. }
  split; [exact Hlast |]. split.
  - destruct kept; [discriminate Hlast | cbn; lia].
  - subst kept. destruct (50 <? Z.of_nat (length grown)) eqn:E.
    + destruct grown; cbn in *; lia.
    + apply Z.ltb_ge in E. exact E.
Qed.

(** C3. On a store whose log is within the bound 50 and whose index is at
    least -1, `pushHistory` keeps the entries up to the current index,
    appends the new entry and, when that makes 51 entries, drops the
    oldest one; the index is the last position and addresses the new
    entry; the log has at most 50 entries and nothing is left to redo. *)
Theorem pushHistory_truncates_appends_evicts
    (uid label snapshot : string) (now : Z) (s : EditorState) :
  maxHistory s = 50 -> -1 <= historyIndex s ->
  Z.of_nat (length (history s)) <= 50 ->
  let entry := mkEntry uid label now snapshot in
  let grown := take (Z.to_nat (historyIndex s + 1)) (history s) ++ [entry] in
  let s' := pushHistory uid now label snapshot s in
  history s' = (if 50 <? Z.of_nat (length grown) then tail grown else grown)
  /\ historyIndex s' = Z.of_nat (length (history s')) - 1
  /\ history s' !! Z.to_nat (historyIndex s') = Some entry
  /\ Z.of_nat (length (history s')) <= 50
  /\ canRedo s' = false
  /\ redo s' = s'.
Proof.
  intros Hmax Hidx Hlen entry grown s'.
  destruct (pushHistory_kept (history s) (historyIndex s) entry Hidx Hlen)
    as [Hlast Hkept].
  fold grown in Hlast, Hkept. subst s'.
  rewrite pushHistory_unfold by exact Hidx. rewrite Hmax. fold entry grown.
  set (kept := if 50 <? Z.of_nat (length grown) then tail grown else grown) in *.
  cbn [history historyIndex set_history].
  repeat split.
  - rewrite <- Hlast, last_lookup. f_equal. lia.
  - lia.
  - unfold canRedo. cbn. apply Z.ltb_irrefl.
  - unfold redo. cbn [history historyIndex set_history].
    rewrite Z.min_l by lia. apply set_historyIndex_same.
Qed.

(** The theorem after three pushes and an undo: pushing "d" drops "c". *)
Lemma pushHistory_truncates_appends_evicts_witness :
  entry_id <$> history (pushHistory "d" 4 "Paint bucket" "{}" undoneState)
    = ["a"; "b"; "d"]%string
  /\ historyIndex (pushHistory "d" 4 "Paint bucket" "{}" undoneState) = 2
  /\ canRedo (pushHistory "d" 4 "Paint bucket" "{}" undoneState) = false.
Proof.
  destruct (pushHistory_truncates_appends_evicts
              "d" "Paint bucket" "{}" 4 undoneState)
    as (H1 & H2 & _ & _ & H5 & _).
  - reflexivity.
  - vm_compute. discriminate.
  - vm_compute. discriminate.
  - split; [rewrite H1; reflexivity |]. split; [| exact H5].
    rewrite H2, H1. reflexivity.
Defined.

(** The history calls keep the log bounded. *)
Lemma callHistory_bounded (c : HistoryCall) (s : EditorState) :
  historyBounded s -> historyBounded (callHistory c s).
Proof.
  intros (Hmax & Hidx & Hlen). destruct c as [uid now label snapshot | |]; cbn.
  - destruct (pushHistory_kept (history s) (historyIndex s)
                (mkEntry uid label now snapshot) Hidx Hlen) as [_ Hkept].
    rewrite pushHistory_unfold by exact Hidx. rewrite Hmax.
    split; [exact Hmax | split]; cbn [history historyIndex set_history]; lia.
  - split; [exact Hmax | split; [cbn; lia | exact Hlen]].
  - split; [exact Hmax | split; [cbn; lia | exact Hlen]].
Qed.

(** A push puts the index in range, whatever came before. *)
Lemma pushHistory_in_range (uid label snapshot : string) (now : Z)
    (s : EditorState) :
  historyBounded s -> indexInRange (pushHistory uid now label snapshot s).
Proof.
  intros (Hmax & Hidx & Hlen).
  destruct (pushHistory_kept (history s) (historyIndex s)
              (mkEntry uid label now snapshot) Hidx Hlen) as [_ Hkept].
  rewrite pushHistory_unfold by exact Hidx. rewrite Hmax.
  unfold indexInRange. cbn [history historyIndex set_history]. lia.
Qed.

(** Once in range, the index stays in range. *)
Lemma callHistory_in_range (c : HistoryCall) (s : EditorState) :
  historyBounded s -> indexInRange s -> indexInRange (callHistory c s).
Proof.
  intros Hb Hr. destruct c as [uid now label snapshot | |]; cbn.
  - now apply pushHistory_in_range.
  - unfold indexInRange in *. cbn. lia.
  - unfold indexInRange in *. cbn. lia.
Qed.

Lemma runHistory_bounded (cs : list HistoryCall) (s : EditorState) :
  historyBounded s -> historyBounded (runHistory cs s).
Proof.
  revert s. induction cs as [| c cs IH]; intros s Hb; [exact Hb |].
  cbn. apply IH. now apply callHistory_bounded.
Qed.

Lemma runHistory_in_range (cs : list HistoryCall) (s : EditorState) :
  historyBounded s -> indexInRange s -> indexInRange (runHistory cs s).
Proof.
  revert s. induction cs as [| c cs IH]; intros s Hb Hr; [exact Hr |].
  cbn. apply IH; [now apply callHistory_bounded | now apply callHistory_in_range].
Qed.

Lemma runHistory_in_range_after_push (cs : list HistoryCall) (s : EditorState) :
  historyBounded s -> existsb isPush cs = true ->
  indexInRange (runHistory cs s).
Proof.
  revert s. induction cs as [| c cs IH]; intros s Hb Hp; [discriminate Hp |].
  cbn in Hp |- *. destruct (isPush c) eqn:Ec.
  - apply runHistory_in_range; [now apply callHistory_bounded |].
    destruct c; try discriminate Ec. now apply pushHistory_in_range.
  - apply IH; [now apply callHistory_bounded | exact Hp].
Qed.

Lemma initialState_bounded : historyBounded initialState.
Proof. repeat split; cbn; lia. Qed.

(** Over every run of history calls from the initial store the bound
    stays 50, the log holds at most 50 entries and the index is at least
    -1. *)
Theorem history_stays_bounded (cs : list HistoryCall) :
  historyBounded (runHistory cs initialState).
Proof. apply runHistory_bounded, initialState_bounded. Qed.

(** C4, as the code has it. Over every run of `pushHistory`, `undo` and
    `redo` from the initial store: once the run contains a `pushHistory`
    the index lies within `[0, history.length - 1]`; `canUndo()` holds
    exactly when the index is above 0 and `canRedo()` exactly when it is
    below the last position; `undo` at index 0 and `redo` at the last
    position change nothing. *)
Theorem history_index_in_range_once_pushed (cs : list HistoryCall) :
  let s := runHistory cs initialState in
  (existsb isPush cs = true -> indexInRange s)
  /\ (canUndo s = true <-> 0 < historyIndex s)
  /\ (canRedo s = true
      <-> historyIndex s < Z.of_nat (length (history s)) - 1)
  /\ (historyIndex s = 0 -> undo s = s)
  /\ (historyIndex s = Z.of_nat (length (history s)) - 1 -> redo s = s).
Proof.
  intros s. split; [| split; [| split; [| split]]].
  - intros Hp. apply runHistory_in_range_after_push;
      [apply initialState_bounded | exact Hp].
  - unfold canUndo. apply Z.ltb_lt.
  - unfold canRedo. apply Z.ltb_lt.
  - intros H0. unfold undo.
    replace (Z.max 0 (historyIndex s - 1)) with (historyIndex s) by lia.
    apply set_historyIndex_same.
  - intros Hl. unfold redo.
    replace (Z.min (Z.of_nat (length (history s)) - 1) (historyIndex s + 1))
      with (historyIndex s) by lia.
    apply set_historyIndex_same.
Qed.

(** The theorem on three pushes followed by an undo: the index is 1 of
    0..2, both undo and redo are available. *)
Lemma history_index_in_range_once_pushed_witness :
  indexInRange undoneState /\ historyIndex undoneState = 1
  /\ canUndo undoneState = true /\ canRedo undoneState = true.
Proof.
  destruct (history_index_in_range_once_pushed
              [CallPush "a" 1 "Draw shape" "{}"; CallPush "b" 2 "Crop" "{}";
               CallPush "c" 3 "Erase" "{}"; CallUndo])
    as (H1 & H2 & H3 & _).
  split; [apply H1; reflexivity |]. split; [reflexivity |].
  split; [apply H2; vm_compute; reflexivity |].
  apply H3; vm_compute; reflexivity.
Defined.

(** C4 as stated fails on runs without a push: after a single `redo()`
    from the initial store the log is empty and the index is -1, below 0
    (this is also the index of the initial store itself). *)
Lemma history_index_below_zero_without_push :
  historyIndex (runHistory [CallRedo] initialState) = -1
  /\ history (runHistory [CallRedo] initialState) = []
  /\ ~ indexInRange (runHistory [CallRedo] initialState)
  /\ ~ indexInRange (runHistory [] initialState).
Proof.
  split; [reflexivity |]. split; [reflexivity |].
  split; intros [H _]; cbn in H; lia.
Qed.

(* ================================================================== *)
(** ** Store: reorderLayers                                             *)
(* ================================================================== *)

Lemma rel_index_range (len k : Z) :
  0 <= len -> 0 <= JS.rel_index len k <= len.
Proof. intros Hlen. unfold JS.rel_index. destruct (Z.ltb_spec k 0); lia. Qed.

Lemma rel_index_in_range (len k : Z) :
  0 <= k <= len -> JS.rel_index len k = k.
Proof. intros Hk. unfold JS.rel_index. destruct (Z.ltb_spec k 0); lia. Qed.

(** `splice(from, 1)` at a position that holds an element removes it. *)
Lemma Array_splice_remove {A : Type} (arr : list A) (from : Z) (x : A) :
  0 <= from -> arr !! Z.to_nat from = Some x ->
  JS.Array_splice arr from 1 [] = ([x], delete (Z.to_nat from) arr).
Proof.
  intros Hfrom Hx. pose proof (lookup_lt_Some _ _ _ Hx) as Hlt.
  unfold JS.Array_splice. rewrite rel_index_in_range by lia.
  replace (Z.min (Z.max 1 0) (Z.of_nat (length arr) - from)) with 1 by lia.
  f_equal.
  - change (Z.to_nat 1) with 1%nat.
    rewrite <- (take_drop_middle arr (Z.to_nat from) x Hx) at 1.
    rewrite drop_app_length' by (rewrite length_take; lia). reflexivity.
  - cbn [app]. rewrite delete_take_drop. do 2 f_equal. lia.
Qed.

(** `splice(to, 0, x)` inserts at the relative index of `to`. *)
Lemma Array_splice_insert {A : Type} (arr : list A) (to : Z) (x : A) :
  let k := Z.to_nat (JS.rel_index (Z.of_nat (length arr)) to) in
  snd (JS.Array_splice arr to 0 [x]) = take k arr ++ x :: drop k arr.
Proof.
  intros k. unfold JS.Array_splice. cbn [snd].
  pose proof (rel_index_range (Z.of_nat (length arr)) to ltac:(lia)) as Hr.
  replace (Z.min (Z.max 0 0) (Z.of_nat (length arr)
             - JS.rel_index (Z.of_nat (length arr)) to)) with 0 by lia.
  rewrite Z.add_0_r. reflexivity.
Qed.

(** What `reorderLayers` does when `from` addresses a layer. *)
Lemma reorderLayers_from_in_range (from to : Z) (ls : list Layer) (x : Layer) :
  0 <= from -> ls !! Z.to_nat from = Some x ->
  let rest := delete (Z.to_nat from) ls in
  let k := Z.to_nat (JS.rel_index (Z.of_nat (length rest)) to) in
  reorderLayers from to ls = Some <$> (take k rest ++ x :: drop k rest).
Proof.
  intros Hfrom Hx rest k. unfold reorderLayers.
  rewrite (Array_splice_remove (Some <$> ls) from (Some x) Hfrom)
    by (rewrite list_lookup_fmap, Hx; reflexivity).
  rewrite Array_splice_insert.
  rewrite <- list_fmap_delete, length_fmap. fold rest k.
  now rewrite fmap_app, fmap_cons, fmap_take, fmap_drop.
Qed.

(** C5, as the code has it. `reorderLayers` does not check its indices.
    When `from` addresses a layer, that layer is taken out and put back
    at `to`, read as a relative index into the remaining sequence (past
    the end it goes last, a negative one counts from the end): the result
    holds the same layers, the others in their old order, and when `to`
    is in range too the moved layer is at position `to`. *)
Theorem reorderLayers_moves_entry (from to : Z) (ls : list Layer) (x : Layer) :
  0 <= from -> ls !! Z.to_nat from = Some x ->
  let rest := delete (Z.to_nat from) ls in
  let k := Z.to_nat (JS.rel_index (Z.of_nat (length rest)) to) in
  let moved := take k rest ++ x :: drop k rest in
  reorderLayers from to ls = Some <$> moved
  /\ Permutation moved ls
  /\ length moved = length ls
  /\ (0 <= to < Z.of_nat (length ls) -> moved !! Z.to_nat to = Some x).
Proof.
  intros Hfrom Hx rest k moved.
  assert (Hperm : Permutation moved ls).
  { subst moved. rewrite <- Permutation_middle, take_drop.
    symmetry. now apply delete_Permutation. }
  split; [now apply reorderLayers_from_in_range |].
  split; [exact Hperm |]. split; [now apply Permutation_length |].
  intros Hto. pose proof (lookup_lt_Some _ _ _ Hx) as Hlt.
  assert (Hrest : length rest = (length ls - 1)%nat).
  { subst rest. rewrite length_delete by (rewrite Hx; eauto). reflexivity. }
  assert (Hk : k = Z.to_nat to).
  { subst k. rewrite rel_index_in_range by lia. reflexivity. }
  subst moved. rewrite Hk.
  rewrite lookup_app_r by (rewrite length_take; lia).
  rewrite length_take.
  replace (Z.to_nat to - Z.to_nat to `min` length rest)%nat with 0%nat by lia.
  reflexivity.
Qed.

(** The theorem on "A", "B", "C": moving the bottom layer to the top. *)
Lemma reorderLayers_moves_entry_witness :
  reorderLayers 0 2 threeLayers
  = Some <$> [layerNamed "B" "Layer 2"; layerNamed "C" "Layer 3";
              layerNamed "A" "Background"].
Proof.
  destruct (reorderLayers_moves_entry 0 2 threeLayers
              (layerNamed "A" "Background")) as (H1 & _).
  - lia.
  - reflexivity.
  - rewrite H1. reflexivity.
Defined.

(** C5 as stated fails: with three layers, `reorderLayers(0, 5)` has its
    second index out of `[0, 2]` and still moves "A" to the top. *)
Lemma reorderLayers_out_of_range_is_not_noop :
  reorderLayers 0 5 threeLayers
    = Some <$> [layerNamed "B" "Layer 2"; layerNamed "C" "Layer 3";
                layerNamed "A" "Background"]
  /\ reorderLayers 0 5 threeLayers <> Some <$> threeLayers.
Proof. split; [reflexivity | discriminate]. Qed.

(** With `from` past the end nothing is removed, and `undefined` is
    inserted at `to`. *)
Example reorderLayers_from_past_end :
  reorderLayers 5 0 threeLayers = None :: (Some <$> threeLayers).
Proof. reflexivity. Qed.

(* ================================================================== *)
(** ** Scene: the background object                                     *)
(* ================================================================== *)

Lemma findBackground_Some (os : list FabricObject) (i : nat) (bg : FabricObject) :
  findBackground os = Some (i, bg) ->
  os !! i = Some bg /\ obj_isDocBackground bg = true.
Proof.
  intros H. apply list_find_Some in H as (Hi & Hbg & _). now split.
Qed.

(** A map that keeps the background flag keeps the background's place. *)
Lemma findBackground_fmap (g : FabricObject -> FabricObject)
    (os : list FabricObject) :
  (forall o, obj_isDocBackground (g o) = obj_isDocBackground o) ->
  findBackground (g <$> os) = prod_map id g <$> findBackground os.
Proof.
  intros Hg. unfold findBackground. rewrite list_find_fmap. f_equal.
  apply list_find_ext. intros o. unfold isDocBackground; cbn. now rewrite Hg.
Qed.

Lemma length_updateBackground (f : FabricObject -> FabricObject)
    (os : list FabricObject) :
  length (updateBackground f os) = length os.
Proof.
  unfold updateBackground, writeFound. destruct (findBackground os) as [[i bg] |];
    [apply length_alter | reflexivity].
Qed.

(** Writing the background leaves every other object alone. *)
Lemma updateBackground_lookup_other (f : FabricObject -> FabricObject)
    (os : list FabricObject) (i : nat) (o : FabricObject) :
  os !! i = Some o -> obj_isDocBackground o = false ->
  updateBackground f os !! i = Some o.
Proof.
  intros Hi Ho. unfold updateBackground, writeFound.
  destruct (findBackground os) as [[j bg] |] eqn:E; [| exact Hi].
  apply findBackground_Some in E as [Hj Hbg].
  rewrite list_lookup_alter_ne; [exact Hi |].
  intros ->. congruence.
Qed.

Lemma updateBackground_lookup_background (f : FabricObject -> FabricObject)
    (os : list FabricObject) (i : nat) (bg : FabricObject) :
  findBackground os = Some (i, bg) -> updateBackground f os !! i = Some (f bg).
Proof.
  intros E. unfold updateBackground, writeFound. rewrite E.
  apply findBackground_Some in E as [Hi _].
  now rewrite list_lookup_alter_eq, Hi.
Qed.

Lemma updateBackground_none (f : FabricObject -> FabricObject)
    (os : list FabricObject) :
  findBackground os = None -> updateBackground f os = os.
Proof. intros E. unfold updateBackground, writeFound. now rewrite E. Qed.

(* ================================================================== *)
(** ** Tool handler: crop                                               *)
(* ================================================================== *)

Local Open Scope Q_scope.

Lemma lt_true_iff (a b : Q) : JS.lt a b = true <-> (a < b)%Q.
Proof.
  unfold JS.lt. rewrite negb_true_iff. split.
  - intros H. apply Qnot_le_lt. intros Hle.
    apply Qle_bool_iff in Hle. congruence.
  - intros H. destruct (Qle_bool b a) eqn:E; [| reflexivity].
    apply Qle_bool_iff in E. exfalso. now apply (Qlt_not_le a b).
Qed.

Lemma lt_false_iff (a b : Q) : JS.lt a b = false <-> (b <= a)%Q.
Proof.
  unfold JS.lt. rewrite negb_false_iff. apply Qle_bool_iff.
Qed.

(** `Math.round` of a whole number is that number. *)
Lemma Math_round_integer (n : Z) : JS.Math_round (inject_Z n) = inject_Z n.
Proof.
  unfold JS.Math_round, JS.round_int. f_equal.
  pose proof (Qfloor_le (inject_Z n + (1 # 2))) as Hle.
  pose proof (Qlt_floor (inject_Z n + (1 # 2))) as Hlt.
  set (f := Qfloor (inject_Z n + (1 # 2))) in *.
  rewrite inject_Z_plus in Hlt.
  destruct (Z.lt_trichotomy f n) as [H | [H | H]]; [| exact H |].
  - assert (f + 1 <= n)%Z as H' by lia. rewrite Zle_Qle in H'.
    rewrite inject_Z_plus in H'. change (inject_Z 1) with 1%Q in *. lra.
  - assert (n + 1 <= f)%Z as H' by lia. rewrite Zle_Qle in H'.
    rewrite inject_Z_plus in H'. change (inject_Z 1) with 1%Q in *. lra.
Qed.

(** The crop is refused when the effective width or height is below 1. *)
Lemma applyCrop_rejected (canvas : Canvas) (cropRect : FabricObject)
    (doc : DocumentInfo) (s : EditorState) :
  (JS.nullish (obj_width cropRect) (doc_width doc) < 1
   \/ JS.nullish (obj_height cropRect) (doc_height doc) < 1)%Q ->
  CanvasToolHandler.applyCrop canvas cropRect doc s = (canvas, s).
Proof.
  intros H. unfold CanvasToolHandler.applyCrop.
  destruct H as [H | H]; apply lt_true_iff in H; rewrite H;
    [reflexivity | now rewrite orb_true_r].
Qed.

Lemma applyCrop_accepted (canvas : Canvas) (cropRect : FabricObject)
    (doc : DocumentInfo) (s : EditorState) :
  let cl := JS.nullish (obj_left cropRect) 0%Q in
  let ct := JS.nullish (obj_top cropRect) 0%Q in
  let cw := JS.nullish (obj_width cropRect) (doc_width doc) in
  let ch := JS.nullish (obj_height cropRect) (doc_height doc) in
  (1 <= cw)%Q -> (1 <= ch)%Q ->
  CanvasToolHandler.applyCrop canvas cropRect doc s
  = (set_objects
       (updateBackground (set_box 0 0 cw ch)
          ((fun obj =>
              set_position (JS.nullish (obj_left obj) 0 - cl)
                           (JS.nullish (obj_top obj) 0 - ct) obj)
             <$> objects canvas))
       canvas,
     setDocument
       (mkDocPartial (Some (JS.Math_round cw)) (Some (JS.Math_round ch))
          None None) s).
Proof.
  intros cl ct cw ch Hw Hh. unfold CanvasToolHandler.applyCrop.
  apply lt_false_iff in Hw, Hh. fold cw ch. now rewrite Hw, Hh.
Qed.

(** C6, as the code has it. With `cw`, `ch` the overlay's width and
    height: when `cw < 1` or `ch < 1` the crop changes neither the scene
    nor the store. Otherwise the document's width and height become
    `Math.round(cw)` and `Math.round(ch)` (`cw` and `ch` themselves when
    these are whole numbers), every object that is not the document
    background is moved by `(-left, -top)` of the overlay, and the
    background object is put at (0, 0) with size `cw` x `ch`. On the
    200 x 200 sample scene, cropping to `{left: 10, top: 10, width: 100,
    height: 50}` gives a 100 x 50 document and moves the object at
    (15, 15) to (5, 5). *)
Theorem applyCrop_rejects_or_shifts (canvas : Canvas) (cropRect : FabricObject)
    (doc : DocumentInfo) (s : EditorState) :
  let cl := JS.nullish (obj_left cropRect) 0%Q in
  let ct := JS.nullish (obj_top cropRect) 0%Q in
  let cw := JS.nullish (obj_width cropRect) (doc_width doc) in
  let ch := JS.nullish (obj_height cropRect) (doc_height doc) in
  let canvas' := fst (CanvasToolHandler.applyCrop canvas cropRect doc s) in
  let s' := snd (CanvasToolHandler.applyCrop canvas cropRect doc s) in
  ((cw < 1 \/ ch < 1)%Q -> canvas' = canvas /\ s' = s)
  /\ ((1 <= cw /\ 1 <= ch)%Q ->
      doc_width (document s') = JS.Math_round cw
      /\ doc_height (document s') = JS.Math_round ch
      /\ (forall n, cw = inject_Z n -> doc_width (document s') = cw)
      /\ (forall n, ch = inject_Z n -> doc_height (document s') = ch)
      /\ length (objects canvas') = length (objects canvas)
      /\ (forall i o,
            objects canvas !! i = Some o -> obj_isDocBackground o = false ->
            objects canvas' !! i
            = Some (set_position (JS.nullish (obj_left o) 0 - cl)
                                 (JS.nullish (obj_top o) 0 - ct) o))
      /\ (forall i bg,
            findBackground (objects canvas) = Some (i, bg) ->
            objects canvas' !! i = Some (set_box 0 0 cw ch bg)))
  /\ (let cropped :=
        CanvasToolHandler.applyCrop
          (sceneWithOverlay (cropOverlay 10 10 100 50))
          (cropOverlay 10 10 100 50) (document sceneState) sceneState in
      doc_width (document (snd cropped)) = 100%Q
      /\ doc_height (document (snd cropped)) = 50%Q
      /\ objects (fst cropped) !! 1%nat = Some (rectAt 5 5 30 30 "#00ff00")).
Proof.
  intros cl ct cw ch canvas' s'. split; [| split].
  - intros H. subst canvas' s'. now rewrite applyCrop_rejected.
  - intros [Hw Hh]. subst canvas' s'.
    rewrite applyCrop_accepted by assumption. fold cl ct cw ch.
    cbn [fst snd]. set (shift := fun obj : FabricObject => _).
    assert (Hflag : forall o, obj_isDocBackground (shift o) = obj_isDocBackground o)
      by reflexivity.
    split; [reflexivity |]. split; [reflexivity |].
    split; [intros n Hn; cbn; rewrite Hn; apply Math_round_integer |].
    split; [intros n Hn; cbn; rewrite Hn; apply Math_round_integer |].
    split; [| split].
    + cbn. now rewrite length_updateBackground, length_fmap.
    + intros i o Hi Ho. cbn [objects set_objects].
      apply updateBackground_lookup_other; [| exact Ho].
      now rewrite list_lookup_fmap, Hi.
    + intros i bg Hbg. cbn [objects set_objects].
      erewrite updateBackground_lookup_background
        by (rewrite findBackground_fmap by exact Hflag; rewrite Hbg; reflexivity).
      reflexivity.
  - repeat split.
Qed.

(** The theorem on the sample scene: a 1/2-pixel-wide overlay is refused,
    and the 100 x 50 crop moves the green rectangle to (5, 5). *)
Lemma applyCrop_rejects_or_shifts_witness :
  CanvasToolHandler.applyCrop (sceneWithOverlay (cropOverlay 10 10 (1 # 2) 50))
    (cropOverlay 10 10 (1 # 2) 50) (document sceneState) sceneState
  = (sceneWithOverlay (cropOverlay 10 10 (1 # 2) 50), sceneState)
  /\ objects (fst (CanvasToolHandler.applyCrop
                    (sceneWithOverlay (cropOverlay 10 10 100 50))
                    (cropOverlay 10 10 100 50) (document sceneState) sceneState))
       !! 1%nat
     = Some (set_position (15 - 10) (15 - 10) (rectAt 15 15 30 30 "#00ff00")).
Proof.
  split.
  - destruct (applyCrop_rejects_or_shifts
                (sceneWithOverlay (cropOverlay 10 10 (1 # 2) 50))
                (cropOverlay 10 10 (1 # 2) 50) (document sceneState) sceneState)
      as (H & _).
    destruct H as [H1 H2]; [left; cbn; lra |].
    now apply injective_projections.
  - destruct (applyCrop_rejects_or_shifts
                (sceneWithOverlay (cropOverlay 10 10 100 50))
                (cropOverlay 10 10 100 50) (document sceneState) sceneState)
      as (_ & H & _).
    destruct H as (_ & _ & _ & _ & _ & H & _); [split; cbn; lra |].
    apply (H 1%nat (rectAt 15 15 30 30 "#00ff00")); reflexivity.
Defined.

(** C6 as stated fails on an overlay 100.5 wide: the document becomes 101
    wide, not 100.5, and the background object, at (0, 0) before, is at
    (0, 0) afterwards rather than at (-10, -10). *)
Lemma applyCrop_rounds_and_pins_background :
  let cropped :=
    CanvasToolHandler.applyCrop
      (sceneWithOverlay (cropOverlay 10 10 (201 # 2) 50))
      (cropOverlay 10 10 (201 # 2) 50) (document sceneState) sceneState in
  doc_width (document (snd cropped)) = 101%Q
  /\ ~ (doc_width (document (snd cropped)) == 201 # 2)%Q
  /\ objects sceneCanvas !! 0%nat = Some (backgroundRect 200 200)
  /\ objects (fst cropped) !! 0%nat = Some (backgroundRect (201 # 2) 50)
  /\ ~ (0 == 0 - 10)%Q.
Proof.
  cbv zeta. split; [reflexivity |].
  split; [intros H; vm_compute in H; discriminate H |].
  split; [reflexivity |]. split; [reflexivity | lra].
Qed.

(* ================================================================== *)
(** ** Canvas utilities: quarter turns                                  *)
(* ================================================================== *)

(** `App.handleRotate` leaves the document of the store and the number
    of objects as they are, whatever Fabric's `rotate` does to an object. *)
Lemma handleRotate_keeps_document
    (fabricRotate : Q -> FabricObject -> FabricObject) (degrees : Q)
    (s : EditorState) :
  document (handleRotate fabricRotate degrees s) = document s
  /\ (length ∘ objects <$> fabricCanvas (handleRotate fabricRotate degrees s))
     = (length ∘ objects <$> fabricCanvas s).
Proof.
  unfold handleRotate. destruct (fabricCanvas s) as [canvas |] eqn:E.
  - split; [reflexivity |]. cbn. now rewrite length_fmap.
  - now rewrite E.
Qed.

Section QuarterTurns.

Context (m : MathLib).

Lemma normalizeDegrees_90 : JS.num_eq (normalizeDegrees 90) 90 = true.
Proof. reflexivity. Qed.

(** One quarter turn of an object that is not the background. *)
Lemma rotateObject_90 (docW docH : Q) (obj : FabricObject) :
  obj_isDocBackground obj = false ->
  rotateObject m docW docH 90 obj
  = set_position_angle
      (docH - centerY obj
       - (JS.nullish (obj_width obj) 0 * JS.nullish (obj_scaleX obj) 1) / 2)
      (centerX obj
       - (JS.nullish (obj_height obj) 0 * JS.nullish (obj_scaleY obj) 1) / 2)
      (JS.nullish (obj_angle obj) 0 + 90)
      obj.
Proof.
  intros Hbg. unfold rotateObject. rewrite Hbg.
  now rewrite normalizeDegrees_90.
Qed.

Lemma rotateObject_background (docW docH degrees : Q)
    (obj : FabricObject) :
  obj_isDocBackground obj = true -> rotateObject m docW docH degrees obj = obj.
Proof. intros Hbg. unfold rotateObject. now rewrite Hbg. Qed.

Lemma rotateObject_flag (docW docH degrees : Q)
    (obj : FabricObject) :
  obj_isDocBackground (rotateObject m docW docH degrees obj)
  = obj_isDocBackground obj.
Proof.
  unfold rotateObject. destruct (obj_isDocBackground obj) eqn:E; [exact E |].
  destruct (JS.num_eq (normalizeDegrees degrees) 90);
    [| destruct (JS.num_eq (normalizeDegrees degrees) 180);
       [| destruct (JS.num_eq (normalizeDegrees degrees) 270)]];
    exact E.
Qed.

(** The centre after a quarter turn: `(docH - cy, cx)`. *)
Lemma rotateObject_90_center (docW docH : Q) (obj : FabricObject) :
  obj_isDocBackground obj = false ->
  centerX (rotateObject m docW docH 90 obj) == docH - centerY obj
  /\ centerY (rotateObject m docW docH 90 obj) == centerX obj.
Proof.
  intros Hbg. rewrite rotateObject_90 by exact Hbg.
  unfold centerX, centerY; cbn. split; field.
Qed.

Lemma rotateCanvas_90 (c : Canvas) :
  rotateCanvas m 90 c
  = set_objects
      (updateBackground (set_box 0 0 (snd (docSize c)) (fst (docSize c)))
         (rotateObject m (fst (docSize c)) (snd (docSize c)) 90 <$> objects c))
      c.
Proof.
  unfold rotateCanvas, updateBackground, writeFound. rewrite normalizeDegrees_90.
  cbn [orb]. rewrite findBackground_fmap by apply rotateObject_flag.
  unfold docSize.
  now destruct (findBackground (objects c)) as [[i bg] |].
Qed.

(** Writing the background through a map that keeps its flag keeps it the
    first background object. *)
Lemma findBackground_updateBackground (f : FabricObject -> FabricObject)
    (os : list FabricObject) :
  (forall o, obj_isDocBackground (f o) = obj_isDocBackground o) ->
  findBackground (updateBackground f os) = prod_map id f <$> findBackground os.
Proof.
  intros Hf. unfold updateBackground, writeFound.
  destruct (findBackground os) as [[i bg] |] eqn:E; [| now rewrite E].
  cbn. apply list_find_Some in E as (Hi & Hbg & Hmin).
  apply list_find_Some. split; [| split].
  - now rewrite list_lookup_alter_eq, Hi.
  - unfold isDocBackground in *. now rewrite Hf.
  - intros j y Hj Hlt. rewrite list_lookup_alter_ne in Hj by lia.
    now apply (Hmin j).
Qed.

Lemma findBackground_rotateCanvas_90 (c : Canvas) :
  findBackground (objects (rotateCanvas m 90 c))
  = prod_map id (set_box 0 0 (snd (docSize c)) (fst (docSize c)))
      <$> findBackground (objects c).
Proof.
  rewrite rotateCanvas_90. cbn [objects set_objects].
  rewrite findBackground_updateBackground by reflexivity.
  rewrite findBackground_fmap by apply rotateObject_flag.
  destruct (findBackground (objects c)) as [[i bg] |] eqn:E; [| reflexivity].
  cbn. apply findBackground_Some in E as [_ Hbg].
  now rewrite rotateObject_background.
Qed.

(** The document size after a quarter turn: swapped when the scene has a
    background object, the canvas' own size otherwise. *)
Lemma docSize_rotateCanvas_90 (c : Canvas) :
  docSize (rotateCanvas m 90 c)
  = match findBackground (objects c) with
    | Some _ => (snd (docSize c), fst (docSize c))
    | None => docSize c
    end.
Proof.
  unfold docSize at 1. rewrite findBackground_rotateCanvas_90.
  destruct (findBackground (objects c)) as [[i bg] |] eqn:E; cbn.
  - reflexivity.
  - unfold docSize. rewrite E. reflexivity.
Qed.

Lemma rotateCanvas_90_lookup (c : Canvas) (i : nat)
    (o : FabricObject) :
  objects c !! i = Some o -> obj_isDocBackground o = false ->
  objects (rotateCanvas m 90 c) !! i
  = Some (rotateObject m (fst (docSize c)) (snd (docSize c)) 90 o).
Proof.
  intros Hi Ho. rewrite rotateCanvas_90. cbn [objects set_objects].
  apply updateBackground_lookup_other.
  - now rewrite list_lookup_fmap, Hi.
  - now rewrite rotateObject_flag.
Qed.

Lemma length_rotateCanvas_90 (c : Canvas) :
  length (objects (rotateCanvas m 90 c)) = length (objects c).
Proof.
  rewrite rotateCanvas_90. cbn [objects set_objects].
  now rewrite length_updateBackground, length_fmap.
Qed.

(** Two quarter turns bring the document size back. *)
Lemma docSize_two_turns (c : Canvas) :
  docSize (rotateCanvas m 90 (rotateCanvas m 90 c)) = docSize c.
Proof.
  rewrite !docSize_rotateCanvas_90, findBackground_rotateCanvas_90.
  destruct (findBackground (objects c)) as [[i bg] |]; cbn;
    [now destruct (docSize c) | reflexivity].
Qed.

(** The height used by the turn after the next is the same again. *)
Lemma docHeight_two_turns (c : Canvas) :
  snd (docSize (rotateCanvas m 90 (rotateCanvas m 90 c))) = snd (docSize c).
Proof. now rewrite docSize_two_turns. Qed.

(** One quarter turn seen from one object that is not the background:
    it keeps its place in the stack, and its centre `(cx, cy)` becomes
    `(docH - cy, cx)`. *)
Lemma quarter_turn_step (c : Canvas) (i : nat) (o : FabricObject) :
  objects c !! i = Some o -> obj_isDocBackground o = false ->
  exists o',
    objects (rotateCanvas m 90 c) !! i = Some o'
    /\ obj_isDocBackground o' = false
    /\ centerX o' == snd (docSize c) - centerY o
    /\ centerY o' == centerX o.
Proof.
  intros Hi Ho.
  exists (rotateObject m (fst (docSize c)) (snd (docSize c)) 90 o).
  split; [now apply rotateCanvas_90_lookup |].
  split; [now rewrite rotateObject_flag |].
  now apply rotateObject_90_center.
Qed.

(** C7. Four calls of `rotateCanvas(canvas, 90)` in a row bring the
    document size (the background rectangle's width and height, or the
    canvas' when there is no background) back to what it was, keep the
    number of objects, and bring the centre of every object that is not
    the background back to where it was; this holds for every scene and
    every document size, equal sides or not.  Numbers are exact
    rationals, so "back" is equality of rationals. *)
Theorem rotateCanvas_four_quarter_turns (c : Canvas) :
  docSize (rotateFourTimes m c) = docSize c
  /\ length (objects (rotateFourTimes m c)) = length (objects c)
  /\ forall i o,
       objects c !! i = Some o -> obj_isDocBackground o = false ->
       exists o4,
         objects (rotateFourTimes m c) !! i = Some o4
         /\ obj_isDocBackground o4 = false
         /\ centerX o4 == centerX o
         /\ centerY o4 == centerY o.
Proof.
  unfold rotateFourTimes. split; [| split].
  - rewrite docSize_two_turns. apply docSize_two_turns.
  - now rewrite !length_rotateCanvas_90.
  - intros i o0 Hi0 F0.
    destruct (quarter_turn_step _ i o0 Hi0 F0) as (o1 & Hi1 & F1 & X1 & Y1).
    destruct (quarter_turn_step _ i o1 Hi1 F1) as (o2 & Hi2 & F2 & X2 & Y2).
    destruct (quarter_turn_step _ i o2 Hi2 F2) as (o3 & Hi3 & F3 & X3 & Y3).
    destruct (quarter_turn_step _ i o3 Hi3 F3) as (o4 & Hi4 & F4 & X4 & Y4).
    rewrite docHeight_two_turns in X3, X4.
    exists o4. split; [exact Hi4 |]. split; [exact F4 |]. split; lra.
Qed.

End QuarterTurns.

(** The theorem on the 200 x 100 sample: the size is 200 x 100 again and
    the rectangle's centre is (30, 30) again. *)
Lemma rotateCanvas_four_quarter_turns_witness :
  docSize (rotateFourTimes coarseMath wideScene) = (200, 100)
  /\ exists o4,
       objects (rotateFourTimes coarseMath wideScene) !! 1%nat = Some o4
       /\ centerX o4 == 30 /\ centerY o4 == 30.
Proof.
  destruct (rotateCanvas_four_quarter_turns coarseMath wideScene)
    as (H1 & _ & H3).
  split; [rewrite H1; reflexivity |].
  destruct (H3 1%nat (rectAt 15 15 30 30 "#00ff00") eq_refl eq_refl)
    as (o4 & Ho4 & _ & Hx & Hy).
  exists o4. split; [exact Ho4 |].
  split; [rewrite Hx | rewrite Hy]; reflexivity.
Defined.

(** One quarter turn of the same sample: the size becomes 100 x 200 and
    the rectangle, centred at (30, 30), is centred at (70, 30). *)
Example rotateCanvas_one_quarter_turn_sample :
  docSize (rotateCanvas coarseMath 90 wideScene) = (100, 200)
  /\ (obj_left <$> objects (rotateCanvas coarseMath 90 wideScene) !! 1%nat)
     = Some (Some (100 - (15 + 30 * 1 / 2) - 30 * 1 / 2)).
Proof. split; reflexivity. Qed.

(* ================================================================== *)
(** ** Tool handler: eyedropper                                         *)
(* ================================================================== *)

(** `sampleColor` of `CanvasToolHandler.tsx` writes the sampled colour
    whatever the pixel's alpha is. *)
Lemma sampleColor_always_writes (surface : Surface) (canvas : Canvas)
    (pointer : Point) (s : EditorState) (vpt : TMat2D) :
  viewportTransform canvas = Some vpt ->
  let pixel :=
    getImageData surface
      (JS.round_int (pt_x pointer * vpt0 vpt + vpt4 vpt))
      (JS.round_int (pt_y pointer * vpt3 vpt + vpt5 vpt)) in
  foregroundColor (CanvasToolHandler.sampleColor surface canvas pointer s)
  = rgbToHex (px_r pixel) (px_g pixel) (px_b pixel).
Proof. intros Hv. unfold CanvasToolHandler.sampleColor. now rewrite Hv. Qed.

(** The second copy of `sampleColor` leaves the store alone on a surface
    whose pixels are all fully transparent. *)
Lemma sampleColor_revised_skips_transparent (surface : Surface)
    (canvas : Canvas) (pointer : Point) (s : EditorState) :
  (forall x y, px_a (getImageData surface x y) = 0%Z) ->
  CanvasToolHandlerRevised.sampleColor surface canvas pointer s = s.
Proof.
  intros Ha. unfold CanvasToolHandlerRevised.sampleColor.
  destruct (viewportTransform canvas) as [vpt |]; [| reflexivity].
  cbv zeta. rewrite Ha.
  now destruct (_ || _ || _ || _)%bool.
Qed.

Lemma sampleColor_revised_unfold (surface : Surface) (canvas : Canvas)
    (pointer : Point) (s : EditorState) (vpt : TMat2D) :
  viewportTransform canvas = Some vpt ->
  CanvasToolHandlerRevised.sampleColor surface canvas pointer s
  = if ((fst (sampledAt surface vpt pointer) <? 0)%Z
        || (snd (sampledAt surface vpt pointer) <? 0)%Z
        || (el_width surface <=? fst (sampledAt surface vpt pointer))%Z
        || (el_height surface <=? snd (sampledAt surface vpt pointer))%Z)%bool
    then s
    else
      if (px_a (getImageData surface (fst (sampledAt surface vpt pointer))
                  (snd (sampledAt surface vpt pointer))) =? 0)%Z
      then s
      else setForegroundColor
             (rgbToHex
                (px_r (getImageData surface (fst (sampledAt surface vpt pointer))
                         (snd (sampledAt surface vpt pointer))))
                (px_g (getImageData surface (fst (sampledAt surface vpt pointer))
                         (snd (sampledAt surface vpt pointer))))
                (px_b (getImageData surface (fst (sampledAt surface vpt pointer))
                         (snd (sampledAt surface vpt pointer))))) s.
Proof.
  intros Hv. unfold CanvasToolHandlerRevised.sampleColor. now rewrite Hv.
Qed.

(** The second copy of `sampleColor`: a fully transparent pixel leaves
    the store as it is; a pixel on the surface with non-zero alpha sets
    the foreground colour to its "#rrggbb" and nothing else. *)
Theorem sampleColor_revised_alpha (surface : Surface) (canvas : Canvas)
    (pointer : Point) (s : EditorState) (vpt : TMat2D) :
  viewportTransform canvas = Some vpt ->
  let xy := sampledAt surface vpt pointer in
  let pixel := getImageData surface (fst xy) (snd xy) in
  let s' := CanvasToolHandlerRevised.sampleColor surface canvas pointer s in
  (px_a pixel = 0%Z -> s' = s)
  /\ (onSurface surface xy -> px_a pixel <> 0%Z ->
      s' = setForegroundColor
             (rgbToHex (px_r pixel) (px_g pixel) (px_b pixel)) s).
Proof.
  intros Hv xy pixel s'. subst s'.
  rewrite (sampleColor_revised_unfold surface canvas pointer s vpt Hv).
  fold xy. fold pixel. split.
  - intros Ha. rewrite Ha. now destruct (_ || _ || _ || _)%bool.
  - intros [[Hx1 Hx2] [Hy1 Hy2]] Ha.
    destruct (Z.ltb_spec (fst xy) 0); [lia |].
    destruct (Z.ltb_spec (snd xy) 0); [lia |].
    destruct (Z.leb_spec (el_width surface) (fst xy)); [lia |].
    destruct (Z.leb_spec (el_height surface) (snd xy)); [lia |].
    cbn [orb]. destruct (Z.eqb_spec (px_a pixel) 0); [contradiction | reflexivity].
Qed.

(** The theorem on the orange surface (HiDPI ratio 2), red foreground and
    a click at (20, 20): pixel (40, 40) is read and the foreground colour
    becomes "#ff8001". *)
Lemma sampleColor_revised_alpha_witness :
  sampledAt orangeSurface identityViewport (mkPoint 20 20) = (40%Z, 40%Z)
  /\ foregroundColor
       (CanvasToolHandlerRevised.sampleColor orangeSurface sceneCanvas
          (mkPoint 20 20) redState) = "#ff8001"%string.
Proof.
  split; [reflexivity |].
  destruct (sampleColor_revised_alpha orangeSurface sceneCanvas (mkPoint 20 20)
              redState identityViewport eq_refl) as [_ H].
  rewrite H; [reflexivity | | discriminate].
  split; split; vm_compute; congruence.
Defined.

(** C8, at a fully transparent surface with red as the foreground colour
    and a click at (20, 20): the sampled pixel has alpha 0, and
    `sampleColor` of `CanvasToolHandler.tsx` replaces red with "#000000";
    the second copy of `sampleColor` leaves the store as it is. *)
Theorem sampleColor_overwrites_on_transparent_pixel :
  px_a (getImageData transparentSurface 20 20) = 0%Z
  /\ foregroundColor redState = "#ff0000"%string
  /\ foregroundColor
       (CanvasToolHandler.sampleColor transparentSurface sceneCanvas
          (mkPoint 20 20) redState) = "#000000"%string
  /\ CanvasToolHandlerRevised.sampleColor transparentSurface sceneCanvas
       (mkPoint 20 20) redState = redState.
Proof. repeat split. Qed.

(* ================================================================== *)
(** ** Tool handler: paint bucket                                       *)
(* ================================================================== *)

(** `handlePaintBucket(canvas, color)` never looks at the pointer: with
    nothing selected it writes the background. *)
Lemma handlePaintBucket_no_selection (canvas : Canvas) (color : string) :
  activeObject canvas = None ->
  objects (CanvasToolHandler.handlePaintBucket canvas color)
  = updateBackground (set_fill color) (objects canvas).
Proof.
  intros Ha. unfold CanvasToolHandler.handlePaintBucket. now rewrite Ha.
Qed.

(** What the loop of the second copy finds: an object that is not the
    background and contains the point, with no such object above it. *)
Lemma topmostHit_Some (containsPoint : FabricObject -> Point -> bool)
    (p : Point) (os : list FabricObject) (i : nat) :
  CanvasToolHandlerRevised.topmostHit containsPoint p os = Some i ->
  exists o,
    os !! i = Some o /\ obj_isDocBackground o = false
    /\ containsPoint o p = true
    /\ forall j o', (i < j)%nat -> os !! j = Some o' ->
         obj_isDocBackground o' = true \/ containsPoint o' p = false.
Proof.
  revert i. induction os as [| o os IH]; intros i H; [discriminate H |].
  cbn in H.
  destruct (CanvasToolHandlerRevised.topmostHit containsPoint p os)
    as [k |] eqn:E.
  - injection H as <-. destruct (IH k eq_refl) as (o1 & H1 & H2 & H3 & H4).
    exists o1. repeat split; try assumption.
    intros [| j] o' Hlt Hj; [lia |]. apply (H4 j); [lia | exact Hj].
  - destruct (negb (obj_isDocBackground o) && containsPoint o p)%bool eqn:Eo;
      [| discriminate H].
    injection H as <-. apply andb_true_iff in Eo as [Hb Hc].
    apply negb_true_iff in Hb. exists o. repeat split; try assumption.
    intros [| j] o' Hlt Hj; [lia |]. cbn in Hj.
    clear IH. revert j Hlt Hj E. induction os as [| o2 os IH2];
      intros j Hlt Hj E; [discriminate Hj |].
    cbn in E.
    destruct (CanvasToolHandlerRevised.topmostHit containsPoint p os)
      eqn:E2; [discriminate E |].
    destruct (negb (obj_isDocBackground o2) && containsPoint o2 p)%bool
      eqn:E3; [discriminate E |].
    destruct j as [| j]; cbn in Hj.
    + injection Hj as <-. apply andb_false_iff in E3 as [E3 | E3];
        [left; now apply negb_false_iff | now right].
    + apply (IH2 j); [lia | exact Hj | reflexivity].
Qed.

(** The second copy, nothing selected: the top-most object under the
    pointer is filled when there is one. *)
Lemma handlePaintBucket_revised_under_pointer
    (containsPoint : FabricObject -> Point -> bool) (canvas : Canvas)
    (color : string) (p : Point) (i : nat) :
  activeObject canvas = None ->
  CanvasToolHandlerRevised.topmostHit containsPoint p (objects canvas) = Some i ->
  objects (CanvasToolHandlerRevised.handlePaintBucket containsPoint canvas
             color (Some p))
  = alter (set_fill color) i (objects canvas).
Proof.
  intros Ha Hh. unfold CanvasToolHandlerRevised.handlePaintBucket.
  now rewrite Ha, Hh.
Qed.

(** When the loop of the second copy finds nothing, no object other
    than the background contains the point. *)
Lemma topmostHit_None (containsPoint : FabricObject -> Point -> bool)
    (p : Point) (os : list FabricObject) :
  CanvasToolHandlerRevised.topmostHit containsPoint p os = None ->
  forall i o, os !! i = Some o ->
    obj_isDocBackground o = true \/ containsPoint o p = false.
Proof.
  induction os as [| o1 os IH]; intros H i o Hi; [discriminate Hi |].
  cbn in H.
  destruct (CanvasToolHandlerRevised.topmostHit containsPoint p os)
    eqn:E; [discriminate H |].
  destruct (negb (obj_isDocBackground o1) && containsPoint o1 p)%bool
    eqn:E1; [discriminate H |].
  destruct i as [| i]; cbn in Hi.
  - injection Hi as <-. apply andb_false_iff in E1 as [E1 | E1];
      [left; now apply negb_false_iff | now right].
  - now apply (IH eq_refl i).
Qed.

(** The loop finds every hit: an object that is not the background and
    contains the point, with no such object above it, is the one
    found. *)
Lemma topmostHit_complete (containsPoint : FabricObject -> Point -> bool)
    (p : Point) (os : list FabricObject) (i : nat) (o : FabricObject) :
  os !! i = Some o -> obj_isDocBackground o = false ->
  containsPoint o p = true ->
  (forall j o', (i < j)%nat -> os !! j = Some o' ->
     obj_isDocBackground o' = true \/ containsPoint o' p = false) ->
  CanvasToolHandlerRevised.topmostHit containsPoint p os = Some i.
Proof.
  intros Hi Hbg Hc Habove.
  destruct (CanvasToolHandlerRevised.topmostHit containsPoint p os)
    as [k |] eqn:E.
  - destruct (topmostHit_Some _ _ _ _ E) as (ok & Hk & Hkbg & Hkc & Hkabove).
    destruct (Nat.lt_trichotomy k i) as [Hlt | [Heq | Hgt]].
    + destruct (Hkabove i o Hlt Hi) as [H | H]; congruence.
    + now subst k.
    + destruct (Habove k ok Hgt Hk) as [H | H]; congruence.
  - destruct (topmostHit_None _ _ _ E i o Hi) as [H | H]; congruence.
Qed.

(** No hit, nothing found. *)
Lemma topmostHit_no_hit (containsPoint : FabricObject -> Point -> bool)
    (p : Point) (os : list FabricObject) :
  (forall i o, os !! i = Some o ->
     obj_isDocBackground o = true \/ containsPoint o p = false) ->
  CanvasToolHandlerRevised.topmostHit containsPoint p os = None.
Proof.
  intros Hno.
  destruct (CanvasToolHandlerRevised.topmostHit containsPoint p os)
    as [k |] eqn:E; [| reflexivity].
  destruct (topmostHit_Some _ _ _ _ E) as (ok & Hk & Hkbg & Hkc & _).
  destruct (Hno k ok Hk) as [H | H]; congruence.
Qed.

(** The second copy of `handlePaintBucket` with a pointer.  A selected
    object that is not the background is filled.  Otherwise, that is
    with nothing selected or with the background selected: if an object
    that is not the background contains the point, the top-most such
    object (the one with no such object above it) is filled, wherever
    it lies in the stack; if no object other than the background
    contains the point, the background is filled.  One of the two is
    always the case. *)
Theorem handlePaintBucket_revised_cases
    (containsPoint : FabricObject -> Point -> bool) (canvas : Canvas)
    (color : string) (p : Point) :
  let os := objects canvas in
  let os' :=
    objects (CanvasToolHandlerRevised.handlePaintBucket containsPoint canvas
               color (Some p)) in
  let noObjectSelected :=
    activeObject canvas = None
    \/ exists a, activeObject canvas = Some a
                 /\ CanvasToolHandlerRevised.isBackgroundAt os a = true in
  let topmostAt (i : nat) (o : FabricObject) :=
    os !! i = Some o /\ obj_isDocBackground o = false
    /\ containsPoint o p = true
    /\ forall j o', (i < j)%nat -> os !! j = Some o' ->
         obj_isDocBackground o' = true \/ containsPoint o' p = false in
  let nothingHit :=
    forall i o, os !! i = Some o ->
      obj_isDocBackground o = true \/ containsPoint o p = false in
  (forall i, activeObject canvas = Some i ->
             CanvasToolHandlerRevised.isBackgroundAt os i = false ->
             os' = alter (set_fill color) i os)
  /\ (forall i o, noObjectSelected -> topmostAt i o ->
                  os' = alter (set_fill color) i os)
  /\ (noObjectSelected -> nothingHit ->
      os' = updateBackground (set_fill color) os)
  /\ ((exists i o, topmostAt i o) \/ nothingHit).
Proof.
  intros os os' noObjectSelected topmostAt nothingHit.
  assert (Hunder : noObjectSelected ->
            os' = match CanvasToolHandlerRevised.topmostHit containsPoint p os
                  with
                  | Some i => alter (set_fill color) i os
                  | None => updateBackground (set_fill color) os
                  end).
  { intros Hsel. subst os' os.
    unfold CanvasToolHandlerRevised.handlePaintBucket.
    destruct Hsel as [Ha | (a & Ha & Hb)]; rewrite Ha; [| rewrite Hb];
      now destruct (CanvasToolHandlerRevised.topmostHit containsPoint p
                      (objects canvas)). }
  split; [| split; [| split]].
  - intros i Ha Hb. subst os' os.
    unfold CanvasToolHandlerRevised.handlePaintBucket. now rewrite Ha, Hb.
  - intros i o Hsel (Hi & Hbg & Hc & Habove). rewrite (Hunder Hsel).
    now rewrite (topmostHit_complete containsPoint p os i o Hi Hbg Hc Habove).
  - intros Hsel Hno. rewrite (Hunder Hsel).
    now rewrite (topmostHit_no_hit containsPoint p os Hno).
  - destruct (CanvasToolHandlerRevised.topmostHit containsPoint p os)
      as [k |] eqn:E.
    + left. destruct (topmostHit_Some _ _ _ _ E) as (o & H).
      exists k, o. exact H.
    + right. exact (topmostHit_None _ _ _ E).
Qed.

(** The theorem on the sample scene and a click at (20, 20): the green
    rectangle, at position 1, contains the point and has nothing above
    it, and it is filled. *)
Lemma handlePaintBucket_revised_cases_witness :
  insideBox (rectAt 15 15 30 30 "#00ff00") (mkPoint 20 20) = true
  /\ objects (CanvasToolHandlerRevised.handlePaintBucket insideBox sceneCanvas
                "#ff0000" (Some (mkPoint 20 20)))
     = alter (set_fill "#ff0000") 1%nat (objects sceneCanvas).
Proof.
  split; [reflexivity |].
  destruct (handlePaintBucket_revised_cases insideBox sceneCanvas "#ff0000"
              (mkPoint 20 20)) as (_ & H & _).
  apply (H 1%nat (rectAt 15 15 30 30 "#00ff00")).
  - left. reflexivity.
  - split; [reflexivity |]. split; [reflexivity |]. split; [reflexivity |].
    intros [| [| j]] o' Hlt Hj; [lia | lia | discriminate Hj].
Defined.

(** C9, on the sample scene with nothing selected and a click at (20, 20),
    inside the green rectangle: `handlePaintBucket` of
    `CanvasToolHandler.tsx` fills the background and leaves the rectangle
    green; the second copy of `handlePaintBucket` fills the rectangle. *)
Theorem handlePaintBucket_fills_background_under_object :
  activeObject sceneCanvas = None
  /\ insideBox (rectAt 15 15 30 30 "#00ff00") (mkPoint 20 20) = true
  /\ objects (CanvasToolHandler.handlePaintBucket sceneCanvas "#ff0000")
     = [set_fill "#ff0000" (backgroundRect 200 200);
        rectAt 15 15 30 30 "#00ff00"]
  /\ objects (CanvasToolHandlerRevised.handlePaintBucket insideBox sceneCanvas
                "#ff0000" (Some (mkPoint 20 20)))
     = [backgroundRect 200 200; rectAt 15 15 30 30 "#ff0000"].
Proof. repeat split. Qed.

(* ================================================================== *)
(** ** Store: the other layer commands                                  *)
(* ================================================================== *)

Local Close Scope Q_scope.

Lemma set_layers_same (s : EditorState) :
  set_layers (layers s) (activeLayerId s) s = s.
Proof. destruct s; reflexivity. Qed.

(** Filtering out an id no layer has keeps the sequence. *)
Lemma filter_fresh_id (id : string) (ls : list Layer) :
  ~ In id (layer_id <$> ls) -> filter (fun l => layer_id l <> id) ls = ls.
Proof.
  induction ls as [| l ls IH]; intros Hfresh; [reflexivity |].
  rewrite filter_cons. cbn in Hfresh.
  destruct (decide (layer_id l <> id)) as [_ | Heq].
  - f_equal. apply IH. tauto.
  - exfalso. apply Hfresh. left.
    destruct (decide (layer_id l = id)); [assumption | contradiction].
Qed.

(** The layer `addLayer` appends carries the fresh id when the partial
    has no `id` key. *)
Lemma addLayer_layers (uid : string) (partial : option LayerPartial)
    (s : EditorState) :
  (partial ≫= lp_id) = None ->
  exists l,
    layers (snd (addLayer uid partial s)) = layers s ++ [l]
    /\ layer_id l = uid.
Proof.
  intros Hid. unfold addLayer. cbn [snd layers set_layers].
  eexists. split; [reflexivity |].
  destruct partial as [p |]; [| reflexivity].
  cbn in Hid |- *. now rewrite Hid.
Qed.

(** `addLayer` returns a fresh id, appends one layer carrying it and
    makes it active; `removeLayer` of that id then gives back the layer
    sequence as it was and, when the sequence was not empty, activates
    its first layer. *)
Theorem addLayer_then_removeLayer (uid : string)
    (partial : option LayerPartial) (s : EditorState) :
  (partial ≫= lp_id) = None ->
  ~ In uid (layer_id <$> layers s) ->
  let s1 := snd (addLayer uid partial s) in
  fst (addLayer uid partial s) = uid
  /\ length (layers s1) = S (length (layers s))
  /\ (layer_id <$> last (layers s1)) = Some uid
  /\ activeLayerId s1 = Some uid
  /\ layers (removeLayer uid s1) = layers s
  /\ (layers s <> [] ->
      activeLayerId (removeLayer uid s1) = layer_id <$> head (layers s)).
Proof.
  intros Hid Hfresh s1.
  destruct (addLayer_layers uid partial s Hid) as (l & Hl & Hlid).
  fold s1 in Hl.
  assert (Hact : activeLayerId s1 = Some uid) by reflexivity.
  split; [reflexivity |].
  split; [rewrite Hl, length_app; cbn; lia |].
  split; [rewrite Hl, last_snoc; cbn; now rewrite Hlid |].
  split; [exact Hact |]. split.
  - rewrite removeLayer_layers, Hl, filter_app, filter_fresh_id by exact Hfresh.
    rewrite filter_cons, filter_nil.
    destruct (decide (layer_id l <> uid)); [contradiction |].
    apply app_nil_r.
  - intros Hne. unfold removeLayer. cbn [activeLayerId set_layers].
    rewrite Hact. destruct (decide (Some uid = Some uid)); [| congruence].
    rewrite Hl. now destruct (layers s).
Qed.

(** The theorem on "A", "B" plus a new layer "N". *)
Lemma addLayer_then_removeLayer_witness :
  layers (removeLayer "N" (snd (addLayer "N" None twoLayerState)))
    = layers twoLayerState
  /\ activeLayerId (removeLayer "N" (snd (addLayer "N" None twoLayerState)))
     = Some "A"%string.
Proof.
  destruct (addLayer_then_removeLayer "N" None twoLayerState)
    as (_ & _ & _ & _ & H5 & H6).
  - reflexivity.
  - cbn. intros [H | [H | []]]; discriminate H.
  - split; [exact H5 |]. rewrite H6; [reflexivity | discriminate].
Defined.

(** `updateLayer(id, updates)` changes nothing when no layer has the id;
    in every case it keeps the length of the sequence, the active id and
    every layer whose id differs. *)
Theorem updateLayer_touches_only_id (id : string) (updates : LayerPartial)
    (s : EditorState) :
  (~ In id (layer_id <$> layers s) -> updateLayer id updates s = s)
  /\ length (layers (updateLayer id updates s)) = length (layers s)
  /\ activeLayerId (updateLayer id updates s) = activeLayerId s
  /\ forall i l,
       layers s !! i = Some l -> layer_id l <> id ->
       layers (updateLayer id updates s) !! i = Some l.
Proof.
  split; [| split; [| split]].
  - intros Habsent. unfold updateLayer.
    replace (_ <$> layers s) with (layers s); [apply set_layers_same |].
    induction (layers s) as [| l ls IH]; [reflexivity |].
    cbn in Habsent |- *. destruct (decide (layer_id l = id)); [tauto |].
    f_equal. apply IH. tauto.
  - cbn. apply length_fmap.
  - reflexivity.
  - intros i l Hi Hne. cbn. rewrite list_lookup_fmap, Hi. cbn.
    now destruct (decide (layer_id l = id)).
Qed.

(** The theorem on "A", "B": an update for the absent id "Z" is a no-op. *)
Lemma updateLayer_touches_only_id_witness :
  updateLayer "Z"
    (mkLayerPartial None (Some "x"%string) None None None None None None None
       None None None None) twoLayerState
  = twoLayerState.
Proof.
  destruct (updateLayer_touches_only_id "Z"
              (mkLayerPartial None (Some "x"%string) None None None None None
                 None None None None None None) twoLayerState) as (H & _).
  apply H. cbn. intros [E | [E | []]]; discriminate E.
Defined.

(** `duplicateLayer(id)` changes nothing when no layer has the id;
    otherwise it appends a copy of a layer with that id whose id is the
    fresh one and whose name has " copy" appended, every other property
    kept, and makes the copy active. *)
Theorem duplicateLayer_appends_copy (newId id : string) (s : EditorState) :
  (~ In id (layer_id <$> layers s) -> duplicateLayer newId id s = s)
  /\ (In id (layer_id <$> layers s) ->
      exists l,
        In l (layers s) /\ layer_id l = id
        /\ layers (duplicateLayer newId id s)
           = layers s
               ++ [with_id_name newId (String.append (layer_name l) " copy") l]
        /\ activeLayerId (duplicateLayer newId id s) = Some newId).
Proof.
  unfold duplicateLayer. split.
  - intros Habsent.
    destruct (list_find _ (layers s)) as [[i l] |] eqn:E; [| reflexivity].
    apply list_find_Some in E as (Hi & Hid & _). exfalso. apply Habsent.
    apply list_elem_of_In, list_elem_of_fmap. exists l. split; [easy |].
    now apply list_elem_of_lookup_2 in Hi.
  - intros Hin.
    destruct (list_find _ (layers s)) as [[i l] |] eqn:E.
    + apply list_find_Some in E as (Hi & Hid & _). exists l.
      split; [eapply list_elem_of_In, list_elem_of_lookup_2; exact Hi |].
      split; [exact Hid |]. split; reflexivity.
    + exfalso. apply list_elem_of_In, list_elem_of_fmap in Hin as (l & -> & Hl).
      apply list_find_None in E. rewrite Forall_forall in E.
      now apply (E l).
Qed.

(** The theorem on "A", "B": duplicating "B" as "B2". *)
Lemma duplicateLayer_appends_copy_witness :
  (layer_name <$> layers (duplicateLayer "B2" "B" twoLayerState))
    = ["Background"; "Layer 2"; "Layer 2 copy"]%string
  /\ activeLayerId (duplicateLayer "B2" "B" twoLayerState) = Some "B2"%string.
Proof.
  destruct (duplicateLayer_appends_copy "B2" "B" twoLayerState) as [_ H].
  destruct H as (l & _ & _ & _ & Hact); [cbn; tauto |].
  split; [reflexivity | exact Hact].
Defined.

(** `flattenLayers()` leaves a sequence of at most one layer as it is;
    two or more layers become the single first layer, renamed
    "Background" and active.  So at most one layer is left in every
    case, and flattening twice is flattening once. *)
Theorem flattenLayers_collapses (s : EditorState) :
  ((length (layers s) <= 1)%nat -> flattenLayers s = s)
  /\ (forall first second rest,
        layers s = first :: second :: rest ->
        layers (flattenLayers s)
          = [with_id_name (layer_id first) "Background" first]
        /\ activeLayerId (flattenLayers s) = Some (layer_id first))
  /\ (length (layers (flattenLayers s)) <= 1)%nat
  /\ flattenLayers (flattenLayers s) = flattenLayers s.
Proof.
  assert (Hsmall : forall t, (length (layers t) <= 1)%nat -> flattenLayers t = t).
  { intros t Ht. unfold flattenLayers.
    destruct (Nat.leb_spec (length (layers t)) 1); [reflexivity | lia]. }
  assert (Hlen : (length (layers (flattenLayers s)) <= 1)%nat).
  { unfold flattenLayers.
    destruct (Nat.leb_spec (length (layers s)) 1); [assumption |].
    destruct (layers s) as [| first rest]; cbn in *; lia. }
  split; [apply Hsmall |]. split; [| split; [exact Hlen |]].
  - intros first second rest Hl. unfold flattenLayers. rewrite Hl. cbn.
    split; reflexivity.
  - now apply Hsmall.
Qed.

(** The theorem on "A", "B", "C" with "C" active. *)
Lemma flattenLayers_collapses_witness :
  (layer_id <$> layers
     (flattenLayers (set_layers threeLayers (Some "C"%string) initialState)))
    = ["A"%string]
  /\ activeLayerId
       (flattenLayers (set_layers threeLayers (Some "C"%string) initialState))
     = Some "A"%string.
Proof.
  destruct (flattenLayers_collapses
              (set_layers threeLayers (Some "C"%string) initialState))
    as (_ & H & _).
  destruct (H (layerNamed "A" "Background") (layerNamed "B" "Layer 2")
              [layerNamed "C" "Layer 3"] eq_refl) as [H1 H2].
  split; [rewrite H1; reflexivity | exact H2].
Defined.

Lemma merge_layer_keeps_id (l : Layer) (p : LayerPartial) :
  lp_id p = None -> layer_id (merge_layer l p) = layer_id l.
Proof. intros Hp. cbn. now rewrite Hp. Qed.

Lemma In_ids_app_r (id : string) (ls : list Layer) (l : Layer) :
  layer_id l = id -> In id (layer_id <$> (ls ++ [l])).
Proof.
  intros Hl. rewrite fmap_app. apply in_or_app. right. cbn. now left.
Qed.

(** Each layer command other than `removeLayer` keeps `activeLayerId`
    null or the id of a layer, provided no `id` key is passed. *)
Lemma callLayer_keeps_active_valid (c : LayerCall) (s : EditorState) :
  passesNoId c = true -> activeLayerValid s -> activeLayerValid (callLayer c s).
Proof.
  intros Hc Hs.
  destruct c as [uid partial | id updates | newId id |]; cbn [callLayer].
  - assert (Hid : (partial ≫= lp_id) = None).
    { destruct partial as [p |]; [| reflexivity]. cbn in Hc |- *.
      now destruct (lp_id p). }
    destruct (addLayer_layers uid partial s Hid) as (l & Hl & Hlid).
    unfold activeLayerValid. rewrite Hl.
    change (activeLayerId (snd (addLayer uid partial s))) with (Some uid).
    now apply In_ids_app_r.
  - unfold activeLayerValid in *. cbn [activeLayerId updateLayer set_layers layers].
    destruct (activeLayerId s) as [a |]; [| exact I].
    replace (layer_id <$> (_ <$> layers s)) with (layer_id <$> layers s);
      [exact Hs |].
    rewrite <- list_fmap_compose. apply list_fmap_ext. intros i l _. cbn.
    destruct (decide (layer_id l = id)); [| reflexivity].
    cbn in Hc. destruct (lp_id updates) eqn:E; [discriminate Hc |].
    cbn. now rewrite E.
  - unfold duplicateLayer.
    destruct (list_find _ (layers s)) as [[i l] |]; [| exact Hs].
    unfold activeLayerValid. cbn [activeLayerId set_layers layers].
    now apply In_ids_app_r.
  - unfold flattenLayers. destruct (length (layers s) <=? 1)%nat; [exact Hs |].
    destruct (layers s !! 0%nat); [| exact Hs].
    unfold activeLayerValid. cbn. now left.
Qed.

(** Over every run of `addLayer`, `updateLayer`, `duplicateLayer` and
    `flattenLayers` from the initial store in which no call passes an
    `id` key, `activeLayerId` is null or the id of a layer of the
    sequence. *)
Theorem layer_commands_keep_active_valid (cs : list LayerCall) :
  forallb passesNoId cs = true ->
  activeLayerValid (runLayers cs initialState).
Proof.
  assert (H : forall s, forallb passesNoId cs = true -> activeLayerValid s ->
                        activeLayerValid (runLayers cs s)).
  { induction cs as [| c cs IH]; intros s Hcs Hs; [exact Hs |].
    cbn in Hcs |- *. apply andb_true_iff in Hcs as [Hc Hcs].
    apply IH; [exact Hcs | now apply callLayer_keeps_active_valid]. }
  intros Hcs. apply H; [exact Hcs | exact I].
Qed.

(** The theorem on a run that adds two layers, duplicates the first and
    flattens: the active layer is "u1", the only layer left. *)
Lemma layer_commands_keep_active_valid_witness :
  activeLayerValid
    (runLayers [CallAdd "u1" None; CallAdd "u2" None;
                CallDuplicate "u3" "u1"; CallFlatten] initialState)
  /\ activeLayerId
       (runLayers [CallAdd "u1" None; CallAdd "u2" None;
                   CallDuplicate "u3" "u1"; CallFlatten] initialState)
     = Some "u1"%string.
Proof.
  split; [| reflexivity].
  apply (layer_commands_keep_active_valid
           [CallAdd "u1" None; CallAdd "u2" None;
            CallDuplicate "u3" "u1"; CallFlatten]).
  reflexivity.
Defined.

(* ================================================================== *)
(** ** History: undo and redo as inverses, and jumps                    *)
(* ================================================================== *)

Lemma set_historyIndex_twice (i j : Z) (s : EditorState) :
  set_historyIndex i (set_historyIndex j s) = set_historyIndex i s.
Proof. reflexivity. Qed.

(** With the index in range, `redo()` takes back an `undo()` that was
    available, and `undo()` takes back a `redo()` that was available. *)
Theorem undo_redo_inverse (s : EditorState) :
  indexInRange s ->
  (canUndo s = true -> redo (undo s) = s)
  /\ (canRedo s = true -> undo (redo s) = s).
Proof.
  intros [Hlo Hhi].
  split; intros Hcan; apply Z.ltb_lt in Hcan;
    destruct s; unfold redo, undo, set_historyIndex, set_history;
    cbn in *; f_equal; lia.
Qed.

(** The theorem after three pushes and an undo (index 1 of 0..2). *)
Lemma undo_redo_inverse_witness :
  redo (undo undoneState) = undoneState
  /\ undo (redo undoneState) = undoneState.
Proof.
  destruct (undo_redo_inverse undoneState) as [H1 H2].
  - split; vm_compute; discriminate.
  - split; [apply H1 | apply H2]; reflexivity.
Defined.

Lemma iter_undo (k : nat) (s : EditorState) :
  0 <= historyIndex s ->
  Nat.iter k undo s
  = set_historyIndex (Z.max 0 (historyIndex s - Z.of_nat k)) s.
Proof.
  intros Hlo. induction k as [| k IH].
  - destruct s; unfold set_historyIndex, set_history; cbn in *.
    f_equal. lia.
  - rewrite Nat.iter_succ, IH.
    destruct s; unfold undo, set_historyIndex, set_history; cbn in *.
    f_equal. lia.
Qed.

Lemma iter_redo (k : nat) (s : EditorState) :
  historyIndex s <= Z.of_nat (length (history s)) - 1 ->
  Nat.iter k redo s
  = set_historyIndex
      (Z.min (Z.of_nat (length (history s)) - 1) (historyIndex s + Z.of_nat k)) s.
Proof.
  intros Hhi. induction k as [| k IH].
  - destruct s; unfold set_historyIndex, set_history; cbn in *.
    f_equal. lia.
  - rewrite Nat.iter_succ, IH.
    destruct s; unfold redo, set_historyIndex, set_history; cbn in *.
    f_equal. lia.
Qed.

(** With the index in range, a click on entry `targetIndex` of the
    history panel moves the index there by single steps: the index ends
    at the target clamped to `[0, history.length - 1]`, hence at the
    target itself when that is an entry of the log, and nothing but the
    index changes. *)
Theorem handleJumpToState_reaches_target (targetIndex : Z) (s : EditorState) :
  indexInRange s ->
  let s' := HistoryPanel.handleJumpToState targetIndex s in
  historyIndex s'
    = Z.max 0 (Z.min targetIndex (Z.of_nat (length (history s)) - 1))
  /\ (0 <= targetIndex <= Z.of_nat (length (history s)) - 1 ->
      historyIndex s' = targetIndex)
  /\ sameButHistoryIndex s s'.
Proof.
  intros [Hlo Hhi] s'.
  assert (Hs' : s' = set_historyIndex
            (Z.max 0 (Z.min targetIndex (Z.of_nat (length (history s)) - 1))) s).
  { subst s'. unfold HistoryPanel.handleJumpToState.
    destruct (Z.ltb_spec targetIndex (historyIndex s)).
    - rewrite iter_undo by exact Hlo. f_equal. lia.
    - destruct (Z.ltb_spec (historyIndex s) targetIndex).
      + rewrite iter_redo by exact Hhi. f_equal. lia.
      + destruct s; unfold set_historyIndex, set_history; cbn in *.
        f_equal. lia. }
  rewrite Hs'. split; [reflexivity |]. split; [cbn; lia |].
  repeat split.
Qed.

(** The theorem after three pushes and an undo: a click on entry 0. *)
Lemma handleJumpToState_reaches_target_witness :
  historyIndex (HistoryPanel.handleJumpToState 0 undoneState) = 0
  /\ history (HistoryPanel.handleJumpToState 0 undoneState)
     = history undoneState.
Proof.
  destruct (handleJumpToState_reaches_target 0 undoneState)
    as (_ & H2 & H3).
  - split; vm_compute; discriminate.
  - split; [apply H2; split; vm_compute; discriminate |].
    destruct H3 as (_ & _ & _ & _ & _ & _ & _ & _ & H & _). exact H.
Defined.

(* ================================================================== *)
(** ** Store: tools, colours and brush                                  *)
(* ================================================================== *)

(** `swapColors()` is its own inverse, and `setActiveTool` remembers the
    tool it replaces: selecting the remembered tool afterwards brings
    the first tool back and remembers the second. *)
Theorem swapColors_setActiveTool_round_trips (tool : Tool) (s : EditorState) :
  swapColors (swapColors s) = s
  /\ foregroundColor (swapColors s) = backgroundColor s
  /\ backgroundColor (swapColors s) = foregroundColor s
  /\ (let s1 := setActiveTool tool s in
      let s2 := setActiveTool (previousTool s1) s1 in
      activeTool s2 = activeTool s /\ previousTool s2 = tool
      /\ set_tools (activeTool s) (previousTool s) s2 = s).
Proof.
  destruct s. repeat split.
Qed.

(** With the brush size within `[1, 500]`, the keys `[` and `]` keep it
    there, move it by at most 5 and leave hardness, opacity and flow
    alone. *)
Theorem brush_keys_keep_size_in_range (s : EditorState) :
  (1 <= brush_size (brushSettings s) <= 500)%Q ->
  let smaller := brushSettings (KeyboardShortcuts.brushSmaller s) in
  let larger := brushSettings (KeyboardShortcuts.brushLarger s) in
  (1 <= brush_size smaller <= 500)%Q
  /\ (1 <= brush_size larger <= 500)%Q
  /\ (brush_size (brushSettings s) - 5 <= brush_size smaller
      <= brush_size (brushSettings s))%Q
  /\ (brush_size (brushSettings s) <= brush_size larger
      <= brush_size (brushSettings s) + 5)%Q
  /\ brush_hardness smaller = brush_hardness (brushSettings s)
  /\ brush_opacity smaller = brush_opacity (brushSettings s)
  /\ brush_flow smaller = brush_flow (brushSettings s)
  /\ brush_hardness larger = brush_hardness (brushSettings s)
  /\ brush_opacity larger = brush_opacity (brushSettings s)
  /\ brush_flow larger = brush_flow (brushSettings s).
Proof.
  intros [Hlo Hhi]. cbn.
  set (b := brush_size (brushSettings s)) in *.
  assert (H1 : (1 <= JS.Math_max 1 (b - 5))%Q) by apply Math_max_lower.
  assert (H2 : (JS.Math_max 1 (b - 5) <= b)%Q)
    by (apply Math_max_upper; lra).
  assert (H3 : (b - 5 <= JS.Math_max 1 (b - 5))%Q).
  { unfold JS.Math_max. destruct (Qle_bool 1 (b - 5)) eqn:E; [lra |].
    destruct (Qlt_le_dec (b - 5) 1) as [Hlt | Hle]; [lra |].
    apply Qle_bool_iff in Hle. congruence. }
  assert (H4 : (JS.Math_min 500 (b + 5) <= 500)%Q) by apply Math_min_upper.
  assert (H5 : (b <= JS.Math_min 500 (b + 5))%Q)
    by (apply Math_min_lower; lra).
  assert (H6 : (JS.Math_min 500 (b + 5) <= b + 5)%Q).
  { unfold JS.Math_min. destruct (Qle_bool 500 (b + 5)) eqn:E; [| lra].
    now apply Qle_bool_iff. }
  repeat split; try reflexivity; lra.
Qed.

(** The theorem on the store's initial brush, of size 20. *)
Lemma brush_keys_keep_size_in_range_witness :
  (brush_size (brushSettings (KeyboardShortcuts.brushSmaller initialState))
     == 15)%Q
  /\ (1 <= brush_size
             (brushSettings (KeyboardShortcuts.brushLarger initialState))
      <= 500)%Q.
Proof.
  destruct (brush_keys_keep_size_in_range initialState) as (_ & H & _).
  - split; vm_compute; discriminate.
  - split; [reflexivity | exact H].
Defined.

(* ================================================================== *)
(** ** Zoom controls                                                    *)
(* ================================================================== *)

Lemma Math_max_cases (a b : Q) :
  ((a <= b /\ JS.Math_max a b = b) \/ (b <= a /\ JS.Math_max a b = a))%Q.
Proof.
  unfold JS.Math_max. destruct (Qle_bool a b) eqn:E.
  - left. split; [now apply Qle_bool_iff | reflexivity].
  - right. split; [| reflexivity].
    destruct (Qlt_le_dec a b) as [Hlt | Hle]; [| exact Hle].
    apply Qlt_le_weak, Qle_bool_iff in Hlt. congruence.
Qed.

Lemma Math_min_cases (a b : Q) :
  ((a <= b /\ JS.Math_min a b = a) \/ (b <= a /\ JS.Math_min a b = b))%Q.
Proof.
  unfold JS.Math_min. destruct (Qle_bool a b) eqn:E.
  - left. split; [now apply Qle_bool_iff | reflexivity].
  - right. split; [| reflexivity].
    destruct (Qlt_le_dec a b) as [Hlt | Hle]; [| exact Hle].
    apply Qlt_le_weak, Qle_bool_iff in Hlt. congruence.
Qed.

(** With the zoom within `[0.05, 32]`, the status bar's three zoom
    buttons and the Ctrl/Cmd wheel keep it there.  Zoom In never lowers
    the zoom and Zoom Out never raises it, and none of them touches the
    document's width, height or name. *)
Theorem zoom_controls_stay_in_bounds (ctrlKey metaKey : bool) (deltaY : Q)
    (s : EditorState) :
  zoomInBounds (doc_zoom (document s)) ->
  let z := doc_zoom (document s) in
  let zin := document (StatusBar.zoomIn s) in
  let zout := document (StatusBar.zoomOut s) in
  let zfit := document (StatusBar.zoomFit s) in
  let zwheel := document (EditorCanvas.handleWheel ctrlKey metaKey deltaY s) in
  zoomInBounds (doc_zoom zin) /\ zoomInBounds (doc_zoom zout)
  /\ zoomInBounds (doc_zoom zfit) /\ zoomInBounds (doc_zoom zwheel)
  /\ (z <= doc_zoom zin)%Q /\ (doc_zoom zout <= z)%Q
  /\ Forall (fun d => doc_width d = doc_width (document s)
                      /\ doc_height d = doc_height (document s)
                      /\ doc_name d = doc_name (document s))
       [zin; zout; zfit; zwheel].
Proof.
  intros [Hlo Hhi] z zin zout zfit zwheel.
  assert (Hin : doc_zoom zin = JS.Math_min 32 (z * (5 # 4))) by reflexivity.
  assert (Hout : doc_zoom zout = JS.Math_max (1 # 20) (z / (5 # 4)))
    by reflexivity.
  assert (Hdiv : (z / (5 # 4) == z * (4 # 5))%Q) by (field).
  fold z in Hlo, Hhi.
  split; [| split; [| split; [| split; [| split; [| split]]]]].
  - rewrite Hin. split; [apply Math_min_lower; lra | apply Math_min_upper].
  - rewrite Hout. split; [apply Math_max_lower |].
    apply Math_max_upper; [lra |]. rewrite Hdiv. lra.
  - split; cbn; lra.
  - subst zwheel. unfold EditorCanvas.handleWheel.
    destruct (negb ctrlKey && negb metaKey); [now split |].
    apply zoom_click_value_in_bounds.
  - rewrite Hin. apply Math_min_lower; lra.
  - rewrite Hout. apply Math_max_upper; [lra |]. rewrite Hdiv. lra.
  - subst zwheel. unfold EditorCanvas.handleWheel.
    destruct (negb ctrlKey && negb metaKey); repeat constructor.
Qed.

(** The theorem on the initial store (zoom 1) and a wheel step up with
    Ctrl held. *)
Lemma zoom_controls_stay_in_bounds_witness :
  zoomInBounds (doc_zoom (document (StatusBar.zoomIn initialState)))
  /\ zoomInBounds
       (doc_zoom (document (EditorCanvas.handleWheel true false (-100)
                              initialState))).
Proof.
  destruct (zoom_controls_stay_in_bounds true false (-100) initialState)
    as (H1 & _ & _ & H4 & _).
  - split; vm_compute; discriminate.
  - split; [exact H1 | exact H4].
Defined.

(** The View menu's zoom entries clamp to `[0.01, 32]`, not to the
    status bar's `[0.05, 32]`: from a zoom within `[0.05, 32]` they stay
    within `[0.01, 32]`, and Zoom Out from a zoom below 0.0625 lands
    below 0.05. *)
Theorem menu_zoom_uses_wider_bounds (s : EditorState) :
  zoomInBounds (doc_zoom (document s)) ->
  let z := doc_zoom (document s) in
  let zin := doc_zoom (document (MenuBar.zoomIn s)) in
  let zout := doc_zoom (document (MenuBar.zoomOut s)) in
  zoomInBounds zin
  /\ (1 # 100 <= zout <= 32)%Q
  /\ (zout == z / (5 # 4))%Q
  /\ ((z < 1 # 16)%Q -> ~ zoomInBounds zout)
  /\ ((1 # 16 <= z)%Q -> zoomInBounds zout).
Proof.
  intros [Hlo Hhi] z zin zout. fold z in Hlo, Hhi.
  assert (Hin : zin = JS.Math_min (z * (5 # 4)) 32) by reflexivity.
  assert (Hout : zout = JS.Math_max (z / (5 # 4)) (1 # 100)) by reflexivity.
  assert (Hdiv : (z / (5 # 4) == z * (4 # 5))%Q) by (field).
  assert (Hz : (zout == z / (5 # 4))%Q).
  { rewrite Hout.
    destruct (Math_max_cases (z / (5 # 4)) (1 # 100)) as [[H1 H2] | [H1 H2]];
      rewrite H2; [| reflexivity].
    rewrite Hdiv in H1. lra. }
  split; [| split; [| split; [exact Hz | split]]].
  - rewrite Hin. split.
    + apply Math_min_lower; lra.
    + destruct (Math_min_cases (z * (5 # 4)) 32) as [[H1 H2] | [H1 H2]];
        rewrite H2; lra.
  - rewrite Hz, Hdiv. lra.
  - intros Hsmall [Hl _]. rewrite Hz, Hdiv in Hl. lra.
  - intros Hbig. split; rewrite Hz, Hdiv; lra.
Qed.

(** The theorem at zoom 0.05: View > Zoom Out gives 0.04. *)
Lemma menu_zoom_uses_wider_bounds_witness :
  (doc_zoom
     (document
        (MenuBar.zoomOut
           (setDocument (mkDocPartial None None None (Some (1 # 20)%Q))
              initialState))) == 1 # 25)%Q
  /\ ~ zoomInBounds
         (doc_zoom
            (document
               (MenuBar.zoomOut
                  (setDocument (mkDocPartial None None None (Some (1 # 20)%Q))
                     initialState)))).
Proof.
  destruct (menu_zoom_uses_wider_bounds
              (setDocument (mkDocPartial None None None (Some (1 # 20)%Q))
                 initialState)) as (_ & _ & _ & H & _).
  - split; vm_compute; discriminate.
  - split; [reflexivity | apply H; reflexivity].
Defined.

(* ================================================================== *)
(** ** Layer panel: move up and move down                               *)
(* ================================================================== *)

Lemma rel_index_mid (len k : Z) :
  0 <= k <= len -> JS.rel_index len k = k.
Proof.
  intros H. unfold JS.rel_index. destruct (Z.ltb_spec k 0); lia.
Qed.

(** The up and down buttons of the layer panel swap a layer with its
    neighbour: on `l1 ++ x :: y :: l2`, "Move up" at the position of `x`
    and "Move down" at the position of `y` both give
    `l1 ++ y :: x :: l2`, with no `undefined` entry.  "Move up" on the
    last position or beyond and "Move down" on position 0 or below
    leave the array as it is. *)
Theorem layer_panel_moves_swap_neighbours (l1 l2 : list Layer) (x y : Layer)
    (index : Z) :
  index = Z.of_nat (length l1) ->
  let ls := l1 ++ x :: y :: l2 in
  LayerPanel.handleMoveUp index ls = Some <$> (l1 ++ y :: x :: l2)
  /\ LayerPanel.handleMoveDown (index + 1) ls = Some <$> (l1 ++ y :: x :: l2)
  /\ (forall i, Z.of_nat (length ls) - 1 <= i ->
                LayerPanel.handleMoveUp i ls = Some <$> ls)
  /\ (forall i, i <= 0 -> LayerPanel.handleMoveDown i ls = Some <$> ls).
Proof.
  intros Hindex ls.
  assert (Hlen : Z.of_nat (length ls) = index + 2 + Z.of_nat (length l2)).
  { subst ls. rewrite length_app. cbn [length]. lia. }
  assert (Hto : Z.to_nat index = length l1) by lia.
  split; [| split; [| split]].
  - unfold LayerPanel.handleMoveUp.
    destruct (Z.ltb_spec index (Z.of_nat (length ls) - 1)); [| lia].
    rewrite (reorderLayers_from_in_range index (index + 1) ls x); [| lia |].
    + rewrite Hto. subst ls. rewrite delete_middle.
      rewrite rel_index_mid by (rewrite length_app; cbn [length]; lia).
      replace (Z.to_nat (index + 1)) with (length (l1 ++ [y]))
        by (rewrite length_app; cbn [length]; lia).
      replace (l1 ++ y :: l2) with ((l1 ++ [y]) ++ l2)
        by (now rewrite <- app_assoc).
      rewrite take_app_length, drop_app_length.
      now rewrite <- app_assoc.
    + rewrite Hto. subst ls. now rewrite list_lookup_middle.
  - unfold LayerPanel.handleMoveDown.
    destruct (Z.ltb_spec 0 (index + 1)); [| lia].
    rewrite (reorderLayers_from_in_range (index + 1) (index + 1 - 1) ls y);
      [| lia |].
    + replace (Z.to_nat (index + 1)) with (length (l1 ++ [x]))
        by (rewrite length_app; cbn [length]; lia).
      subst ls.
      replace (l1 ++ x :: y :: l2) with ((l1 ++ [x]) ++ y :: l2)
        by (now rewrite <- app_assoc).
      rewrite delete_middle.
      rewrite rel_index_mid
        by (rewrite !length_app; cbn [length]; lia).
      replace (Z.to_nat (index + 1 - 1)) with (length l1) by lia.
      rewrite <- app_assoc. cbn [app].
      now rewrite take_app_length, drop_app_length.
    + replace (Z.to_nat (index + 1)) with (length (l1 ++ [x]))
        by (rewrite length_app; cbn [length]; lia).
      subst ls.
      replace (l1 ++ x :: y :: l2) with ((l1 ++ [x]) ++ y :: l2)
        by (now rewrite <- app_assoc).
      now rewrite list_lookup_middle.
  - intros i Hi. unfold LayerPanel.handleMoveUp.
    destruct (Z.ltb_spec i (Z.of_nat (length ls) - 1)); [lia | reflexivity].
  - intros i Hi. unfold LayerPanel.handleMoveDown.
    destruct (Z.ltb_spec 0 i); [lia | reflexivity].
Qed.

(** The theorem on "A", "B", "C": "Move up" on "A" gives "B", "A", "C". *)
Lemma layer_panel_moves_swap_neighbours_witness :
  LayerPanel.handleMoveUp 0 threeLayers
    = [Some (layerNamed "B" "Layer 2"); Some (layerNamed "A" "Background");
       Some (layerNamed "C" "Layer 3")].
Proof.
  destruct (layer_panel_moves_swap_neighbours []
              [layerNamed "C" "Layer 3"]
              (layerNamed "A" "Background") (layerNamed "B" "Layer 2") 0
              eq_refl) as [H _].
  cbn [app] in H. unfold threeLayers. rewrite H. reflexivity.
Defined.

(* ================================================================== *)
(** ** Canvas utilities: resize and flip                                *)
(* ================================================================== *)

Local Open Scope Q_scope.

Lemma resizeCanvas_scaled (width height : Q) (canvas : Canvas) :
  0 < canvas_width canvas -> 0 < canvas_height canvas ->
  resizeCanvas width height true canvas
  = mkCanvas
      (scaleObject (width / canvas_width canvas)
         (height / canvas_height canvas) <$> objects canvas)
      (activeObject canvas) (viewportTransform canvas) width height.
Proof.
  intros Hw Hh. unfold resizeCanvas.
  apply lt_true_iff in Hw, Hh. rewrite Hw, Hh. reflexivity.
Qed.

(** `resizeCanvas` with `scaleContent` on a canvas of positive size:
    the element gets the new size, every object keeps its place
    relative to it (`left / width` and the right edge over `width` are
    unchanged, and so vertically), and resizing back to the old size
    gives every object its old geometry again.  Without `scaleContent`
    only the element's size changes. *)
Theorem resizeCanvas_scales_and_returns (width height : Q) (canvas : Canvas) :
  0 < canvas_width canvas -> 0 < canvas_height canvas ->
  0 < width -> 0 < height ->
  let oldW := canvas_width canvas in
  let oldH := canvas_height canvas in
  let resized := resizeCanvas width height true canvas in
  let back := resizeCanvas oldW oldH true resized in
  (canvas_width resized = width /\ canvas_height resized = height)
  /\ Forall2
       (fun o o' =>
          JS.nullish (obj_left o') 0 * oldW == JS.nullish (obj_left o) 0 * width
          /\ rightEdge o' * oldW == rightEdge o * width
          /\ JS.nullish (obj_top o') 0 * oldH
             == JS.nullish (obj_top o) 0 * height
          /\ obj_width o' = obj_width o /\ obj_height o' = obj_height o
          /\ obj_angle o' = obj_angle o)
       (objects canvas) (objects resized)
  /\ (canvas_width back = oldW /\ canvas_height back = oldH)
  /\ Forall2 sameGeometry (objects canvas) (objects back)
  /\ resizeCanvas width height false canvas
     = setDimensions width height canvas.
Proof.
  intros HoldW HoldH Hw Hh oldW oldH resized back.
  assert (Hres : resized
            = mkCanvas (scaleObject (width / oldW) (height / oldH)
                          <$> objects canvas)
                (activeObject canvas) (viewportTransform canvas) width height)
    by (apply resizeCanvas_scaled; assumption).
  assert (Hback : back
            = mkCanvas (scaleObject (oldW / width) (oldH / height)
                          <$> objects resized)
                (activeObject resized) (viewportTransform resized) oldW oldH).
  { subst back. rewrite resizeCanvas_scaled; rewrite Hres; cbn; auto. }
  fold oldW in HoldW. fold oldH in HoldH.
  assert (HW : ~ oldW == 0) by lra. assert (HH : ~ oldH == 0) by lra.
  assert (Hw0 : ~ width == 0) by lra. assert (Hh0 : ~ height == 0) by lra.
  split; [rewrite Hres; split; reflexivity |].
  split; [| split; [rewrite Hback; split; reflexivity | split]].
  - rewrite Hres. cbn [objects]. apply Forall2_fmap_r, Forall_Forall2_diag.
    apply Forall_forall. intros o _. unfold rightEdge. cbn.
    repeat split; field; assumption.
  - rewrite Hback. cbn [objects]. rewrite Hres. cbn [objects].
    rewrite <- list_fmap_compose.
    apply Forall2_fmap_r, Forall_Forall2_diag.
    apply Forall_forall. intros o _. unfold sameGeometry. cbn.
    repeat split; field; split; assumption.
  - reflexivity.
Qed.

(** The theorem on the sample scene (element 800 x 600) resized to
    400 x 300: the green rectangle moves from (15, 15) to (7.5, 7.5). *)
Lemma resizeCanvas_scales_and_returns_witness :
  (obj_left <$> objects (resizeCanvas 400 300 true sceneCanvas) !! 1%nat)
    = Some (Some (15 * (400 / 800)))
  /\ Forall2 sameGeometry (objects sceneCanvas)
       (objects (resizeCanvas 800 600 true
                   (resizeCanvas 400 300 true sceneCanvas))).
Proof.
  destruct (resizeCanvas_scales_and_returns 400 300 sceneCanvas)
    as (_ & _ & _ & H & _); try reflexivity.
  split; [reflexivity | exact H].
Defined.

Lemma flipObject_background (d : Direction) (c : Q * Q) (f : Flippable) :
  isDocBackground (fl_obj (flipObject d c f)) <-> isDocBackground (fl_obj f).
Proof.
  unfold isDocBackground, flipObject.
  destruct (obj_isDocBackground (fl_obj f)) eqn:E; [now rewrite E |].
  destruct d; cbn; now rewrite E.
Qed.

Lemma flipObject_find (d : Direction) (c : Q * Q) (os : list Flippable) :
  list_find (fun f => isDocBackground (fl_obj f)) (flipObject d c <$> os)
  = list_find (fun f => isDocBackground (fl_obj f)) os.
Proof.
  induction os as [| f os IH]; [reflexivity |].
  cbn [fmap list_fmap list_find]. rewrite IH.
  destruct (decide (isDocBackground (fl_obj f))) as [Hbg | Hbg].
  - assert (Hsame : flipObject d c f = f).
    { unfold flipObject. unfold isDocBackground in Hbg. now rewrite Hbg. }
    rewrite Hsame. now rewrite decide_True.
  - rewrite decide_False; [reflexivity |]. now rewrite flipObject_background.
Qed.

Lemma flipCenter_flipCanvas (d : Direction) (width height : Q)
    (os : list Flippable) :
  flipCenter width height (flipCanvas d width height os)
  = flipCenter width height os.
Proof.
  unfold flipCenter, flipCanvas. now rewrite flipObject_find.
Qed.

(** `flipCanvas` never writes the background; it mirrors the box of
    every other object about the centre (the new left edge is the
    mirror image of the old right edge, and the new right edge that of
    the old left edge, and so vertically) and toggles its flag.  A
    second flip in the same direction gives every object its old
    geometry and flags again, and a horizontal and a vertical flip give
    the same scene in either order. *)
Theorem flipCanvas_mirrors (width height : Q) (os : list Flippable) :
  let c := flipCenter width height os in
  Forall2
    (fun f f' =>
       if obj_isDocBackground (fl_obj f) then f' = f
       else
         JS.nullish (obj_left (fl_obj f')) 0
           == 2 * fst c - rightEdge (fl_obj f)
         /\ rightEdge (fl_obj f') == 2 * fst c - JS.nullish (obj_left (fl_obj f)) 0
         /\ obj_top (fl_obj f') = obj_top (fl_obj f)
         /\ flipX f' = negb (flipX f) /\ flipY f' = flipY f)
    os (flipCanvas horizontal width height os)
  /\ (forall d,
        Forall2 sameFlippable os
          (flipCanvas d width height (flipCanvas d width height os)))
  /\ flipCanvas horizontal width height (flipCanvas vertical width height os)
     = flipCanvas vertical width height (flipCanvas horizontal width height os).
Proof.
  intros c. split; [| split].
  - unfold flipCanvas. fold c.
    apply Forall2_fmap_r, Forall_Forall2_diag, Forall_forall.
    intros f _. unfold compose, flipObject, rightEdge. cbv beta zeta.
    destruct (obj_isDocBackground (fl_obj f)); [reflexivity |].
    cbn. repeat split; ring.
  - intros d. unfold flipCanvas at 1. rewrite flipCenter_flipCanvas. fold c.
    unfold flipCanvas. rewrite <- list_fmap_compose.
    apply Forall2_fmap_r, Forall_Forall2_diag, Forall_forall.
    intros f _. unfold compose, sameFlippable, sameGeometry, flipObject.
    destruct f as [[l t w h sx sy a fill bg ov] fx fy].
    destruct bg, d; cbn;
      repeat split; try reflexivity; try apply negb_involutive;
      unfold c; ring.
  - unfold flipCanvas at 1 3. rewrite !flipCenter_flipCanvas. fold c.
    unfold flipCanvas. rewrite <- !list_fmap_compose.
    apply list_fmap_ext. intros i f _. unfold compose, flipObject.
    destruct f as [[l t w h sx sy a fill bg ov] fx fy].
    destruct bg; reflexivity.
Qed.

(** `App`'s `handleFlip` toggles the flag of every object, the
    background included, and moves nothing; applied twice it gives the
    scene back.  On objects other than the background its flags are
    those `flipCanvas` sets. *)
Theorem handleFlip_toggles_flags_only (d : Direction) (width height : Q)
    (os : list Flippable) :
  (fl_obj <$> handleFlip d os) = (fl_obj <$> os)
  /\ handleFlip d (handleFlip d os) = os
  /\ Forall2
       (fun f f' =>
          match d with
          | horizontal => flipX f' = negb (flipX f) /\ flipY f' = flipY f
          | vertical => flipX f' = flipX f /\ flipY f' = negb (flipY f)
          end)
       os (handleFlip d os)
  /\ Forall2
       (fun a b =>
          obj_isDocBackground (fl_obj a) = false ->
          flipX a = flipX b /\ flipY a = flipY b)
       (flipCanvas d width height os) (handleFlip d os).
Proof.
  unfold handleFlip, flipCanvas. split; [| split; [| split]].
  - rewrite <- list_fmap_compose. apply list_fmap_ext.
    intros i f _. now destruct d.
  - rewrite <- list_fmap_compose. rewrite <- (list_fmap_id os) at 2.
    apply list_fmap_ext. intros i [o fx fy] _.
    destruct d; cbn; now rewrite negb_involutive.
  - apply Forall2_fmap_r, Forall_Forall2_diag, Forall_forall.
    intros f _. now destruct d.
  - apply Forall2_fmap, Forall_Forall2_diag, Forall_forall.
    intros f _. unfold compose, flipObject. cbv beta zeta.
    destruct (obj_isDocBackground (fl_obj f)) eqn:E.
    + intros Hbg. rewrite E in Hbg. discriminate Hbg.
    + now destruct d.
Qed.

Local Close Scope Q_scope.

(* ================================================================== *)
(** ** `App`: the layer reset of `handleOpen`                           *)
(* ================================================================== *)

Lemma removeLayer_each_clears (ls : list Layer) (s : EditorState) :
  Forall (fun l => In (layer_id l) (layer_id <$> ls)) (layers s) ->
  layers (fold_left (fun st l => removeLayer (layer_id l) st) ls s) = [].
Proof.
  revert s. induction ls as [| a ls IH]; intros s Hall.
  - cbn. destruct (layers s) as [| l rest]; [reflexivity |].
    inversion Hall as [| ? ? Hin _]. destruct Hin.
  - cbn [fold_left]. apply IH. rewrite removeLayer_layers.
    apply Forall_forall. intros l Hl.
    apply list_elem_of_filter in Hl as [Hne Hl].
    rewrite Forall_forall in Hall. specialize (Hall l Hl).
    cbn in Hall. destruct Hall as [Heq | Hin]; [| exact Hin].
    now symmetry in Heq.
Qed.

(** Whatever layers the store holds, duplicates of an id and a dangling
    active id included, the layer reset of `handleOpen` leaves exactly
    two raster layers: "Background" and one named after the file (the
    empty name included), the second one active. *)
Theorem handleOpen_resetLayers_leaves_two (uid1 uid2 fileName : string)
    (s : EditorState) :
  let opened := handleOpen_resetLayers uid1 uid2 fileName s in
  layers opened
    = [mkLayer uid1 "Background" true false 1%Q source_over raster
         None None None None None None;
       mkLayer uid2 fileName true false 1%Q source_over raster
         None None None None None None]
  /\ activeLayerId opened = Some uid2.
Proof.
  intros opened. subst opened. unfold handleOpen_resetLayers.
  set (cleared := fold_left _ (layers s) s).
  assert (Hc : layers cleared = []).
  { apply removeLayer_each_clears. apply Forall_forall. intros l Hl.
    apply list_elem_of_In in Hl. now apply in_map. }
  unfold addLayer. cbn [snd layers set_layers activeLayerId].
  rewrite Hc. split; reflexivity.
Qed.

(** In the layer `addLayer(partial)` appends, every key of `partial`
    wins over the literal: the name is `partial.name` whenever the key
    is there, the empty string included, and `Layer N` only without the
    key; and a `partial.id` becomes the layer's id while the fresh id is
    still the one returned and made active. *)
Theorem addLayer_partial_keys_win (uid : string) (p : LayerPartial)
    (s : EditorState) :
  let r := addLayer uid (Some p) s in
  exists l,
    layers (snd r) = layers s ++ [l]
    /\ layer_name l
       = JS.nullish (lp_name p) (defaultLayerName (length (layers s) + 1))
    /\ layer_id l = JS.nullish (lp_id p) uid
    /\ layer_type l = JS.nullish (lp_type p) raster
    /\ layer_visible l = JS.nullish (lp_visible p) true
    /\ layer_locked l = JS.nullish (lp_locked p) false
    /\ fst r = uid /\ activeLayerId (snd r) = Some uid
    /\ (forall id, lp_id p = Some id -> id <> uid ->
        ~ In id (layer_id <$> layers s) -> ~ In uid (layer_id <$> layers s) ->
        ~ activeLayerValid (snd r)).
Proof.
  intros r. subst r. unfold addLayer. cbn [fst snd layers set_layers].
  eexists. split; [reflexivity |].
  split.
  { cbn. destruct (lp_name p) as [[| c n] |]; reflexivity. }
  split; [reflexivity |]. split.
  { cbn. now destruct (lp_type p). }
  repeat (split; [reflexivity |]).
  intros id Hid Hne Hfresh Huid Hvalid.
  unfold activeLayerValid in Hvalid. cbn in Hvalid.
  rewrite fmap_app in Hvalid. apply in_app_or in Hvalid as [H | H].
  - now apply Huid.
  - cbn in H. rewrite Hid in H. cbn in H. destruct H as [H | []].
    now apply Hne.
Qed.

(* ================================================================== *)
(** ** `rgbToHex` and `getCanvasPixelColor`                             *)
(* ================================================================== *)

Lemma hexDigit_cases (d : Z) :
  0 <= d <= 15 ->
  d = 0 \/ d = 1 \/ d = 2 \/ d = 3 \/ d = 4 \/ d = 5 \/ d = 6 \/ d = 7
  \/ d = 8 \/ d = 9 \/ d = 10 \/ d = 11 \/ d = 12 \/ d = 13 \/ d = 14
  \/ d = 15.
Proof. lia. Qed.

Ltac hex_digit_cases d H :=
  destruct (hexDigit_cases d H)
    as [-> | [-> | [-> | [-> | [-> | [-> | [-> | [-> | [-> | [-> | [-> |
        [-> | [-> | [-> | [-> | ->]]]]]]]]]]]]]]].

Lemma hexCons_acc (d : Z) (u : Hexadecimal.uint) (acc acc' : positive) :
  0 <= d <= 15 -> Z.pos acc' = d + 16 * Z.pos acc ->
  Pos.of_hex_uint_acc (hexCons d u) acc = Pos.of_hex_uint_acc u acc'.
Proof.
  intros Hd Hacc.
  hex_digit_cases d Hd; cbn [hexCons Pos.of_hex_uint_acc]; f_equal; lia.
Qed.

Lemma hexCons_string (d : Z) (u : Hexadecimal.uint) :
  0 <= d <= 15 ->
  NilEmpty.string_of_uint (hexCons d u)
  = String (hexDigit d) (NilEmpty.string_of_uint u).
Proof. intros Hd. hex_digit_cases d Hd; reflexivity. Qed.

(** The numeral `toString(16)` writes for `0x1000000 + v`, digit by
    digit. *)
Lemma to_hex_uint_seven_digits (a1 a2 a3 a4 a5 a6 : Z) :
  0 <= a1 <= 15 -> 0 <= a2 <= 15 -> 0 <= a3 <= 15 ->
  0 <= a4 <= 15 -> 0 <= a5 <= 15 -> 0 <= a6 <= 15 ->
  N.to_hex_uint
    (Z.to_N (16777216 + 1048576 * a1 + 65536 * a2 + 4096 * a3 + 256 * a4
             + 16 * a5 + a6))
  = Hexadecimal.D1
      (hexCons a1 (hexCons a2 (hexCons a3 (hexCons a4 (hexCons a5
         (hexCons a6 Hexadecimal.Nil)))))).
Proof.
  intros H1 H2 H3 H4 H5 H6.
  set (d := Hexadecimal.D1 _).
  assert (Hof : N.of_hex_uint d
                = Z.to_N (16777216 + 1048576 * a1 + 65536 * a2 + 4096 * a3
                          + 256 * a4 + 16 * a5 + a6)).
  { subst d. cbn [N.of_hex_uint Pos.of_hex_uint].
    rewrite (hexCons_acc a1 _ 1 (Z.to_pos (a1 + 16))) by lia.
    rewrite (hexCons_acc a2 _ _ (Z.to_pos (a2 + 16 * (a1 + 16)))) by lia.
    rewrite (hexCons_acc a3 _ _
               (Z.to_pos (a3 + 16 * (a2 + 16 * (a1 + 16))))) by lia.
    rewrite (hexCons_acc a4 _ _
               (Z.to_pos (a4 + 16 * (a3 + 16 * (a2 + 16 * (a1 + 16))))))
      by lia.
    rewrite (hexCons_acc a5 _ _
               (Z.to_pos
                  (a5 + 16 * (a4 + 16 * (a3 + 16 * (a2 + 16 * (a1 + 16)))))))
      by lia.
    rewrite (hexCons_acc a6 _ _
               (Z.to_pos
                  (a6 + 16 * (a5 + 16 * (a4 + 16 * (a3 + 16 *
                     (a2 + 16 * (a1 + 16)))))))) by lia.
    cbn [Pos.of_hex_uint_acc]. lia. }
  rewrite <- Hof. rewrite HexadecimalN.Unsigned.to_of. reflexivity.
Qed.

Lemma int32_small (x : Z) : - 2 ^ 31 <= x < 2 ^ 31 -> JS.int32 x = x.
Proof.
  intros H. unfold JS.int32. rewrite Z.mod_small; lia.
Qed.

Lemma shl_byte (v k : Z) :
  0 <= v <= 255 -> 0 <= k <= 16 -> JS.shl v k = v * 2 ^ k.
Proof.
  intros Hv Hk. unfold JS.shl.
  rewrite (int32_small v) by lia.
  rewrite (Z.mod_small k 32) by lia.
  rewrite Z.shiftl_mul_pow2 by lia.
  apply int32_small.
  assert (0 < 2 ^ k <= 2 ^ 16) as Hp.
  { split; [apply Z.pow_pos_nonneg; lia |].
    apply Z.pow_le_mono_r; lia. }
  change (2 ^ 16) with 65536 in Hp. change (2 ^ 31) with 2147483648. nia.
Qed.

Lemma hexDigit_inj (a b : Z) :
  0 <= a <= 15 -> 0 <= b <= 15 -> hexDigit a = hexDigit b -> a = b.
Proof.
  intros Ha Hb.
  hex_digit_cases a Ha; hex_digit_cases b Hb; cbn;
    intros H; try reflexivity; discriminate H.
Qed.

Lemma byte_digits (v : Z) :
  0 <= v <= 255 ->
  0 <= v / 16 <= 15 /\ 0 <= v mod 16 <= 15 /\ v = 16 * (v / 16) + v mod 16.
Proof.
  intros Hv.
  pose proof (Z.div_mod v 16 ltac:(lia)) as E.
  pose proof (Z.mod_pos_bound v 16 ltac:(lia)) as B.
  lia.
Qed.

Lemma hexByte_inj (v w : Z) (rest rest' : string) :
  0 <= v <= 255 -> 0 <= w <= 255 ->
  hexByte v rest = hexByte w rest' -> v = w /\ rest = rest'.
Proof.
  intros Hv Hw H. unfold hexByte in H. injection H as Hhi Hlo Hrest.
  destruct (byte_digits v Hv) as (V1 & V2 & V3).
  destruct (byte_digits w Hw) as (W1 & W2 & W3).
  apply hexDigit_inj in Hhi; [| assumption | assumption].
  apply hexDigit_inj in Hlo; [| assumption | assumption].
  split; [lia | exact Hrest].
Qed.

Lemma rgbToHex_bytes (r g b : Z) :
  isByte r -> isByte g -> isByte b ->
  rgbToHex r g b = String "#" (hexByte r (hexByte g (hexByte b ""))).
Proof.
  intros Hr Hg Hb. unfold isByte in *.
  unfold rgbToHex. f_equal.
  change (JS.shl 1 24) with 16777216.
  rewrite (shl_byte r 16), (shl_byte g 8) by lia.
  change (2 ^ 16) with 65536. change (2 ^ 8) with 256.
  destruct (byte_digits r Hr) as (R1 & R2 & R3).
  destruct (byte_digits g Hg) as (G1 & G2 & G3).
  destruct (byte_digits b Hb) as (B1 & B2 & B3).
  replace (16777216 + r * 65536 + g * 256 + b)
    with (16777216 + 1048576 * (r / 16) + 65536 * (r mod 16)
          + 4096 * (g / 16) + 256 * (g mod 16) + 16 * (b / 16) + b mod 16)
    by lia.
  set (n := 16777216 + _ + _ + _ + _ + _ + _).
  assert (Hpos : 0 < n) by (unfold n; lia).
  assert (Hn : JS.toString16 n
               = NilZero.string_of_uint (N.to_hex_uint (Z.to_N n))).
  { unfold JS.toString16. clearbody n. destruct n; try reflexivity. lia. }
  rewrite Hn. subst n.
  rewrite to_hex_uint_seven_digits by assumption.
  cbn [NilZero.string_of_uint NilEmpty.string_of_uint JS.String_slice1].
  rewrite !hexCons_string by assumption. reflexivity.
Qed.

(** On byte channels `rgbToHex` is `#rrggbb`: the number sign and two
    lower-case hexadecimal digits for each of red, green and blue, seven
    characters in all; so different colours give different strings. *)
Theorem rgbToHex_is_rrggbb (r g b : Z) :
  isByte r -> isByte g -> isByte b ->
  rgbToHex r g b = String "#" (hexByte r (hexByte g (hexByte b "")))
  /\ String.length (rgbToHex r g b) = 7%nat
  /\ (forall r' g' b',
        isByte r' -> isByte g' -> isByte b' ->
        rgbToHex r' g' b' = rgbToHex r g b -> r' = r /\ g' = g /\ b' = b).
Proof.
  intros Hr Hg Hb. split; [now apply rgbToHex_bytes |].
  split; [now rewrite rgbToHex_bytes |].
  intros r' g' b' Hr' Hg' Hb' Heq.
  rewrite !rgbToHex_bytes in Heq by assumption.
  apply (f_equal JS.String_slice1) in Heq.
  cbn [JS.String_slice1] in Heq.
  apply hexByte_inj in Heq as [-> Heq]; [| assumption | assumption].
  apply hexByte_inj in Heq as [-> Heq]; [| assumption | assumption].
  apply hexByte_inj in Heq as [-> _]; [| assumption | assumption].
  repeat split.
Qed.

(** The theorem on the orange of the sample surface. *)
Lemma rgbToHex_is_rrggbb_witness :
  rgbToHex 255 128 1 = "#ff8001"%string.
Proof.
  destruct (rgbToHex_is_rrggbb 255 128 1) as [H _];
    [unfold isByte; lia | unfold isByte; lia | unfold isByte; lia |].
  rewrite H. reflexivity.
Defined.

(** The colour `sampleColor` stores is the one `getCanvasPixelColor`
    returns for the same point; without a viewport transform
    `sampleColor` does nothing while `getCanvasPixelColor` reads the
    pixel at the untransformed point. *)
Theorem sampleColor_stores_getCanvasPixelColor (surface : Surface)
    (canvas : Canvas) (pointer : Point) (s : EditorState) :
  (viewportTransform canvas <> None ->
   CanvasToolHandler.sampleColor surface canvas pointer s
   = setForegroundColor
       (getCanvasPixelColor surface canvas (pt_x pointer) (pt_y pointer)) s)
  /\ (viewportTransform canvas = None ->
      CanvasToolHandler.sampleColor surface canvas pointer s = s
      /\ getCanvasPixelColor surface canvas (pt_x pointer) (pt_y pointer)
         = (let pixel :=
              getImageData surface (JS.round_int (pt_x pointer))
                (JS.round_int (pt_y pointer)) in
            rgbToHex (px_r pixel) (px_g pixel) (px_b pixel))).
Proof.
  unfold CanvasToolHandler.sampleColor, getCanvasPixelColor.
  destruct (viewportTransform canvas) as [vpt |]; split.
  - reflexivity.
  - discriminate.
  - intros H. now contradiction H.
  - intros _. split; reflexivity.
Qed.

(* ================================================================== *)
(** ** Tool handler: the marquee and crop gestures                      *)
(* ================================================================== *)

Local Open Scope Q_scope.

Lemma alter_last {A : Type} (f : A -> A) (os : list A) (ov : A) :
  alter f (length os) (os ++ [ov]) = os ++ [f ov].
Proof.
  rewrite <- (Nat.add_0_r (length os)). now rewrite alter_app_r.
Qed.

Lemma delete_last {A : Type} (os : list A) (ov : A) :
  delete (length os) (os ++ [ov]) = os.
Proof. rewrite delete_middle. apply app_nil_r. Qed.

Lemma lookup_last {A : Type} (os : list A) (ov : A) :
  (os ++ [ov]) !! length os = Some ov.
Proof. apply list_lookup_middle. reflexivity. Qed.

Lemma dragBox_twice (origin p q : Point) (o : FabricObject) :
  ToolGestures.dragBox origin p (ToolGestures.dragBox origin q o)
  = ToolGestures.dragBox origin p o.
Proof. reflexivity. Qed.

Lemma fold_dragBox (origin : Point) (moves : list Point) (o : FabricObject) :
  fold_left (fun ov p => ToolGestures.dragBox origin p ov) moves o
  = draggedOverlay o origin moves.
Proof.
  unfold draggedOverlay. revert o.
  induction moves as [| q moves IH]; intros o; [reflexivity |].
  cbn [fold_left]. rewrite IH, last_cons.
  destruct (last moves); reflexivity.
Qed.

(** Mouse moves during a marquee drag rewrite the overlay on top of the
    canvas and nothing else. *)
Lemma marquee_moves (canvas : Canvas) (s : EditorState) (origin : Point)
    (other : option nat) (moves : list Point) (ov : FabricObject) :
  fold_left (fun st p => ToolGestures.handleMouseMove_marquee p st) moves
    (ToolGestures.mkComponent
       (set_fabricCanvas
          (Some (set_objects (objects canvas ++ [ov]) canvas)) s)
       (ToolGestures.mkRefs true origin (Some (length (objects canvas)))
          other))
  = ToolGestures.mkComponent
      (set_fabricCanvas
         (Some (set_objects
                  (objects canvas ++ [draggedOverlay ov origin moves])
                  canvas)) s)
      (ToolGestures.mkRefs true origin (Some (length (objects canvas)))
         other).
Proof.
  rewrite <- fold_dragBox. revert ov.
  induction moves as [| q moves IH]; intros ov; [reflexivity |].
  cbn [fold_left]. rewrite <- IH. f_equal.
  unfold ToolGestures.handleMouseMove_marquee, ToolGestures.moveOverlay.
  cbn. now rewrite alter_last.
Qed.

Lemma crop_moves (canvas : Canvas) (s : EditorState) (origin : Point)
    (other : option nat) (moves : list Point) (ov : FabricObject) :
  fold_left (fun st p => ToolGestures.handleMouseMove_crop p st) moves
    (ToolGestures.mkComponent
       (set_fabricCanvas
          (Some (set_objects (objects canvas ++ [ov]) canvas)) s)
       (ToolGestures.mkRefs true origin other
          (Some (length (objects canvas)))))
  = ToolGestures.mkComponent
      (set_fabricCanvas
         (Some (set_objects
                  (objects canvas ++ [draggedOverlay ov origin moves])
                  canvas)) s)
      (ToolGestures.mkRefs true origin other
         (Some (length (objects canvas)))).
Proof.
  rewrite <- fold_dragBox. revert ov.
  induction moves as [| q moves IH]; intros ov; [reflexivity |].
  cbn [fold_left]. rewrite <- IH. f_equal.
  unfold ToolGestures.handleMouseMove_crop, ToolGestures.moveOverlay.
  cbn. now rewrite alter_last.
Qed.

Lemma Math_abs_cases (x : Q) :
  (0 <= x /\ ToolGestures.Math_abs x = x)
  \/ (x <= 0 /\ ToolGestures.Math_abs x = - x).
Proof.
  unfold ToolGestures.Math_abs. destruct (Qle_bool 0 x) eqn:E.
  - left. split; [now apply Qle_bool_iff | reflexivity].
  - right. split; [| reflexivity].
    destruct (Qlt_le_dec 0 x) as [Hlt | Hle]; [| exact Hle].
    apply Qlt_le_weak, Qle_bool_iff in Hlt. congruence.
Qed.

(** The box the mouse-move handler computes spans from the smaller to
    the larger coordinate of the origin and the pointer. *)
Lemma dragBox_spans (a b : Q) :
  JS.Math_min a b + ToolGestures.Math_abs (b - a) == JS.Math_max a b.
Proof.
  destruct (Math_min_cases a b) as [[H1 ->] | [H1 ->]];
    destruct (Math_max_cases a b) as [[H2 ->] | [H2 ->]];
    destruct (Math_abs_cases (b - a)) as [[H3 ->] | [H3 ->]]; lra.
Qed.

(** A marquee drag on a component with a canvas: the selection written
    at mouse up is active, of the tool's kind, keeps the feather, and
    its path is the overlay's box, which spans the origin and the last
    point the mouse moved to (the point of the mouse up is not read;
    without a move the box is the origin with size 0).  The overlay is
    gone from the canvas again, whose objects are those before the
    drag, and no history entry is pushed. *)
Theorem marqueeDrag_selects_dragged_box (origin pointer : Point)
    (moves : list Point) (k : ToolGestures.Component) (canvas : Canvas) :
  fabricCanvas (ToolGestures.store k) = Some canvas ->
  let k' := ToolGestures.marqueeDrag origin moves pointer k in
  let ov :=
    draggedOverlay (ToolGestures.createSelectionOverlay origin) origin moves in
  let l := JS.nullish (obj_left ov) 0 in
  let t := JS.nullish (obj_top ov) 0 in
  selection (ToolGestures.store k')
    = mkSelection
        (match activeTool (ToolGestures.store k) with
         | T_marquee_rect => sel_rect
         | _ => sel_ellipse
         end)
        (Some [[l; t];
               [l + JS.nullish (obj_width ov) 0;
                t + JS.nullish (obj_height ov) 0]])
        (sel_feather (selection (ToolGestures.store k))) true
  /\ (forall q, last moves = Some q ->
        l = JS.Math_min (pt_x origin) (pt_x q)
        /\ t = JS.Math_min (pt_y origin) (pt_y q)
        /\ l + JS.nullish (obj_width ov) 0
           == JS.Math_max (pt_x origin) (pt_x q)
        /\ t + JS.nullish (obj_height ov) 0
           == JS.Math_max (pt_y origin) (pt_y q))
  /\ (moves = [] ->
        l = pt_x origin /\ t = pt_y origin
        /\ obj_width ov = Some 0 /\ obj_height ov = Some 0)
  /\ (objects <$> fabricCanvas (ToolGestures.store k')) = Some (objects canvas)
  /\ ToolGestures.isDrawingRef (ToolGestures.refs k') = false
  /\ ToolGestures.selectionRectRef (ToolGestures.refs k') = None
  /\ history (ToolGestures.store k') = history (ToolGestures.store k)
  /\ historyIndex (ToolGestures.store k') = historyIndex (ToolGestures.store k)
  /\ document (ToolGestures.store k') = document (ToolGestures.store k).
Proof.
  intros Hc k' ov l t.
  assert (Hk' : k'
    = ToolGestures.handleMouseUp_marquee pointer
        (ToolGestures.mkComponent
           (set_fabricCanvas
              (Some (set_objects (objects canvas ++ [ov]) canvas))
              (ToolGestures.store k))
           (ToolGestures.mkRefs true origin (Some (length (objects canvas)))
              (ToolGestures.cropRectRef (ToolGestures.refs k))))).
  { subst k'. unfold ToolGestures.marqueeDrag. f_equal.
    unfold ToolGestures.handleMouseDown_marquee. rewrite Hc.
    unfold ToolGestures.add. apply marquee_moves. }
  unfold ToolGestures.handleMouseUp_marquee in Hk'.
  cbn [ToolGestures.store ToolGestures.refs fabricCanvas set_fabricCanvas
       ToolGestures.isDrawingRef negb ToolGestures.selectionRectRef
       objects set_objects mbind option_bind] in Hk'.
  rewrite lookup_last in Hk'.
  cbn [fmap option_fmap option_map] in Hk'.
  rewrite Hk'.
  cbn [ToolGestures.store ToolGestures.refs].
  split; [reflexivity |].
  split.
  { intros q Hq. subst l t ov. unfold draggedOverlay. rewrite Hq. cbn.
    repeat split; try reflexivity; apply dragBox_spans. }
  split.
  { intros ->. repeat split. }
  split.
  { cbn. f_equal. apply delete_last. }
  repeat split.
Qed.

(** The theorem on the sample scene: a drag from (40, 10) over (90, 90)
    to (10, 70), released elsewhere, selects the box from (10, 10) with
    size 30 x 60. *)
Lemma marqueeDrag_selects_dragged_box_witness :
  sel_path
    (selection
       (ToolGestures.store
          (ToolGestures.marqueeDrag (mkPoint 40 10)
             [mkPoint 90 90; mkPoint 10 70] (mkPoint 0 0)
             (sceneComponent T_marquee_rect))))
  = Some [[10; 10]; [10 + 30; 10 + 60]]
  /\ (objects
        <$> fabricCanvas
              (ToolGestures.store
                 (ToolGestures.marqueeDrag (mkPoint 40 10)
                    [mkPoint 90 90; mkPoint 10 70] (mkPoint 0 0)
                    (sceneComponent T_marquee_rect))))
     = Some (objects sceneCanvas).
Proof.
  destruct (marqueeDrag_selects_dragged_box (mkPoint 40 10) (mkPoint 0 0)
              [mkPoint 90 90; mkPoint 10 70] (sceneComponent T_marquee_rect)
              sceneCanvas eq_refl) as (H1 & _ & _ & H4 & _).
  split; [rewrite H1; reflexivity | exact H4].
Defined.


Lemma updateBackground_snoc (f : FabricObject -> FabricObject)
    (os : list FabricObject) (x : FabricObject) :
  obj_isDocBackground x = false ->
  updateBackground f (os ++ [x]) = updateBackground f os ++ [x].
Proof.
  intros Hx. unfold updateBackground, writeFound, findBackground.
  destruct (list_find isDocBackground os) as [[i bg] |] eqn:E.
  - rewrite (list_find_app_l _ _ _ _ _ E).
    apply list_find_Some in E as (Hi & _ & _).
    apply alter_app_l. now apply lookup_lt_Some in Hi.
  - rewrite list_find_app_r by exact E. cbn.
    destruct (decide (isDocBackground x)) as [Hbg | _]; [| reflexivity].
    unfold isDocBackground in Hbg. congruence.
Qed.

(** Cropping a canvas that carries a non-background overlay on top and
    then taking the overlay off is cropping the canvas without it. *)
Lemma applyCrop_with_overlay (canvas : Canvas) (ov cropRect : FabricObject)
    (doc : DocumentInfo) (s s0 : EditorState) :
  obj_isDocBackground ov = false ->
  document s0 = document s ->
  let withOverlay := set_objects (objects canvas ++ [ov]) canvas in
  let onOverlay := CanvasToolHandler.applyCrop withOverlay cropRect doc s0 in
  let plain := CanvasToolHandler.applyCrop canvas cropRect doc s in
  delete (length (objects canvas)) (objects (fst onOverlay))
  = objects (fst plain)
  /\ document (snd onOverlay) = document (snd plain)
  /\ history (snd onOverlay) = history s0
  /\ historyIndex (snd onOverlay) = historyIndex s0
  /\ maxHistory (snd onOverlay) = maxHistory s0.
Proof.
  intros Hov Hdoc withOverlay onOverlay plain.
  subst onOverlay plain. unfold CanvasToolHandler.applyCrop.
  destruct (JS.lt _ 1 || JS.lt _ 1).
  - split; [apply delete_last |]. repeat split. exact Hdoc.
  - split.
    + cbn [fst objects set_objects withOverlay].
      rewrite fmap_app. cbn [fmap list_fmap].
      rewrite updateBackground_snoc by exact Hov.
      rewrite <- (length_fmap
                    (fun obj =>
                       set_position
                         (JS.nullish (obj_left obj) 0
                          - JS.nullish (obj_left cropRect) 0)
                         (JS.nullish (obj_top obj) 0
                          - JS.nullish (obj_top cropRect) 0) obj)
                    (objects canvas)).
      rewrite <- (length_updateBackground
                    (set_box 0 0
                       (JS.nullish (obj_width cropRect) (doc_width doc))
                       (JS.nullish (obj_height cropRect) (doc_height doc)))).
      apply delete_last.
    + cbn [snd]. unfold setDocument.
      cbn [document set_document history historyIndex maxHistory].
      rewrite Hdoc. repeat split.
Qed.

(** A crop drag on a component with a canvas does to the objects and to
    the document what `applyCrop` does to the canvas without the overlay
    for the overlay's final box, which spans the origin and the last
    point the mouse moved to; the overlay is gone afterwards.  Whether
    or not the crop was applied, one history entry labelled "Crop" is
    pushed: after a drag of less than one pixel in width or height the
    objects and the document are as before and the entry is pushed all
    the same. *)
Theorem cropDrag_applies_crop_and_records (uid : string) (now : Z)
    (toJSON : Canvas -> string) (origin pointer : Point)
    (moves : list Point) (k : ToolGestures.Component) (canvas : Canvas) :
  fabricCanvas (ToolGestures.store k) = Some canvas ->
  let s := ToolGestures.store k in
  let k' := ToolGestures.cropDrag uid now toJSON origin moves pointer k in
  let ov :=
    draggedOverlay (ToolGestures.createCropOverlay origin) origin moves in
  let cropped := CanvasToolHandler.applyCrop canvas ov (document s) s in
  exists final,
    fabricCanvas (ToolGestures.store k') = Some final
    /\ objects final = objects (fst cropped)
    /\ document (ToolGestures.store k') = document (snd cropped)
    /\ history (ToolGestures.store k')
       = history (pushHistory uid now "Crop" (toJSON final) s)
    /\ historyIndex (ToolGestures.store k')
       = historyIndex (pushHistory uid now "Crop" (toJSON final) s)
    /\ ToolGestures.isDrawingRef (ToolGestures.refs k') = false
    /\ ToolGestures.cropRectRef (ToolGestures.refs k') = None
    /\ (forall q, last moves = Some q ->
          obj_left ov = Some (JS.Math_min (pt_x origin) (pt_x q))
          /\ obj_top ov = Some (JS.Math_min (pt_y origin) (pt_y q))
          /\ obj_width ov = Some (ToolGestures.Math_abs (pt_x q - pt_x origin))
          /\ obj_height ov
             = Some (ToolGestures.Math_abs (pt_y q - pt_y origin)))
    /\ ((JS.nullish (obj_width ov) 0 < 1
         \/ JS.nullish (obj_height ov) 0 < 1) ->
        objects final = objects canvas
        /\ document (ToolGestures.store k') = document s).
Proof.
  intros Hc s k' ov cropped.
  assert (Hov : obj_isDocBackground ov = false).
  { subst ov. unfold draggedOverlay. now destruct (last moves). }
  assert (Hmid :
    fold_left (fun st p => ToolGestures.handleMouseMove_crop p st) moves
      (ToolGestures.handleMouseDown_crop origin k)
    = ToolGestures.mkComponent
        (set_fabricCanvas
           (Some (set_objects (objects canvas ++ [ov]) canvas)) s)
        (ToolGestures.mkRefs true origin
           (ToolGestures.selectionRectRef (ToolGestures.refs k))
           (Some (length (objects canvas))))).
  { unfold ToolGestures.handleMouseDown_crop. rewrite Hc.
    unfold ToolGestures.add. apply crop_moves. }
  set (withOverlay := set_objects (objects canvas ++ [ov]) canvas) in *.
  set (s0 := set_fabricCanvas (Some withOverlay) s) in *.
  destruct (applyCrop_with_overlay canvas ov ov (document s) s s0 Hov eq_refl)
    as (Hobjs & Hd & Hh & Hi & Hm).
  fold withOverlay in Hobjs, Hd, Hh, Hi, Hm.
  assert (Hk' : k'
    = let '(c1, s1) :=
        CanvasToolHandler.applyCrop withOverlay ov (document s) s0 in
      let cleared := ToolGestures.remove (length (objects canvas)) c1 in
      ToolGestures.mkComponent
        (pushHistory uid now "Crop" (toJSON cleared)
           (set_fabricCanvas (Some cleared) s1))
        (ToolGestures.mkRefs false origin
           (ToolGestures.reindex (length (objects canvas))
              (ToolGestures.selectionRectRef (ToolGestures.refs k)))
           None)).
  { subst k'. unfold ToolGestures.cropDrag. rewrite Hmid.
    unfold ToolGestures.handleMouseUp_crop.
    cbn [ToolGestures.store ToolGestures.refs ToolGestures.isDrawingRef negb
         ToolGestures.cropRectRef ToolGestures.selectionRectRef
         ToolGestures.originRef mbind option_bind].
    change (fabricCanvas s0) with (Some withOverlay). cbv beta iota.
    change (objects withOverlay) with (objects canvas ++ [ov]).
    rewrite lookup_last. cbn [fmap option_fmap option_map]. cbv beta iota.
    reflexivity. }
  destruct (CanvasToolHandler.applyCrop withOverlay ov (document s) s0)
    as [c1 s1] eqn:E1.
  cbn [fst snd] in Hobjs, Hd, Hh, Hi, Hm.
  exists (ToolGestures.remove (length (objects canvas)) c1).
  rewrite Hk'. cbn [ToolGestures.store ToolGestures.refs].
  split; [reflexivity |].
  split; [exact Hobjs |].
  split; [exact Hd |].
  split.
  { unfold pushHistory. cbn [history historyIndex maxHistory set_history
      set_fabricCanvas]. now rewrite Hh, Hi, Hm. }
  split.
  { unfold pushHistory. cbn [history historyIndex maxHistory set_history
      set_fabricCanvas]. now rewrite Hh, Hi, Hm. }
  split; [reflexivity |]. split; [reflexivity |].
  split.
  { intros q Hq. subst ov. unfold draggedOverlay. rewrite Hq.
    repeat split. }
  intros Hsmall.
  assert (Hrej : CanvasToolHandler.applyCrop canvas ov (document s) s
                 = (canvas, s)).
  { apply applyCrop_rejected.
    destruct (obj_width ov) as [w |] eqn:Ew;
      destruct (obj_height ov) as [h |] eqn:Eh; cbn in Hsmall |- *;
      try exact Hsmall.
    - exfalso. subst ov. unfold draggedOverlay in Eh.
      destruct (last moves); discriminate Eh.
    - exfalso. subst ov. unfold draggedOverlay in Ew.
      destruct (last moves); discriminate Ew.
    - exfalso. subst ov. unfold draggedOverlay in Ew.
      destruct (last moves); discriminate Ew. }
  split.
  - transitivity (objects (fst cropped)); [exact Hobjs |].
    subst cropped. now rewrite Hrej.
  - transitivity (document (snd cropped)); [exact Hd |].
    subst cropped. now rewrite Hrej.
Qed.

(** The theorem on the sample scene: a crop drag of half a pixel leaves
    the two objects and the 200 x 200 document alone and makes the log
    one entry long, labelled "Crop". *)
Lemma cropDrag_applies_crop_and_records_witness :
  exists final,
    fabricCanvas
      (ToolGestures.store
         (ToolGestures.cropDrag "u1" 7 (fun _ => "{}"%string) (mkPoint 40 10)
            [mkPoint (81 # 2) 90] (mkPoint 0 0) (sceneComponent T_crop)))
    = Some final
    /\ objects final = objects sceneCanvas
    /\ (entry_label
          <$> history
                (ToolGestures.store
                   (ToolGestures.cropDrag "u1" 7 (fun _ => "{}"%string)
                      (mkPoint 40 10) [mkPoint (81 # 2) 90] (mkPoint 0 0)
                      (sceneComponent T_crop))))
       = ["Crop"%string].
Proof.
  destruct (cropDrag_applies_crop_and_records "u1" 7 (fun _ => "{}"%string)
              (mkPoint 40 10) (mkPoint 0 0) [mkPoint (81 # 2) 90]
              (sceneComponent T_crop) sceneCanvas eq_refl)
    as (final & H1 & _ & _ & H4 & _ & _ & _ & _ & H9).
  exists final. split; [exact H1 |].
  split; [apply H9; left; reflexivity |].
  rewrite H4. reflexivity.
Defined.

Local Close Scope Q_scope.

(* ================================================================== *)
(** ** `hexToRgba` after `rgbToHex`                                     *)
(* ================================================================== *)

Lemma parseInt16_two_digits (a b : Z) :
  0 <= a <= 15 -> 0 <= b <= 15 ->
  parseInt16 (String (hexDigit a) (String (hexDigit b) ""))
  = Some (16 * a + b).
Proof.
  intros Ha Hb. hex_digit_cases a Ha; hex_digit_cases b Hb; reflexivity.
Qed.

Lemma parseInt16_hexByte (v : Z) :
  0 <= v <= 255 -> parseInt16 (hexByte v "") = Some v.
Proof.
  intros Hv. destruct (byte_digits v Hv) as (H1 & H2 & H3).
  unfold hexByte. rewrite parseInt16_two_digits by assumption.
  f_equal. lia.
Qed.

(** The brush colour `hexToRgba` builds from a colour that `rgbToHex`
    wrote carries the same three channels, in decimal, and the opacity:
    `rgba(r,g,b,opacity)`. *)
Theorem hexToRgba_reads_rgbToHex (numberToString : Q -> string)
    (r g b : Z) (opacity : Q) :
  isByte r -> isByte g -> isByte b ->
  hexToRgba numberToString (rgbToHex r g b) opacity
  = String.append "rgba("
      (String.append (intToString (Some r))
         (String.append ","
            (String.append (intToString (Some g))
               (String.append ","
                  (String.append (intToString (Some b))
                     (String.append ","
                        (String.append (numberToString opacity) ")"))))))).
Proof.
  intros Hr Hg Hb.
  unfold hexToRgba. rewrite (rgbToHex_bytes r g b Hr Hg Hb).
  change (String_slice (String "#" (hexByte r (hexByte g (hexByte b "")))) 1 3)
    with (hexByte r "").
  change (String_slice (String "#" (hexByte r (hexByte g (hexByte b "")))) 3 5)
    with (hexByte g "").
  change (String_slice (String "#" (hexByte r (hexByte g (hexByte b "")))) 5 7)
    with (hexByte b "").
  now rewrite !parseInt16_hexByte by assumption.
Qed.

(** The theorem on the orange of the sample surface at opacity 1/2,
    written by a stand-in for the number conversion. *)
Lemma hexToRgba_reads_rgbToHex_witness :
  hexToRgba (fun _ => "0.5"%string) (rgbToHex 255 128 1) (1 # 2)
  = "rgba(255,128,1,0.5)"%string.
Proof.
  rewrite (hexToRgba_reads_rgbToHex (fun _ => "0.5"%string) 255 128 1 (1 # 2));
    [reflexivity | unfold isByte; lia | unfold isByte; lia
     | unfold isByte; lia].
Defined.

(* ================================================================== *)
(** ** Canvas utilities: half turns and three-quarter turns             *)
(* ================================================================== *)

Section Turns.

Context (m : MathLib).

Local Open Scope Q_scope.

Lemma rotateObject_180 (docW docH : Q) (obj : FabricObject) :
  obj_isDocBackground obj = false ->
  rotateObject m docW docH 180 obj
  = set_position_angle
      (docW - centerX obj
       - (JS.nullish (obj_width obj) 0 * JS.nullish (obj_scaleX obj) 1) / 2)
      (docH - centerY obj
       - (JS.nullish (obj_height obj) 0 * JS.nullish (obj_scaleY obj) 1) / 2)
      (JS.nullish (obj_angle obj) 0 + 180)
      obj.
Proof. intros Hbg. unfold rotateObject. now rewrite Hbg. Qed.

Lemma rotateObject_270 (docW docH : Q) (obj : FabricObject) :
  obj_isDocBackground obj = false ->
  rotateObject m docW docH 270 obj
  = set_position_angle
      (centerY obj
       - (JS.nullish (obj_width obj) 0 * JS.nullish (obj_scaleX obj) 1) / 2)
      (docW - centerX obj
       - (JS.nullish (obj_height obj) 0 * JS.nullish (obj_scaleY obj) 1) / 2)
      (JS.nullish (obj_angle obj) 0 + 270)
      obj.
Proof. intros Hbg. unfold rotateObject. now rewrite Hbg. Qed.

Lemma rotateCanvas_180 (c : Canvas) :
  rotateCanvas m 180 c
  = set_objects
      (rotateObject m (fst (docSize c)) (snd (docSize c)) 180 <$> objects c) c.
Proof.
  unfold rotateCanvas, docSize.
  change (JS.num_eq (normalizeDegrees 180) 90) with false.
  change (JS.num_eq (normalizeDegrees 180) 270) with false.
  cbn [orb]. now destruct (findBackground (objects c)) as [[i bg] |].
Qed.

Lemma rotateCanvas_270 (c : Canvas) :
  rotateCanvas m 270 c
  = set_objects
      (updateBackground (set_box 0 0 (snd (docSize c)) (fst (docSize c)))
         (rotateObject m (fst (docSize c)) (snd (docSize c)) 270 <$> objects c))
      c.
Proof.
  unfold rotateCanvas, updateBackground, writeFound.
  change (JS.num_eq (normalizeDegrees 270) 90) with false.
  change (JS.num_eq (normalizeDegrees 270) 270) with true.
  cbn [orb]. rewrite findBackground_fmap by apply (rotateObject_flag m).
  unfold docSize.
  now destruct (findBackground (objects c)) as [[i bg] |].
Qed.

Lemma findBackground_rotated (docW docH degrees : Q) (os : list FabricObject) :
  findBackground (rotateObject m docW docH degrees <$> os) = findBackground os.
Proof.
  rewrite findBackground_fmap by apply (rotateObject_flag m).
  destruct (findBackground os) as [[i bg] |] eqn:E; [| reflexivity].
  cbn. apply findBackground_Some in E as [_ Hbg].
  unfold rotateObject. now rewrite Hbg.
Qed.

(** The document size after a turn by 90 or 270 degrees of a scene with
    a background: swapped. *)
Lemma docSize_swapped (c : Canvas) (os : list FabricObject) :
  findBackground os = findBackground (objects c) ->
  findBackground (objects c) <> None ->
  docSize
    (set_objects
       (updateBackground (set_box 0 0 (snd (docSize c)) (fst (docSize c))) os)
       c)
  = (snd (docSize c), fst (docSize c)).
Proof.
  intros Hfind Hbg. unfold docSize at 1. cbn [objects set_objects].
  rewrite findBackground_updateBackground by reflexivity.
  rewrite Hfind.
  destruct (findBackground (objects c)) as [[i bg] |]; [reflexivity |].
  now contradiction Hbg.
Qed.

Lemma turned_lookup (f g : FabricObject -> FabricObject)
    (os : list FabricObject) (i : nat) (o : FabricObject) :
  os !! i = Some o -> obj_isDocBackground (g o) = false ->
  updateBackground f (g <$> os) !! i = Some (g o).
Proof.
  intros Hi Ho. apply updateBackground_lookup_other; [| exact Ho].
  now rewrite list_lookup_fmap, Hi.
Qed.

(** On a scene with a background rectangle, `rotateCanvas` by 180
    degrees puts the centre of every object where two calls with 90
    degrees put it, and by 270 degrees where three calls with 90 degrees
    put it: a half turn sends the centre `(cx, cy)` to
    `(docW - cx, docH - cy)` and keeps the document size, a
    three-quarter turn sends it to `(cy, docW - cx)` and swaps the
    document size as one quarter turn does. *)
Theorem rotateCanvas_turns_compose (c : Canvas) :
  findBackground (objects c) <> None ->
  let half := rotateCanvas m 180 c in
  let twice := rotateCanvas m 90 (rotateCanvas m 90 c) in
  let threeQuarter := rotateCanvas m 270 c in
  let thrice := rotateCanvas m 90 twice in
  docSize half = docSize c /\ docSize twice = docSize c
  /\ docSize threeQuarter = (snd (docSize c), fst (docSize c))
  /\ docSize thrice = (snd (docSize c), fst (docSize c))
  /\ forall i o,
       objects c !! i = Some o -> obj_isDocBackground o = false ->
       exists h q2 t q3,
         objects half !! i = Some h /\ objects twice !! i = Some q2
         /\ objects threeQuarter !! i = Some t
         /\ objects thrice !! i = Some q3
         /\ centerX h == fst (docSize c) - centerX o
         /\ centerY h == snd (docSize c) - centerY o
         /\ centerX q2 == centerX h /\ centerY q2 == centerY h
         /\ centerX t == centerY o
         /\ centerY t == fst (docSize c) - centerX o
         /\ centerX q3 == centerX t /\ centerY q3 == centerY t.
Proof.
  intros Hbg half twice threeQuarter thrice.
  assert (H1 : docSize (rotateCanvas m 90 c) = (snd (docSize c), fst (docSize c))).
  { rewrite docSize_rotateCanvas_90.
    destruct (findBackground (objects c)); [reflexivity | now contradiction Hbg]. }
  assert (H2 : docSize twice = docSize c) by apply docSize_two_turns.
  assert (Hhalf : docSize half = docSize c).
  { subst half. rewrite rotateCanvas_180. unfold docSize at 1.
    cbn [objects set_objects]. rewrite findBackground_rotated.
    reflexivity. }
  split; [exact Hhalf |]. split; [exact H2 |].
  split.
  { subst threeQuarter. rewrite rotateCanvas_270.
    apply docSize_swapped; [apply findBackground_rotated | exact Hbg]. }
  split.
  { subst thrice. rewrite docSize_rotateCanvas_90.
    destruct (findBackground (objects twice)) eqn:E.
    - rewrite H2. reflexivity.
    - exfalso. subst twice.
      rewrite !findBackground_rotateCanvas_90 in E.
      destruct (findBackground (objects c)); [discriminate E |].
      now apply Hbg. }
  intros i o Hi Ho.
  destruct (quarter_turn_step m c i o Hi Ho) as (o1 & Hi1 & F1 & X1 & Y1).
  destruct (quarter_turn_step m _ i o1 Hi1 F1) as (o2 & Hi2 & F2 & X2 & Y2).
  destruct (quarter_turn_step m _ i o2 Hi2 F2) as (o3 & Hi3 & F3 & X3 & Y3).
  fold twice in Hi2, Hi3, X3. fold thrice in Hi3.
  rewrite H1 in X2. rewrite H2 in X3. cbn [fst snd] in X2.
  exists (rotateObject m (fst (docSize c)) (snd (docSize c)) 180 o), o2,
         (rotateObject m (fst (docSize c)) (snd (docSize c)) 270 o), o3.
  split.
  { subst half. rewrite rotateCanvas_180. cbn [objects set_objects].
    now rewrite list_lookup_fmap, Hi. }
  split; [exact Hi2 |].
  split.
  { subst threeQuarter. rewrite rotateCanvas_270. cbn [objects set_objects].
    apply turned_lookup; [exact Hi |]. now rewrite (rotateObject_flag m). }
  split; [exact Hi3 |].
  rewrite rotateObject_180, rotateObject_270 by exact Ho.
  assert (Hcx : centerX
                  (set_position_angle
                     (fst (docSize c) - centerX o
                      - (JS.nullish (obj_width o) 0
                         * JS.nullish (obj_scaleX o) 1) / 2)
                     (snd (docSize c) - centerY o
                      - (JS.nullish (obj_height o) 0
                         * JS.nullish (obj_scaleY o) 1) / 2)
                     (JS.nullish (obj_angle o) 0 + 180) o)
                == fst (docSize c) - centerX o)
    by (unfold centerX, centerY; cbn; field).
  assert (Hcy : centerY
                  (set_position_angle
                     (fst (docSize c) - centerX o
                      - (JS.nullish (obj_width o) 0
                         * JS.nullish (obj_scaleX o) 1) / 2)
                     (snd (docSize c) - centerY o
                      - (JS.nullish (obj_height o) 0
                         * JS.nullish (obj_scaleY o) 1) / 2)
                     (JS.nullish (obj_angle o) 0 + 180) o)
                == snd (docSize c) - centerY o)
    by (unfold centerX, centerY; cbn; field).
  assert (Htx : centerX
                  (set_position_angle
                     (centerY o
                      - (JS.nullish (obj_width o) 0
                         * JS.nullish (obj_scaleX o) 1) / 2)
                     (fst (docSize c) - centerX o
                      - (JS.nullish (obj_height o) 0
                         * JS.nullish (obj_scaleY o) 1) / 2)
                     (JS.nullish (obj_angle o) 0 + 270) o)
                == centerY o)
    by (unfold centerX, centerY; cbn; field).
  assert (Hty : centerY
                  (set_position_angle
                     (centerY o
                      - (JS.nullish (obj_width o) 0
                         * JS.nullish (obj_scaleX o) 1) / 2)
                     (fst (docSize c) - centerX o
                      - (JS.nullish (obj_height o) 0
                         * JS.nullish (obj_scaleY o) 1) / 2)
                     (JS.nullish (obj_angle o) 0 + 270) o)
                == fst (docSize c) - centerX o)
    by (unfold centerX, centerY; cbn; field).
  split; [exact Hcx |]. split; [exact Hcy |].
  split; [rewrite Hcx; lra |]. split; [rewrite Hcy; lra |].
  split; [exact Htx |]. split; [exact Hty |].
  split; [rewrite Htx; lra | rewrite Hty; lra].
Qed.

End Turns.

(** The theorem on the 200 x 100 sample: the half turn keeps the size
    and sends the rectangle's centre (30, 30) to (170, 70), as two
    quarter turns do. *)
Lemma rotateCanvas_turns_compose_witness :
  docSize (rotateCanvas coarseMath 180 wideScene) = (200, 100)%Q
  /\ exists h q2,
       objects (rotateCanvas coarseMath 180 wideScene) !! 1%nat = Some h
       /\ objects (rotateCanvas coarseMath 90
                     (rotateCanvas coarseMath 90 wideScene)) !! 1%nat
          = Some q2
       /\ (centerX h == 170)%Q /\ (centerX q2 == centerX h)%Q.
Proof.
  destruct (rotateCanvas_turns_compose coarseMath wideScene)
    as (H1 & _ & _ & _ & H5); [discriminate |].
  split; [rewrite H1; reflexivity |].
  destruct (H5 1%nat (rectAt 15 15 30 30 "#00ff00") eq_refl eq_refl)
    as (h & q2 & _ & _ & Hh & Hq2 & _ & _ & X & _ & X2 & _).
  exists h, q2. split; [exact Hh |]. split; [exact Hq2 |].
  split; [rewrite X; reflexivity | exact X2].
Defined.
